(** * caddy-meter-module: a shallow embedding of the metric registry and of
      the request-time recording handler.

    The development follows the two Go files of the package [meter]:

    - [meter.go] / [metric.go]: [Metric], [MeterModule], [Provision],
      [parseMeter], [UnmarshalCaddyfile], [parseLabelsBlock];
    - the handler file: [UseMeter], [report], [responseWriter], [ServeHTTP].

    What the package imports (Caddy's dispenser and replacer, net/http's
    response writer, the Prometheus registry and collectors, strconv, time)
    is not part of the package.  Each of these is an interface here (a type
    class); the package's functions are written once, over the interface,
    and every statement about them holds for all implementations.  The
    downstream handler is a tree of the steps it takes on the writer and the
    replacer it is given.  Small concrete implementations at the end of the
    definitions are used to run the functions on concrete inputs. *)

From Stdlib Require Import ZArith String Ascii List Lia Bool.
From Stdlib Require Import Floats.PrimFloat Numbers.Cyclic.Int63.Uint63.
From stdpp Require Import gmap strings list pretty.

Import ListNotations.

(* ===================================================================== *)
(** ** Go base types                                                      *)
(* ===================================================================== *)

(** [float64] is IEEE 754 binary64; so is Rocq's primitive [float]. *)
Definition float64 : Type := PrimFloat.float.

(** Go's [int] on a 64-bit platform: a [Z] kept in the signed 64-bit range
    by [wrap64] after every addition. *)
Definition int : Type := Z.

Definition wrap64 (z : Z) : Z := ((z + 2 ^ 63) mod 2 ^ 64 - 2 ^ 63)%Z.

Definition int_add (a b : int) : int := wrap64 (a + b).

Definition fits_int (z : Z) : Prop := (- 2 ^ 63 <= z < 2 ^ 63)%Z.

(** An [error] value: [None] is [nil], [Some msg] an error with that text. *)
Definition error : Type := option string.

(** [x == 0] on [float64]: IEEE comparison, true of both zeros and false of
    NaN. *)
Definition float_is_zero (x : float64) : bool := PrimFloat.eqb x 0%float.

(** Conversion [float64(i)] of an integer: exact for [|i| < 2^53], which
    covers every use below. *)
Definition float64_of_int (i : Z) : float64 :=
  if (i <? 0)%Z
  then PrimFloat.opp (PrimFloat.of_uint63 (Uint63.of_Z (- i)))
  else PrimFloat.of_uint63 (Uint63.of_Z i).

(** [strconv.Itoa]: the decimal text of an integer. *)
Definition Itoa (i : int) : string := pretty i.

(** The two [strconv] functions on floats that the package calls.
    [ParseFloat s] is [strconv.ParseFloat(s, 64)], with [None] for a
    non-nil error; [FormatFloat f] is
    [strconv.FormatFloat(f, 'f', -1, 64)]. *)
Class Strconv : Type := {
  ParseFloat : string -> option float64;
  FormatFloat : float64 -> string
}.

(* ===================================================================== *)
(** ** package time                                                       *)
(* ===================================================================== *)

(** A monotonic clock reading and a [time.Duration], both in nanoseconds. *)
Definition Time : Type := Z.
Definition Duration : Type := Z.

Definition Second : Duration := 1000000000%Z.

(** [time.Since(start)] when the clock reads [now] (two readings of one
    process are never so far apart that Go would saturate the result). *)
Definition Since (now start : Time) : Duration := (now - start)%Z.

(** [Duration.Seconds]: [float64(d / Second) + float64(d % Second) / 1e9],
    with Go's truncating division and remainder. *)
Definition Seconds (d : Duration) : float64 :=
  (float64_of_int (Z.quot d Second)
   + float64_of_int (Z.rem d Second) / 1000000000)%float.

(* ===================================================================== *)
(** ** net/http: the response writer                                      *)
(* ===================================================================== *)

(** The interfaces beyond [http.ResponseWriter] that a handler looks for on
    the writer it is given, by a type assertion such as [w.(http.Flusher)]
    or, for the last, by asking for an [Unwrap] method. *)
Inductive Optional : Type :=
| Flusher
| Hijacker
| ReaderFrom
| Pusher
| Unwrapper.

(** [http.ResponseWriter], as a state of type [W] with the two methods that
    change it.  ([Header()] hands out the header map and is untouched by
    the wrapper below.)  [UseOptional i w] is the assertion of the writer to
    the optional interface [i] followed, when it succeeds, by a call through
    the interface: [None] when the writer's type does not have the
    interface, and otherwise the writer after the call. *)
Class ResponseWriter (W : Type) : Type := {
  WriteHeader : int -> W -> W;
  Write : list Byte.byte -> W -> (int * error) * W;
  UseOptional : Optional -> W -> option W
}.

(** [type responseWriter struct { http.ResponseWriter; statusCode int;
    responseLength int }]. *)
Record responseWriter (W : Type) : Type := mkResponseWriter {
  inner : W;
  statusCode : int;
  responseLength : int
}.
Arguments mkResponseWriter {W} _ _ _.
Arguments inner {W} _.
Arguments statusCode {W} _.
Arguments responseLength {W} _.

(** [func (w *responseWriter) WriteHeader(statusCode int)] *)
Definition responseWriter_WriteHeader {W} `{ResponseWriter W}
    (code : int) (w : responseWriter W) : responseWriter W :=
  mkResponseWriter (WriteHeader code (inner w)) code (responseLength w).

(** [func (w *responseWriter) Status() int] *)
Definition responseWriter_Status {W} (w : responseWriter W) : int :=
  statusCode w.

(** [func (w *responseWriter) Write(b []byte) (int, error)] *)
Definition responseWriter_Write {W} `{ResponseWriter W}
    (b : list Byte.byte) (w : responseWriter W)
    : (int * error) * responseWriter W :=
  let '((n, err), inner') := Write b (inner w) in
  ((n, err),
   mkResponseWriter inner' (statusCode w) (int_add (responseLength w) n)).

(** [*responseWriter] is itself an [http.ResponseWriter].  The struct embeds
    the interface, not the wrapped writer's type: its method set is
    [Header], [Write] and [WriteHeader] (the last two its own) and
    [Status].  It has none of the optional interfaces, whatever the wrapped
    writer has, so every assertion to one fails on it. *)
#[export] Instance responseWriter_is_ResponseWriter {W} `{ResponseWriter W}
    : ResponseWriter (responseWriter W) := {
  WriteHeader := responseWriter_WriteHeader;
  Write := responseWriter_Write;
  UseOptional := fun _ _ => None
}.

(* ===================================================================== *)
(** ** prometheus: collectors and the registry                            *)
(* ===================================================================== *)

(** A [*prometheus.CounterVec] as returned by [prometheus.NewCounterVec]:
    the address stands for the pointer, the rest is what the constructor
    was given. *)
Record CounterVec : Type := mkCounterVec {
  cv_addr : nat;
  cv_Name : string;
  cv_Help : string;
  cv_labelNames : list string
}.

(** A [*prometheus.HistogramVec] as returned by
    [prometheus.NewHistogramVec]. *)
Record HistogramVec : Type := mkHistogramVec {
  hv_addr : nat;
  hv_Name : string;
  hv_Help : string;
  hv_Buckets : list float64;
  hv_labelNames : list string
}.

(** The dynamic type of a [prometheus.Collector] value: one of the two
    vector types of this package, or any other collector. *)
Inductive Collector : Type :=
| IsCounterVec (c : CounterVec)
| IsHistogramVec (h : HistogramVec)
| OtherCollector (addr : nat).

(** The error [registry.Register] returns: either a
    [prometheus.AlreadyRegisteredError], or any other error. *)
Inductive RegisterError : Type :=
| AlreadyRegisteredError (ExistingCollector NewCollector : Collector)
| OtherRegisterError (msg : string).

(** [prometheus.Registerer], as a state of type [R]. *)
Class Registerer (R : Type) : Type := {
  Register : Collector -> R -> option RegisterError * R
}.

(** A call made on a bound collector at request time:
    [c.WithLabelValues(lvs...).Add(v)] or
    [h.WithLabelValues(lvs...).Observe(v)]. *)
Inductive BackendCall : Type :=
| CounterAdd (c : CounterVec) (labelValues : list string) (v : float64)
| HistogramObserve (h : HistogramVec) (labelValues : list string) (v : float64).

(** The collectors at request time.  [callReturns call] says whether the
    call returns; when it does not, it panics: [WithLabelValues] panics
    where [GetMetricWithLabelValues] returns an error, and so does [Add] on
    a value it refuses.  What a call that returns does to the collector is
    the backend's affair. *)
Class Collectors : Type := {
  callReturns : BackendCall -> bool
}.

(* ===================================================================== *)
(** ** metric.go                                                          *)
(* ===================================================================== *)

(** [type MetricType string] *)
Definition MetricType : Type := string.
Definition MetricTypeCounter : MetricType := "counter".
Definition MetricTypeHistogram : MetricType := "histogram".

(** [type Label struct { Name, Matcher, Value string }] *)
Record Label : Type := mkLabel {
  Label_Name : string;
  Label_Matcher : string;
  Label_Value : string
}.

(** [type Metric struct].  The two unexported fields are pointers, [None]
    being [nil]. *)
Record Metric : Type := mkMetric {
  Type_ : MetricType;
  Name : string;
  ExportName : string;
  Description : string;
  Labels : list Label;
  Buckets : list float64;
  AfterResponse : bool;
  Value : string;
  requestCounter : option CounterVec;
  responseTime : option HistogramVec
}.

(** [&Metric{Type: metricType}]: every other field has its zero value. *)
Definition newMetric (metricType : MetricType) : Metric :=
  mkMetric metricType "" "" "" [] [] false "" None None.

Definition set_Name (v : string) (m : Metric) : Metric :=
  mkMetric (Type_ m) v (ExportName m) (Description m) (Labels m) (Buckets m)
           (AfterResponse m) (Value m) (requestCounter m) (responseTime m).
Definition set_ExportName (v : string) (m : Metric) : Metric :=
  mkMetric (Type_ m) (Name m) v (Description m) (Labels m) (Buckets m)
           (AfterResponse m) (Value m) (requestCounter m) (responseTime m).
Definition set_Description (v : string) (m : Metric) : Metric :=
  mkMetric (Type_ m) (Name m) (ExportName m) v (Labels m) (Buckets m)
           (AfterResponse m) (Value m) (requestCounter m) (responseTime m).
Definition set_Labels (v : list Label) (m : Metric) : Metric :=
  mkMetric (Type_ m) (Name m) (ExportName m) (Description m) v (Buckets m)
           (AfterResponse m) (Value m) (requestCounter m) (responseTime m).
Definition set_Buckets (v : list float64) (m : Metric) : Metric :=
  mkMetric (Type_ m) (Name m) (ExportName m) (Description m) (Labels m) v
           (AfterResponse m) (Value m) (requestCounter m) (responseTime m).
Definition set_AfterResponse (v : bool) (m : Metric) : Metric :=
  mkMetric (Type_ m) (Name m) (ExportName m) (Description m) (Labels m)
           (Buckets m) v (Value m) (requestCounter m) (responseTime m).
Definition set_Value (v : string) (m : Metric) : Metric :=
  mkMetric (Type_ m) (Name m) (ExportName m) (Description m) (Labels m)
           (Buckets m) (AfterResponse m) v (requestCounter m) (responseTime m).
Definition set_requestCounter (v : option CounterVec) (m : Metric) : Metric :=
  mkMetric (Type_ m) (Name m) (ExportName m) (Description m) (Labels m)
           (Buckets m) (AfterResponse m) (Value m) v (responseTime m).
Definition set_responseTime (v : option HistogramVec) (m : Metric) : Metric :=
  mkMetric (Type_ m) (Name m) (ExportName m) (Description m) (Labels m)
           (Buckets m) (AfterResponse m) (Value m) (requestCounter m) v.

(* ===================================================================== *)
(** ** caddy.Replacer                                                     *)
(* ===================================================================== *)

(** The per-request replacer: the variables stored by [Set], read back by
    [Get]. *)
Record Replacer : Type := mkReplacer {
  static : gmap string string
}.

(** [func (r *Replacer) Set(variable string, value any)] *)
Definition Replacer_Set (variable value : string) (r : Replacer) : Replacer :=
  mkReplacer (<[variable := value]> (static r)).

(** [func (r *Replacer) Get(variable string) (any, bool)], on a variable
    that only [Set] provides. *)
Definition Replacer_Get (r : Replacer) (variable : string) : option string :=
  static r !! variable.

(** [func (r *Replacer) Delete(variable string)] *)
Definition Replacer_Delete (variable : string) (r : Replacer) : Replacer :=
  mkReplacer (delete variable (static r)).

(** Template expansion: [ReplaceAll r input empty] is
    [r.ReplaceAll(input, empty)] and [ReplaceKnown r input empty] is
    [r.ReplaceKnown(input, empty)]. *)
Class Templates : Type := {
  ReplaceAll : Replacer -> string -> string -> string;
  ReplaceKnown : Replacer -> string -> string -> string
}.

(* ===================================================================== *)
(** ** caddyhttp: the downstream handler                                  *)
(* ===================================================================== *)

(** The downstream handler [next]: what one call [next.ServeHTTP(w, r)]
    does, as a finite tree of its steps.  The handler is given the writer
    and the request, and the request carries the replacer that [ServeHTTP]
    itself uses: the handler may set, delete and read its variables.  After
    a [Write] the handler sees the returned [(n, err)], after an assertion
    of the writer to an optional interface whether it succeeded, after a
    [Get] the value, and it may go on differently.  [Tick d] is time passing
    ([d] nanoseconds) between steps.  The call ends by returning [res], or
    by a panic. *)
Inductive Handler : Type :=
| Return (res : error)
| Panic
| CallWriteHeader (code : int) (k : Handler)
| CallWrite (b : list Byte.byte) (k : int * error -> Handler)
| CallOptional (i : Optional) (k : bool -> Handler)
| CallSet (variable value : string) (k : Handler)
| CallDelete (variable : string) (k : Handler)
| CallGet (variable : string) (k : option string -> Handler)
| Tick (d : Duration) (k : Handler).

(** Running the handler against a writer, with the replacer and the clock
    threaded: the result, and the writer, the replacer and the clock as the
    handler leaves them; [None] when the handler panics. *)
Fixpoint runHandler {W} `{ResponseWriter W}
    (h : Handler) (w : W) (r : Replacer) (now : Time)
    : option (error * W * Replacer * Time) :=
  match h with
  | Return res => Some (res, w, r, now)
  | Panic => None
  | CallWriteHeader code k => runHandler k (WriteHeader code w) r now
  | CallWrite b k =>
      let '(res, w') := Write b w in runHandler (k res) w' r now
  | CallOptional i k =>
      match UseOptional i w with
      | Some w' => runHandler (k true) w' r now
      | None => runHandler (k false) w r now
      end
  | CallSet variable value k =>
      runHandler k w (Replacer_Set variable value r) now
  | CallDelete variable k => runHandler k w (Replacer_Delete variable r) now
  | CallGet variable k => runHandler (k (Replacer_Get r variable)) w r now
  | Tick d k => runHandler k w r (now + Z.max 0 d)%Z
  end.

(** The status codes the handler passes to [WriteHeader], in call order,
    when run against the writer [w] with the replacer [r]. *)
Fixpoint statusCalls {W} `{ResponseWriter W}
    (h : Handler) (w : W) (r : Replacer) : list int :=
  match h with
  | Return _ | Panic => []
  | CallWriteHeader code k => code :: statusCalls k (WriteHeader code w) r
  | CallWrite b k => let '(res, w') := Write b w in statusCalls (k res) w' r
  | CallOptional i k =>
      match UseOptional i w with
      | Some w' => statusCalls (k true) w' r
      | None => statusCalls (k false) w r
      end
  | CallSet variable value k => statusCalls k w (Replacer_Set variable value r)
  | CallDelete variable k => statusCalls k w (Replacer_Delete variable r)
  | CallGet variable k => statusCalls (k (Replacer_Get r variable)) w r
  | Tick _ k => statusCalls k w r
  end.

(** The time the handler takes when run against the writer [w] with the
    replacer [r]: the sum of its ticks. *)
Fixpoint timeTaken {W} `{ResponseWriter W}
    (h : Handler) (w : W) (r : Replacer) : Duration :=
  match h with
  | Return _ | Panic => 0%Z
  | CallWriteHeader code k => timeTaken k (WriteHeader code w) r
  | CallWrite b k => let '(res, w') := Write b w in timeTaken (k res) w' r
  | CallOptional i k =>
      match UseOptional i w with
      | Some w' => timeTaken (k true) w' r
      | None => timeTaken (k false) w r
      end
  | CallSet variable value k => timeTaken k w (Replacer_Set variable value r)
  | CallDelete variable k => timeTaken k w (Replacer_Delete variable r)
  | CallGet variable k => timeTaken (k (Replacer_Get r variable)) w r
  | Tick d k => (Z.max 0 d + timeTaken k w r)%Z
  end.

(* ===================================================================== *)
(** ** The handler: UseMeter, report, ServeHTTP                           *)
(* ===================================================================== *)

(** [type UseMeter struct].  [useMetric] is the definition the directive was
    bound to by its [Provision]. *)
Record UseMeter : Type := mkUseMeter {
  Matcher : string;
  MetricName : string;
  useMetric : Metric
}.

(** What a request carries besides the writer: its replacer, the clock, and
    the calls this directive has made on its collector and that returned
    (oldest first). *)
Record ReqState : Type := mkReqState {
  replacer : Replacer;
  clock : Time;
  backend : list BackendCall
}.

Definition record_call (c : BackendCall) (st : ReqState) : ReqState :=
  mkReqState (replacer st) (clock st) (backend st ++ [c]).

(** One call on a collector: it returns, and is on record, or it panics. *)
Definition perform `{Collectors} (c : BackendCall) (st : ReqState)
    : option ReqState :=
  if callReturns c then Some (record_call c st) else None.

(** The first loop of [report]: every label's value template, expanded
    with [ReplaceKnown] and the fallback ["<empty>"], in definition order. *)
Definition labelValues `{Templates} (h : UseMeter) (st : ReqState)
    : list string :=
  map (fun label => ReplaceKnown (replacer st) (Label_Value label) "<empty>")
      (Labels (useMetric h)).

(** [func (h *UseMeter) report(replacer *caddy.Replacer, value float64)].
    [None] is a panic: that of the call on the collector, or the
    nil-pointer panic of calling a method on a collector that was never
    bound. *)
Definition report `{Templates} `{Collectors} (h : UseMeter) (value : float64)
    (st : ReqState) : option ReqState :=
  let labelValues := labelValues h st in
  if String.eqb (Type_ (useMetric h)) MetricTypeCounter then
    let value := if float_is_zero value then 1%float else value in
    match requestCounter (useMetric h) with
    | Some c => perform (CounterAdd c labelValues value) st
    | None => None
    end
  else if String.eqb (Type_ (useMetric h)) MetricTypeHistogram then
    match responseTime (useMetric h) with
    | Some c => perform (HistogramObserve c labelValues value) st
    | None => None
    end
  else Some st.

(** The value computed before [report] on the immediate path
    ([!h.useMetric.AfterResponse]). *)
Definition immediateValue `{Strconv} `{Templates}
    (h : UseMeter) (st : ReqState) : float64 :=
  if negb (String.eqb (Value (useMetric h)) "") then
    let sValue := ReplaceAll (replacer st) (Value (useMetric h)) "1" in
    match ParseFloat sValue with
    | Some f => f
    | None => 0%float
    end
  else if String.eqb (Type_ (useMetric h)) MetricTypeHistogram then 0%float
  else 1%float.

(** The value computed before [report] on the deferred path, once the three
    response placeholders are set. *)
Definition deferredValue `{Strconv} `{Templates}
    (h : UseMeter) (duration : Duration) (st : ReqState) : float64 :=
  if negb (String.eqb (Value (useMetric h)) "") then
    let sValue := ReplaceAll (replacer st) (Value (useMetric h)) "1" in
    match ParseFloat sValue with
    | Some f => f
    | None => 0%float
    end
  else if String.eqb (Type_ (useMetric h)) MetricTypeHistogram
  then Seconds duration
  else 0%float.

(** The three [replacer.Set] calls of the deferred path. *)
Definition publish `{Strconv} {W} (wrap : responseWriter W)
    (duration : Duration) (st : ReqState) : ReqState :=
  let r := replacer st in
  let r := Replacer_Set "meter.response.status"
             (Itoa (responseWriter_Status wrap)) r in
  let r := Replacer_Set "meter.response.size"
             (Itoa (responseLength wrap)) r in
  let r := Replacer_Set "meter.response.duration"
             (FormatFloat (Seconds duration)) r in
  mkReqState r (clock st) (backend st).

(** The first half of the deferred path: wrap the writer, call [next] on
    the wrapper between two clock readings, and set the three placeholders
    on the replacer as the handler left it.  Returns the handler's result,
    the wrapper as the handler left it, the measured duration and the
    request state; [None] when the handler panics, which nothing here
    recovers from. *)
Definition capture `{Strconv} {W} `{ResponseWriter W}
    (w : W) (st : ReqState) (next : Handler)
    : option (error * responseWriter W * Duration * ReqState) :=
  let wrap := mkResponseWriter w 0%Z 0%Z in
  let start := clock st in
  match runHandler next wrap (replacer st) start with
  | None => None
  | Some (res, wrap, r, now') =>
      let duration := Since now' start in
      Some (res, wrap, duration,
            publish wrap duration (mkReqState r now' (backend st)))
  end.

(** [func (h *UseMeter) ServeHTTP(w, r, next) error], for a request that
    carries a replacer, as every request served by Caddy does.  The result
    is the returned error, the caller's writer and the request state
    afterwards; [None] is a panic. *)
Definition ServeHTTP `{Strconv} `{Templates} `{Collectors}
    {W} `{ResponseWriter W}
    (h : UseMeter) (w : W) (st : ReqState) (next : Handler)
    : option (error * W * ReqState) :=
  if negb (AfterResponse (useMetric h)) then
    let fValue := immediateValue h st in
    match report h fValue st with
    | None => None
    | Some st =>
        match runHandler next w (replacer st) (clock st) with
        | None => None
        | Some (res, w', r, now') =>
            Some (res, w', mkReqState r now' (backend st))
        end
    end
  else
    match capture w st next with
    | None => None
    | Some (res, wrap, duration, st) =>
        let fValue := deferredValue h duration st in
        match report h fValue st with
        | None => None
        | Some st => Some (res, inner wrap, st)
        end
    end.

(** The call [next.ServeHTTP] as [ServeHTTP] makes it: on the caller's
    writer on the immediate path, on a new sink around it on the deferred
    path.  The handler's result, and the caller's writer, the replacer and
    the clock as the handler leaves them; [None] when it panics. *)
Definition callNext {W} `{ResponseWriter W}
    (h : UseMeter) (w : W) (st : ReqState) (next : Handler)
    : option (error * W * Replacer * Time) :=
  if negb (AfterResponse (useMetric h))
  then runHandler next w (replacer st) (clock st)
  else
    match runHandler next (mkResponseWriter w 0%Z 0%Z) (replacer st)
            (clock st) with
    | Some (res, wrap, r, now') => Some (res, inner wrap, r, now')
    | None => None
    end.

(** The request state against which [ServeHTTP] expands the value and label
    templates: the incoming one on the immediate path; on the deferred path
    the one the handler left, with the three response placeholders set
    ([None] when the handler panicked and no template is expanded). *)
Definition resolveState `{Strconv} {W} `{ResponseWriter W}
    (h : UseMeter) (w : W) (st : ReqState) (next : Handler)
    : option ReqState :=
  if negb (AfterResponse (useMetric h)) then Some st
  else
    match capture w st next with
    | Some (_, _, _, st) => Some st
    | None => None
    end.

(** The value [ServeHTTP] hands to [report]. *)
Definition resolvedValue `{Strconv} `{Templates} {W} `{ResponseWriter W}
    (h : UseMeter) (w : W) (st : ReqState) (next : Handler)
    : option float64 :=
  if negb (AfterResponse (useMetric h)) then Some (immediateValue h st)
  else
    match capture w st next with
    | Some (_, _, duration, st) => Some (deferredValue h duration st)
    | None => None
    end.

(** The collector that [report] will call was bound by [Provision]. *)
Definition collectorBound (m : Metric) : Prop :=
  (Type_ m = MetricTypeCounter -> is_Some (requestCounter m))
  /\ (Type_ m = MetricTypeHistogram -> is_Some (responseTime m)).

(* ===================================================================== *)
(** ** meter.go: MeterModule and Provision                                *)
(* ===================================================================== *)

(** [type MeterModule struct { Metrics map[string]*Metric; mu sync.RWMutex }].
    The map holds pointers: a change made to a [*Metric] is a change of the
    map's entry. *)
Record MeterModule : Type := mkMeterModule {
  Metrics : gmap string Metric
}.

(** How one step of [Provision] ends: the loop goes on (and, after the last
    definition, [Provision] returns [nil]); [Provision] returns an error; or
    the goroutine panics. *)
Inductive Flow : Type :=
| Continue
| ReturnError (e : string)
| Panicked.

(** The body of the loop of [Provision] for one definition [m].  [addr] is
    the address at which [prometheus.NewCounterVec] / [NewHistogramVec]
    allocates.  The type assertions on [are.ExistingCollector] are
    of the one-result form, which panics on any other dynamic type. *)
Definition provisionMetric {R} `{Registerer R}
    (m : Metric) (registry : R) (addr : nat) : Metric * R * Flow :=
  let labelNames := map Label_Name (Labels m) in
  if String.eqb (Type_ m) MetricTypeCounter then
    let c := mkCounterVec addr (ExportName m) (Description m) labelNames in
    let m := set_requestCounter (Some c) m in
    match Register (IsCounterVec c) registry with
    | (None, registry) => (m, registry, Continue)
    | (Some (AlreadyRegisteredError existing _), registry) =>
        match existing with
        | IsCounterVec e => (set_requestCounter (Some e) m, registry, Continue)
        | _ => (m, registry, Panicked)
        end
    | (Some (OtherRegisterError msg), registry) =>
        (m, registry, ReturnError msg)
    end
  else if String.eqb (Type_ m) "histogram" then
    let c := mkHistogramVec addr (ExportName m) (Description m) (Buckets m)
               labelNames in
    let m := set_responseTime (Some c) m in
    match Register (IsHistogramVec c) registry with
    | (None, registry) => (m, registry, Continue)
    | (Some (AlreadyRegisteredError existing _), registry) =>
        match existing with
        | IsHistogramVec e => (set_responseTime (Some e) m, registry, Continue)
        | _ => (m, registry, Panicked)
        end
    | (Some (OtherRegisterError msg), registry) =>
        (m, registry, ReturnError msg)
    end
  else (m, registry, ReturnError ("unknown metric type: " ++ Type_ m)).

(** [for _, m := range m.Metrics { ... }], visiting the keys in [order]
    (Go leaves the order of a map range unspecified). *)
Fixpoint provisionLoop {R} `{Registerer R}
    (order : list string) (metrics : gmap string Metric) (registry : R)
    (addr : nat) : gmap string Metric * R * Flow :=
  match order with
  | [] => (metrics, registry, Continue)
  | name :: rest =>
      match metrics !! name with
      | None => provisionLoop rest metrics registry addr
      | Some m =>
          let '(m, registry, flow) := provisionMetric m registry addr in
          let metrics := <[name := m]> metrics in
          match flow with
          | Continue => provisionLoop rest metrics registry (S addr)
          | _ => (metrics, registry, flow)
          end
      end
  end.

(** [func (m *MeterModule) Provision(ctx caddy.Context) error], with the
    registry of [ctx.GetMetricsRegistry()] as state. *)
Definition Provision {R} `{Registerer R}
    (order : list string) (mm : MeterModule) (registry : R) (addr : nat)
    : MeterModule * R * Flow :=
  if (size (Metrics mm) =? 0)%nat then (mm, registry, Continue)
  else
    let '(metrics, registry, flow) :=
      provisionLoop order (Metrics mm) registry addr in
    (mkMeterModule metrics, registry, flow).

(* ===================================================================== *)
(** ** meter.go: the Caddyfile parser                                     *)
(* ===================================================================== *)

(** [*caddyfile.Dispenser], as a state of type [D] with the four methods
    the parser calls.  The three moves return whether they succeeded. *)
Class Dispenser (D : Type) : Type := {
  Next : D -> bool * D;
  NextArg : D -> bool * D;
  NextBlock : nat -> D -> bool * D;
  Val : D -> string
}.

(** The result of a parsing function: a value, the text of the error built
    by [d.Err] / [d.Errf] (without its file and line prefix), or a loop cut
    short by the iteration bound [fuel]. *)
Inductive Res (A : Type) : Type :=
| Ok (a : A)
| Err (msg : string)
| OutOfFuel.
Arguments Ok {A} _.
Arguments Err {A} _.
Arguments OutOfFuel {A}.

Definition Res_bind {A B} (r : Res A) (f : A -> Res B) : Res B :=
  match r with
  | Ok a => f a
  | Err msg => Err msg
  | OutOfFuel => OutOfFuel
  end.

Notation "'let?' p := r 'in' k" := (Res_bind r (fun p => k))
  (at level 10, p pattern, r at level 200, k at level 200).

(** [func parseFloat(s string) (float64, error)] *)
Definition parseFloat `{Strconv} (s : string) : option float64 :=
  ParseFloat s.

(** The loop of the ["buckets"] case, entered on the first value. *)
Fixpoint bucketsLoop `{Strconv} {D} `{Dispenser D}
    (fuel : nat) (d : D) (buckets : list float64)
    : Res (list float64 * D) :=
  match fuel with
  | O => OutOfFuel
  | S fuel =>
      let val := Val d in
      if String.eqb val "" then Ok (buckets, d)
      else
        match parseFloat val with
        | None => Err ("invalid bucket value: " ++ val)
        | Some f =>
            let buckets := buckets ++ [f] in
            let '(more, d) := NextArg d in
            if more then bucketsLoop fuel d buckets else Ok (buckets, d)
        end
  end.

(** The loop [for d.NextBlock(2) { ... }] of [parseLabelsBlock]. *)
Fixpoint labelsLoop {D} `{Dispenser D}
    (fuel : nat) (d : D) (labels : list Label) : Res (list Label * D) :=
  match fuel with
  | O => OutOfFuel
  | S fuel =>
      let '(more, d) := NextBlock 2 d in
      if negb more then Ok (labels, d)
      else if String.eqb (Val d) "}" then Ok (labels, d)
      else
        let name := Val d in
        let '(ok, d) := NextArg d in
        if negb ok then Err "label requires a value"
        else labelsLoop fuel d (labels ++ [mkLabel name "" (Val d)])
  end.

(** [func parseLabelsBlock(d *caddyfile.Dispenser) ([]Label, error)] *)
Definition parseLabelsBlock {D} `{Dispenser D} (fuel : nat) (d : D)
    : Res (list Label * D) :=
  labelsLoop fuel d [].

(** The [switch d.Val()] over the option keys of one metric block. *)
Definition parseOption `{Strconv} {D} `{Dispenser D}
    (fuel : nat) (metricType : MetricType) (d : D) (m : Metric)
    : Res (Metric * D) :=
  let key := Val d in
  if String.eqb key "description" then
    let '(ok, d) := NextArg d in
    if negb ok then Err "description requires a value"
    else Ok (set_Description (Val d) m, d)
  else if String.eqb key "name" then
    let '(ok, d) := NextArg d in
    if negb ok then Err "name requires a value"
    else Ok (set_ExportName (Val d) m, d)
  else if String.eqb key "after_response" then
    Ok (set_AfterResponse true m, d)
  else if String.eqb key "value" then
    let '(ok, d) := NextArg d in
    if negb ok then Err "value requires a value"
    else Ok (set_Value (Val d) m, d)
  else if String.eqb key "labels" then
    let? (labels, d) := parseLabelsBlock fuel d in
    Ok (set_Labels labels m, d)
  else if String.eqb key "buckets" then
    if negb (String.eqb metricType "histogram")
    then Err "buckets only valid for histogram"
    else
      let '(ok, d) := NextArg d in
      if negb ok then Err "buckets requires a list of values"
      else
        let? (buckets, d) := bucketsLoop fuel d [] in
        Ok (set_Buckets buckets m, d)
  else Err ("unexpected block: " ++ key).

(** The inner [for] of [UnmarshalCaddyfile]: the options of one metric. *)
Fixpoint optionsLoop `{Strconv} {D} `{Dispenser D}
    (fuel : nat) (metricType : MetricType) (d : D) (m : Metric)
    : Res (Metric * D) :=
  match fuel with
  | O => OutOfFuel
  | S fuel' =>
      if String.eqb (Val d) "" then Ok (m, d)
      else
        let? (m, d) := parseOption fuel metricType d m in
        let '(more, d) := NextBlock 1 d in
        if more then optionsLoop fuel' metricType d m else Ok (m, d)
  end.

(** The case [MetricTypeCounter, MetricTypeHistogram] of the outer
    [switch]: one metric, from its kind to its entry in the map. *)
Definition parseMetric `{Strconv} {D} `{Dispenser D}
    (fuel : nat) (metricType : MetricType) (d : D)
    (metrics : gmap string Metric) : Res (gmap string Metric * D) :=
  let m := newMetric metricType in
  let m := if String.eqb metricType MetricTypeHistogram
           then set_AfterResponse true m else m in
  let '(ok, d) := NextArg d in
  if negb ok then Err "expected metric name"
  else
    let m := set_Name (Val d) m in
    if String.eqb (Name m) "" then Err "metric name is required"
    else
      let '(ok, d) := NextBlock 1 d in
      if negb ok
      then Err ("expected block for " ++ metricType ++ " " ++ Name m)
      else
        let? (m, d) := optionsLoop fuel metricType d m in
        match metrics !! Name m with
        | Some _ => Err ("metric " ++ Name m ++ " already defined")
        | None =>
            let m := if String.eqb (ExportName m) ""
                     then set_ExportName (Name m) m else m in
            Ok (<[Name m := m]> metrics, d)
        end.

(** The outer [for] of [UnmarshalCaddyfile].  The map is returned as the
    loop leaves it, whatever the outcome. *)
Fixpoint metricsLoop `{Strconv} {D} `{Dispenser D}
    (fuel : nat) (d : D) (metrics : gmap string Metric)
    : gmap string Metric * Res D :=
  match fuel with
  | O => (metrics, OutOfFuel)
  | S fuel' =>
      if String.eqb (Val d) "" then (metrics, Ok d)
      else if String.eqb (Val d) "}" then (metrics, Ok d)
      else
        let metricType : MetricType := Val d in
        if String.eqb metricType MetricTypeCounter
           || String.eqb metricType MetricTypeHistogram
        then
          match parseMetric fuel metricType d metrics with
          | Ok (metrics, d) =>
              let '(more, d) := Next d in
              if more then metricsLoop fuel' d metrics else (metrics, Ok d)
          | Err msg => (metrics, Err msg)
          | OutOfFuel => (metrics, OutOfFuel)
          end
        else (metrics, Err ("unexpected directive in meter: " ++ Val d))
  end.

(** [func (mm *MeterModule) UnmarshalCaddyfile(d *caddyfile.Dispenser) error]:
    the module as the call leaves it, and [Ok] for a [nil] error. *)
Definition UnmarshalCaddyfile `{Strconv} {D} `{Dispenser D}
    (fuel : nat) (mm : MeterModule) (d : D) : MeterModule * Res D :=
  let mm := mkMeterModule ∅ in
  let '(ok, d) := Next d in
  if negb ok then (mm, Err "expected 'meter' block")
  else
    let '(ok, d) := NextBlock 0 d in
    if negb ok then (mm, Err "expected block for 'meter'")
    else
      let '(metrics, r) := metricsLoop fuel d (Metrics mm) in
      (mkMeterModule metrics, r).

(** [func parseMeter(d *caddyfile.Dispenser, existingVal any) (any, error)]:
    [existingVal] is [Some m] when it holds a [*MeterModule], else a new
    module is parsed into. *)
Definition parseMeter `{Strconv} {D} `{Dispenser D}
    (fuel : nat) (d : D) (existingVal : option MeterModule)
    : MeterModule * Res D :=
  match existingVal with
  | Some m => UnmarshalCaddyfile fuel m d
  | None => UnmarshalCaddyfile fuel (mkMeterModule ∅) d
  end.


(** Every Histogram definition of the map is deferred. *)
Definition histogramsDeferred (metrics : gmap string Metric) : Prop :=
  forall name m,
    metrics !! name = Some m ->
    Type_ m = MetricTypeHistogram -> AfterResponse m = true.

(** Every definition of the map is as the parser builds it: filed under its
    own name, of one of the two kinds, and with no collector bound. *)
Definition freshlyParsed (metrics : gmap string Metric) : Prop :=
  forall name m,
    metrics !! name = Some m ->
    Name m = name
    /\ (Type_ m = MetricTypeCounter \/ Type_ m = MetricTypeHistogram)
    /\ requestCounter m = None /\ responseTime m = None.

(* ===================================================================== *)
(** ** The handler file: the directive before it serves                   *)
(* ===================================================================== *)

Module Directive.

(** [type UseMeter struct] as Go has it while the configuration is loaded:
    [useMetric] is a pointer, [None] being [nil] until [Provision] sets
    it. *)
Record t : Type := mk {
  Matcher : string;
  MetricName : string;
  useMetric : option Metric
}.

End Directive.

(** [var h UseMeter]: the zero value. *)
Definition zeroDirective : Directive.t := Directive.mk "" "" None.

(** The handler as [ServeHTTP] uses it, once [useMetric] is set. *)
Definition boundDirective (h : Directive.t) : option UseMeter :=
  match Directive.useMetric h with
  | Some m => Some (mkUseMeter (Directive.Matcher h) (Directive.MetricName h) m)
  | None => None
  end.

(** [len(s) > 0 && s[0] == '@'] *)
Definition startsWithAt (s : string) : bool :=
  match s with
  | String c _ => Ascii.eqb c "@"%char
  | EmptyString => false
  end.

(** The last three statements of [UseMeter.UnmarshalCaddyfile]. *)
Definition takeMetricName {D} `{Dispenser D} (h : Directive.t) (d : D)
    : Directive.t * D * error :=
  let h := Directive.mk (Directive.Matcher h) (Val d) (Directive.useMetric h) in
  if String.eqb (Directive.MetricName h) ""
  then (h, d, Some "metric name is required")
  else (h, d, None).

(** [func (h *UseMeter) UnmarshalCaddyfile(d *caddyfile.Dispenser) error]:
    the directive and the dispenser as the call leaves them, and the
    error. *)
Definition UseMeter_UnmarshalCaddyfile {D} `{Dispenser D}
    (h : Directive.t) (d : D) : Directive.t * D * error :=
  let '(ok, d) := Next d in
  if negb ok then (h, d, Some "expected directive arguments")
  else
    let '(isArg, d) := NextArg d in
    if isArg && startsWithAt (Val d) then
      let h := Directive.mk (Val d) (Directive.MetricName h)
                 (Directive.useMetric h) in
      let '(ok, d) := NextArg d in
      if negb ok then (h, d, Some "expected metric name after matcher")
      else takeMetricName h d
    else takeMetricName h d.

(** [func parseUseMeter(helper httpcaddyfile.Helper)
    (caddyhttp.MiddlewareHandler, error)]: [None] is the [nil] handler
    returned with an error. *)
Definition parseUseMeter {D} `{Dispenser D} (d : D)
    : option Directive.t * error :=
  let '(h, _, err) := UseMeter_UnmarshalCaddyfile zeroDirective d in
  match err with
  | Some e => (None, Some e)
  | None => (Some h, None)
  end.

(** What [ctx.AppIfConfigured("meter")] returned: an error; or, with a nil
    error, a value that is a [*MeterModule], or a value that is not. *)
Inductive AppResult : Type :=
| AppError (e : string)
| AppIsMeter (metricsList : MeterModule)
| AppIsOther.

(** [func (h *UseMeter) Provision(ctx caddy.Context) error].  When the type
    assertion fails the function returns [err], which is [nil] there. *)
Definition UseMeter_Provision (h : Directive.t) (app : AppResult)
    : Directive.t * error :=
  match app with
  | AppError e => (h, Some e)
  | AppIsOther => (h, None)
  | AppIsMeter metricsList =>
      match Metrics metricsList !! Directive.MetricName h with
      | None =>
          (h, Some ("metric " ++ Directive.MetricName h ++ " not found")%string)
      | Some useMetric =>
          (Directive.mk (Directive.Matcher h) (Directive.MetricName h)
             (Some useMetric), None)
      end
  end.

(** [ServeHTTP] on the directive as Go has it: a [nil] [useMetric] is
    dereferenced by the first test, which panics. *)
Definition Directive_ServeHTTP `{Strconv} `{Templates} `{Collectors}
    {W} `{ResponseWriter W}
    (h : Directive.t) (w : W) (st : ReqState) (next : Handler)
    : option (error * W * ReqState) :=
  match boundDirective h with
  | Some u => ServeHTTP u w st next
  | None => None
  end.

(* ===================================================================== *)
(** ** Implementations of the imported interfaces                         *)
(* ===================================================================== *)

(** *** A token dispenser after Caddy's [caddyfile.Dispenser]              *)

(** The dispenser over a list of tokens, with the cursor and nesting
    counter of Caddy's.  Import chains and heredoc markers of tokens are
    left out. *)

(** A token: its text, and the file and line it starts on. *)
Record Token : Type := mkToken {
  Text : string;
  File : string;
  Line : Z
}.

Record TokenDispenser : Type := mkDispenser {
  tokens : list Token;
  cursor : Z;
  nesting : nat
}.

(** [caddyfile.NewDispenser(tokens)] *)
Definition NewDispenser (toks : list Token) : TokenDispenser :=
  mkDispenser toks (-1) 0.

(** [d.tokens[i]] when [i] is in range. *)
Definition tokenAt (d : TokenDispenser) (i : Z) : option Token :=
  if (i <? 0)%Z then None else tokens d !! Z.to_nat i.

(** [func (d *Dispenser) Val() string]: the empty string when the cursor is
    out of range. *)
Definition td_Val (d : TokenDispenser) : string :=
  match tokenAt d (cursor d) with
  | Some t => Text t
  | None => ""
  end.

(** [func (t Token) NumLineBreaks() int] *)
Definition numLineBreaks (t : Token) : Z :=
  Z.of_nat (length (filter (fun c => c = "010"%char)
                           (list_ascii_of_string (Text t)))).

(** [func isNextOnNewLine(t1, t2 Token) bool] *)
Definition isNextOnNewLine (t1 t2 : Token) : bool :=
  negb (String.eqb (File t1) (File t2))
  || (Line t1 + numLineBreaks t1 <? Line t2)%Z.

(** [func (d *Dispenser) Next() bool] *)
Definition td_Next (d : TokenDispenser) : bool * TokenDispenser :=
  if (cursor d <? Z.of_nat (length (tokens d)) - 1)%Z
  then (true, mkDispenser (tokens d) (cursor d + 1) (nesting d))
  else (false, d).

(** [func (d *Dispenser) nextOnSameLine() bool] *)
Definition nextOnSameLine (d : TokenDispenser) : bool * TokenDispenser :=
  if (cursor d <? 0)%Z
  then (true, mkDispenser (tokens d) (cursor d + 1) (nesting d))
  else if (Z.of_nat (length (tokens d)) - 1 <=? cursor d)%Z then (false, d)
  else
    match tokenAt d (cursor d), tokenAt d (cursor d + 1) with
    | Some curr, Some next =>
        if negb (isNextOnNewLine curr next)
        then (true, mkDispenser (tokens d) (cursor d + 1) (nesting d))
        else (false, d)
    | _, _ => (false, d)
    end.

(** [func (d *Dispenser) NextArg() bool]: an opening brace is not an
    argument, and the cursor steps back from it. *)
Definition td_NextArg (d : TokenDispenser) : bool * TokenDispenser :=
  let '(ok, d') := nextOnSameLine d in
  if negb ok then (false, d')
  else if String.eqb (td_Val d') "{"
  then (false, mkDispenser (tokens d') (cursor d' - 1) (nesting d'))
  else (true, d').

(** [func (d *Dispenser) NextBlock(initialNestingLevel int) bool].  Inside
    a block: move to the next token, and count a closing or opening brace
    that ends its line.  Outside: enter the block that opens on this
    line. *)
Definition td_NextBlock (initialNestingLevel : nat) (d : TokenDispenser)
    : bool * TokenDispenser :=
  if (initialNestingLevel <? nesting d)%nat then
    let '(ok, d) := td_Next d in
    if negb ok then (false, d)
    else
      let d :=
        if String.eqb (td_Val d) "}" && negb (fst (nextOnSameLine d))
        then mkDispenser (tokens d) (cursor d) (nesting d - 1)
        else
          let d := if String.eqb (td_Val d) "}"
                   then snd (nextOnSameLine d) else d in
          if String.eqb (td_Val d) "{" && negb (fst (nextOnSameLine d))
          then mkDispenser (tokens d) (cursor d) (nesting d + 1)
          else if String.eqb (td_Val d) "{"
               then snd (nextOnSameLine d) else d in
      ((initialNestingLevel <? nesting d)%nat, d)
  else
    let '(ok, d) := nextOnSameLine d in
    if negb ok then (false, d)
    else if negb (String.eqb (td_Val d) "{")
    then (false, mkDispenser (tokens d) (cursor d - 1) (nesting d))
    else
      let d := snd (td_Next d) in
      if String.eqb (td_Val d) "}" then (false, d)
      else (true, mkDispenser (tokens d) (cursor d) (nesting d + 1)).

#[export] Instance TokenDispenser_is_Dispenser : Dispenser TokenDispenser := {
  Next := td_Next;
  NextArg := td_NextArg;
  NextBlock := td_NextBlock;
  Val := td_Val
}.

(** *** strconv on plain decimal literals                                  *)

(** The value of a decimal digit. *)
Definition digitValue (c : ascii) : option Z :=
  let n := Z.of_N (N_of_ascii c) in
  if ((48 <=? n) && (n <=? 57))%Z then Some (n - 48)%Z else None.

(** Reads [digits] or [digits.digits] (either side of the point may be
    empty, not both): the digits as one integer, and the number of digits
    after the point. *)
Fixpoint readDecimal (s : list ascii) (mantissa : Z) (seenDot : bool)
    (frac : nat) (ndigits : nat) : option (Z * nat) :=
  match s with
  | [] => if (ndigits =? 0)%nat then None else Some (mantissa, frac)
  | c :: s =>
      if Ascii.eqb c "."%char then
        if seenDot then None else readDecimal s mantissa true frac ndigits
      else
        match digitValue c with
        | None => None
        | Some v =>
            readDecimal s (mantissa * 10 + v)%Z seenDot
              (if seenDot then S frac else frac) (S ndigits)
        end
  end.

(** [strconv.ParseFloat(s, 64)] on the literals [[+-]digits[.digits]] with
    a mantissa below [2^52] and at most 15 digits after the point, where Go
    computes [float64(mantissa) / 10^frac] in one rounding.  Any other text
    is refused here (Go accepts more: exponents, hexadecimal, inf, nan). *)
Definition decimal_ParseFloat (s : string) : option float64 :=
  let cs := list_ascii_of_string s in
  let '(neg, cs) :=
    match cs with
    | c :: rest =>
        if Ascii.eqb c "-"%char then (true, rest)
        else if Ascii.eqb c "+"%char then (false, rest)
        else (false, cs)
    | [] => (false, cs)
    end in
  match readDecimal cs 0 false 0 0 with
  | Some (mantissa, frac) =>
      if ((mantissa <? 2 ^ 52)%Z && (frac <=? 15)%nat)%bool then
        let f := float64_of_int mantissa in
        let f := if neg then PrimFloat.opp f else f in
        Some (if (frac =? 0)%nat then f
              else (f / float64_of_int (10 ^ Z.of_nat frac))%float)
      else None
  | None => None
  end.

(** [strconv.FormatFloat(f, 'f', -1, 64)] on whole numbers below [2^53] in
    magnitude: their decimal numeral.  Other values are outside this
    implementation and print as their integer part. *)
Definition whole_FormatFloat (f : float64) : string :=
  let a := PrimFloat.abs f in
  let z := Uint63.to_Z (PrimFloat.normfr_mantissa (fst (PrimFloat.frshiftexp a))) in
  let e := (Uint63.to_Z (snd (PrimFloat.frshiftexp a)) - 2101 - 53)%Z in
  let v := if (0 <=? e)%Z then (z * 2 ^ e)%Z else (z / 2 ^ (- e))%Z in
  if PrimFloat.ltb f 0%float then ("-" ++ pretty v)%string else pretty v.

Definition decimalStrconv : Strconv := {|
  ParseFloat := decimal_ParseFloat;
  FormatFloat := whole_FormatFloat
|}.

(** *** Placeholder expansion                                              *)

(** One pass over the input: text between [{] and the next [}] is a
    placeholder name.  A name [Set] on the replacer is replaced by its value
    ([empty] when the value is the empty string).  An unknown name is
    replaced by [empty] when [all] is set ([ReplaceAll]) and left as written
    otherwise ([ReplaceKnown]).  Escapes and nested braces are outside this
    implementation. *)
Fixpoint expand (r : Replacer) (empty : string) (all : bool)
    (s : list ascii) (cur : option string) : string :=
  match s with
  | [] =>
      match cur with
      | None => ""
      | Some key => String "{"%char key
      end
  | c :: s =>
      match cur with
      | None =>
          if Ascii.eqb c "{"%char then expand r empty all s (Some "")
          else String c (expand r empty all s None)
      | Some key =>
          if Ascii.eqb c "}"%char then
            let out :=
              match Replacer_Get r key with
              | Some v => if String.eqb v "" then empty else v
              | None => if all then empty
                        else ("{" ++ key ++ "}")%string
              end in
            (out ++ expand r empty all s None)%string
          else expand r empty all s (Some (key ++ String c ""))%string
      end
  end.

Definition scanTemplates : Templates := {|
  ReplaceAll r input empty :=
    expand r empty true (list_ascii_of_string input) None;
  ReplaceKnown r input empty :=
    expand r empty false (list_ascii_of_string input) None
|}.

(** *** A response as net/http sends it                                    *)

(** The response of a server connection: the first [WriteHeader] fixes the
    status, a [Write] before any [WriteHeader] fixes it to 200, and a write
    takes at most [room] more bytes (a short write returns an error).  Of
    the optional interfaces it has [http.Flusher] only, whose [Flush] sends
    the header, with status 200 when none was set. *)
Record httpResponse : Type := mkHttpResponse {
  wroteHeader : bool;
  status : int;
  body : list Byte.byte;
  room : Z
}.

Definition http_WriteHeader (code : int) (w : httpResponse) : httpResponse :=
  if wroteHeader w then w
  else mkHttpResponse true code (body w) (room w).

Definition http_Write (b : list Byte.byte) (w : httpResponse)
    : (int * error) * httpResponse :=
  let w := http_WriteHeader 200%Z w in
  let n := Z.min (Z.of_nat (length b)) (Z.max 0 (room w)) in
  let w' := mkHttpResponse (wroteHeader w) (status w)
              (body w ++ take (Z.to_nat n) b) (room w - n) in
  ((n, if (n <? Z.of_nat (length b))%Z then Some "short write" else None), w').

Definition http_UseOptional (i : Optional) (w : httpResponse)
    : option httpResponse :=
  match i with
  | Flusher => Some (http_WriteHeader 200%Z w)
  | _ => None
  end.

#[export] Instance httpResponse_is_ResponseWriter
    : ResponseWriter httpResponse := {
  WriteHeader := http_WriteHeader;
  Write := http_Write;
  UseOptional := http_UseOptional
}.

Definition newResponse (room : Z) : httpResponse :=
  mkHttpResponse false 0%Z [] room.

(** *** A registry after [prometheus.Registry]                             *)

(** Collectors by fully-qualified name.  Registering a name again gives an
    [AlreadyRegisteredError] holding the collector registered first when
    help text and label names agree, and another error when they do not;
    the kind of the collector plays no part in either test. *)
Definition collectorDims (c : Collector)
    : option (string * (string * list string)) :=
  match c with
  | IsCounterVec c => Some (cv_Name c, (cv_Help c, cv_labelNames c))
  | IsHistogramVec h => Some (hv_Name h, (hv_Help h, hv_labelNames h))
  | OtherCollector _ => None
  end.

Definition sameDims (a b : string * list string) : bool :=
  String.eqb (fst a) (fst b)
  && bool_decide (snd a = snd b).

Definition map_Register (c : Collector) (registry : gmap string Collector)
    : option RegisterError * gmap string Collector :=
  match collectorDims c with
  | None => (None, registry)
  | Some (name, dims) =>
      match registry !! name with
      | None => (None, <[name := c]> registry)
      | Some existing =>
          match collectorDims existing with
          | Some (_, dims') =>
              if sameDims dims dims'
              then (Some (AlreadyRegisteredError existing c), registry)
              else (Some (OtherRegisterError
                      "a previously registered descriptor with the same fully-qualified name has different label names or a different help string"),
                    registry)
          | None => (Some (AlreadyRegisteredError existing c), registry)
          end
      end
  end.

#[export] Instance mapRegistry_is_Registerer
    : Registerer (gmap string Collector) := {
  Register := map_Register
}.

(** *** The collectors, after the Prometheus client                        *)

(** A continuation byte of UTF-8. *)
Definition isContinuation (b : Z) : bool := ((128 <=? b) && (b <=? 191))%Z.

(** [utf8.ValidString], on the bytes of the string. *)
Fixpoint validUTF8 (bs : list Z) : bool :=
  match bs with
  | [] => true
  | b :: rest =>
      if (b <? 128)%Z then validUTF8 rest
      else if ((194 <=? b) && (b <=? 223))%Z then
        match rest with
        | c1 :: rest => isContinuation c1 && validUTF8 rest
        | _ => false
        end
      else if ((224 <=? b) && (b <=? 239))%Z then
        match rest with
        | c1 :: c2 :: rest =>
            (if (b =? 224)%Z then ((160 <=? c1) && (c1 <=? 191))%Z
             else if (b =? 237)%Z then ((128 <=? c1) && (c1 <=? 159))%Z
             else isContinuation c1)
            && isContinuation c2 && validUTF8 rest
        | _ => false
        end
      else if ((240 <=? b) && (b <=? 244))%Z then
        match rest with
        | c1 :: c2 :: c3 :: rest =>
            (if (b =? 240)%Z then ((144 <=? c1) && (c1 <=? 191))%Z
             else if (b =? 244)%Z then ((128 <=? c1) && (c1 <=? 143))%Z
             else isContinuation c1)
            && isContinuation c2 && isContinuation c3 && validUTF8 rest
        | _ => false
        end
      else false
  end.

Definition bytesOf (s : string) : list Z :=
  map (fun c => Z.of_N (N_of_ascii c)) (list_ascii_of_string s).

(** [WithLabelValues] returns when it is given one value per label name of
    the collector, each of them valid UTF-8. *)
Definition labelValuesOk (names lvs : list string) : bool :=
  (length lvs =? length names)%nat
  && forallb (fun v => validUTF8 (bytesOf v)) lvs.

(** The bucket bounds are in increasing order: no bound is [>=] the one
    after it. *)
Fixpoint increasing (bs : list float64) : bool :=
  match bs with
  | [] => true
  | a :: rest =>
      match rest with
      | [] => true
      | b :: _ => negb (PrimFloat.leb b a) && increasing rest
      end
  end.

(** The panics of the client at request time.  [WithLabelValues] panics on
    label values it refuses.  [Counter.Add] panics on a negative value.
    The histogram of a label combination is built by the first
    [WithLabelValues] for it; building panics when a label is named [le]
    or the bucket bounds are not in increasing order, and is then tried
    again, and panics again, on every later call.  [Observe] takes any
    value. *)
Definition clientGolang : Collectors := {|
  callReturns call :=
    match call with
    | CounterAdd c lvs v =>
        labelValuesOk (cv_labelNames c) lvs && negb (PrimFloat.ltb v 0%float)
    | HistogramObserve h lvs _ =>
        labelValuesOk (hv_labelNames h) lvs
        && negb (existsb (String.eqb "le") (hv_labelNames h))
        && increasing (hv_Buckets h)
    end
|}.

(* ===================================================================== *)
(** ** Definitions used to state and prove the properties                 *)
(* ===================================================================== *)

(** With [left] measuring what a dispenser has left: the outcome is not
    [OutOfFuel], and a returned dispenser has at most [n] left. *)
Definition returnsWithin {A D : Type} (left : D -> nat) (n : nat)
    (r : Res (A * D)) : Prop :=
  match r with
  | Ok (_, d') => left d' <= n
  | Err _ => True
  | OutOfFuel => False
  end.

(** The function returned: its loops ended before the iteration bound. *)
Definition returned {A : Type} (r : Res A) : bool :=
  match r with
  | OutOfFuel => false
  | _ => true
  end.

(** The index of the last token (0 when there is none). *)
Definition lastIndex (d : TokenDispenser) : Z :=
  Z.max 0 (Z.of_nat (length (tokens d)) - 1).

(** [moved d d' ok]: [d'] has the tokens of [d] and a cursor not before
    that of [d]; when [ok] is set the cursor went forward, from a position
    before the last token. *)
Definition moved (d d' : TokenDispenser) (ok : bool) : Prop :=
  tokens d' = tokens d
  /\ (cursor d <= cursor d')%Z
  /\ (ok = true -> (cursor d < cursor d')%Z /\ (cursor d < lastIndex d)%Z).

(** The supply of the token dispenser: the tokens after the cursor. *)
Definition tokensLeft (d : TokenDispenser) : nat :=
  Z.to_nat (lastIndex d - cursor d).

(** Case analysis on every test and call result a parsing function went
    through to produce the outcome stated by [H]. *)
Ltac break_parse H :=
  repeat match type of H with
         | context [if ?b then _ else _] => destruct b eqn:?
         | context [let '(_, _) := ?p in _] => destruct p eqn:?
         | context [Res_bind ?r _] =>
             destruct r as [[? ?] | ? | ] eqn:?; cbn [Res_bind] in H
         | context [match ?o with Some _ => _ | None => _ end] =>
             destruct o eqn:?
         end;
  try discriminate.

(** The byte counts that the handler's [Write] calls are answered with
    when it is run against the writer [w] with the replacer [r], added to
    [acc] with Go's [+=]. *)
Fixpoint bytesReported {W} `{ResponseWriter W}
    (h : Handler) (w : W) (r : Replacer) (acc : int) : int :=
  match h with
  | Return _ | Panic => acc
  | CallWriteHeader code k => bytesReported k (WriteHeader code w) r acc
  | CallWrite b k =>
      let '(res, w') := Write b w in
      bytesReported (k res) w' r (int_add acc (fst res))
  | CallOptional i k =>
      match UseOptional i w with
      | Some w' => bytesReported (k true) w' r acc
      | None => bytesReported (k false) w r acc
      end
  | CallSet variable value k =>
      bytesReported k w (Replacer_Set variable value r) acc
  | CallDelete variable k => bytesReported k w (Replacer_Delete variable r) acc
  | CallGet variable k => bytesReported (k (Replacer_Get r variable)) w r acc
  | Tick _ k => bytesReported k w r acc
  end.

(** The handler never asserts the writer to an optional interface,
    whatever its calls are answered with. *)
Fixpoint neverProbes (h : Handler) : Prop :=
  match h with
  | Return _ | Panic => True
  | CallWriteHeader _ k | CallSet _ _ k | CallDelete _ k | Tick _ k =>
      neverProbes k
  | CallWrite _ k => forall res, neverProbes (k res)
  | CallOptional _ _ => False
  | CallGet _ k => forall v, neverProbes (k v)
  end.

(** The handler never sets or deletes a variable of the replacer, whatever
    its calls are answered with. *)
Fixpoint leavesReplacer (h : Handler) : Prop :=
  match h with
  | Return _ | Panic => True
  | CallWriteHeader _ k | Tick _ k => leavesReplacer k
  | CallWrite _ k => forall res, leavesReplacer (k res)
  | CallOptional _ k => forall ok, leavesReplacer (k ok)
  | CallSet _ _ _ | CallDelete _ _ => False
  | CallGet _ k => forall v, leavesReplacer (k v)
  end.



(** No token of the dispenser is [after_response]. *)
Definition noAfterResponse (d : TokenDispenser) : Prop :=
  "after_response" ∉ map Text (tokens d).

(** The three variables the deferred path sets. *)
Definition responseVariables : list string :=
  ["meter.response.status"; "meter.response.size";
   "meter.response.duration"]%string.

(** The lines of a labels block, as the dispenser hands them out:
    [labelRun d lines d'] says that, from [d], [NextBlock 2] and [NextArg]
    meet the name and value pairs [lines] in this order, until
    [NextBlock 2] fails or stops on a closing brace, leaving [d']. *)
Inductive labelRun {D} `{Dispenser D}
    : D -> list (string * string) -> D -> Prop :=
| labelRun_end (d d' : D) :
    NextBlock 2 d = (false, d') -> labelRun d [] d'
| labelRun_brace (d d1 : D) :
    NextBlock 2 d = (true, d1) -> Val d1 = "}" -> labelRun d [] d1
| labelRun_line (d d1 d2 d' : D) (lines : list (string * string)) :
    NextBlock 2 d = (true, d1) -> Val d1 <> "}" ->
    NextArg d1 = (true, d2) -> labelRun d2 lines d' ->
    labelRun d ((Val d1, Val d2) :: lines) d'.

(** The label a line of a labels block becomes. *)
Definition lineLabel (line : string * string) : Label :=
  mkLabel (fst line) "" (snd line).

(** A definition as the parser lets it into the map: named, with an export
    name, with buckets only if a histogram, and with no label matcher. *)
Definition wellFormed (m : Metric) : Prop :=
  Name m <> ""
  /\ ExportName m <> ""
  /\ (Type_ m <> MetricTypeHistogram -> Buckets m = [])
  /\ Forall (fun l => Label_Matcher l = "") (Labels m).

(** Two definitions that differ at most in their collectors. *)
Definition sameDefinition (m m' : Metric) : Prop :=
  Type_ m' = Type_ m /\ Name m' = Name m /\ ExportName m' = ExportName m
  /\ Description m' = Description m /\ Labels m' = Labels m
  /\ Buckets m' = Buckets m /\ AfterResponse m' = AfterResponse m
  /\ Value m' = Value m.

(** A parsing function returned a value. *)
Definition isOk {A : Type} (r : Res A) : bool :=
  match r with
  | Ok _ => true
  | _ => false
  end.

(** The label names of the collector a call is made on, each with the label
    value the call passes at its position. *)
Definition callBinding (call : BackendCall) : list (string * string) :=
  match call with
  | CounterAdd c lvs _ => zip (cv_labelNames c) lvs
  | HistogramObserve h lvs _ => zip (hv_labelNames h) lvs
  end.

(** The number of label values a call passes is the number of label names
    of its collector. *)
Definition callArityOk (call : BackendCall) : Prop :=
  match call with
  | CounterAdd c lvs _ => length lvs = length (cv_labelNames c)
  | HistogramObserve h lvs _ => length lvs = length (hv_labelNames h)
  end.

(** Two maps have the same keys, and under each key the same definition up
    to collectors. *)
Definition sameDefinitions (metrics metrics' : gmap string Metric) : Prop :=
  forall name,
    match metrics !! name, metrics' !! name with
    | Some m, Some m' => sameDefinition m m'
    | None, None => True
    | _, _ => False
    end.

(* ===================================================================== *)
(** ** Inputs used to run the definitions                                 *)
(* ===================================================================== *)

Definition tok (line : Z) (text : string) : Token :=
  mkToken text "Caddyfile" line.

(** The global option of the README's first example. *)
Definition readmeTokens : list Token :=
  [tok 2 "meter"; tok 2 "{";
   tok 3 "counter"; tok 3 "my_requests"; tok 3 "{";
   tok 4 "description"; tok 4 "Number of requests";
   tok 5 "labels"; tok 5 "{";
   tok 6 "method"; tok 6 "{http.request.method}";
   tok 7 "path"; tok 7 "{http.request.uri}";
   tok 8 "}";
   tok 9 "}";
   tok 10 "histogram"; tok 10 "response_time"; tok 10 "{";
   tok 11 "description"; tok 11 "Response time in seconds";
   tok 12 "labels"; tok 12 "{";
   tok 13 "method"; tok 13 "{http.request.method}";
   tok 14 "}";
   tok 15 "buckets"; tok 15 "0.1"; tok 15 "0.3"; tok 15 "1.2"; tok 15 "5.0";
   tok 16 "}";
   tok 17 "}"].

(** A histogram whose bucket line is neither sorted nor free of
    repetitions. *)
Definition unsortedTokens : list Token :=
  [tok 1 "meter"; tok 1 "{";
   tok 2 "histogram"; tok 2 "sizes"; tok 2 "{";
   tok 3 "buckets"; tok 3 "5"; tok 3 "1"; tok 3 "1"; tok 3 "0.5";
   tok 4 "}";
   tok 5 "}"].

(** A counter and a histogram exported under one name. *)
Definition sharedNameTokens : list Token :=
  [tok 1 "meter"; tok 1 "{";
   tok 2 "counter"; tok 2 "a"; tok 2 "{";
   tok 3 "name"; tok 3 "x";
   tok 4 "}";
   tok 5 "histogram"; tok 5 "b"; tok 5 "{";
   tok 6 "name"; tok 6 "x";
   tok 7 "}";
   tok 8 "}"].


Definition exampleCounterVec : CounterVec := mkCounterVec 7 "hits" "" [].
Definition exampleHistogramVec : HistogramVec :=
  mkHistogramVec 8 "latency" "" [] [].

(** A provisioned counter definition with the given [value] template. *)
Definition counterMetric (afterResponse : bool) (value : string) : Metric :=
  mkMetric MetricTypeCounter "hits" "hits" "" [] [] afterResponse value
           (Some exampleCounterVec) None.

(** A provisioned histogram definition with the given [value] template. *)
Definition histogramMetric (afterResponse : bool) (value : string) : Metric :=
  mkMetric MetricTypeHistogram "latency" "latency" "" [] [] afterResponse
           value None (Some exampleHistogramVec).

Definition directive (m : Metric) : UseMeter := mkUseMeter "" (Name m) m.

(** A request whose replacer holds no variable, at clock reading 1000. *)
Definition freshRequest : ReqState := mkReqState (mkReplacer ∅) 1000%Z [].

(** The two bytes of the body [hi]. *)
Definition hiBody : list Byte.byte := [Byte.x68; Byte.x69].

(** A handler that sets status 404, then 500, and returns. *)
Definition twoStatusHandler : Handler :=
  CallWriteHeader 404%Z (CallWriteHeader 500%Z (Return None)).

(** A handler that writes a body without setting a status. *)
Definition bodyOnlyHandler : Handler :=
  CallWrite hiBody (fun _ => Return None).

(** A handler that takes two seconds, sets status 404 and writes a body. *)
Definition slowHandler : Handler :=
  Tick 2000000000%Z
    (CallWriteHeader 404%Z (CallWrite hiBody (fun _ => Return None))).

(** The directive [meter] with nothing after it. *)
Definition bareDirectiveTokens : list Token := [tok 1 "meter"; tok 2 "respond"].

(** The directive [meter @api hits]. *)
Definition matcherDirectiveTokens : list Token :=
  [tok 1 "meter"; tok 1 "@api"; tok 1 "hits"].

(** Two blocks under one name. *)
Definition duplicateTokens : list Token :=
  [tok 1 "meter"; tok 1 "{";
   tok 2 "counter"; tok 2 "a"; tok 2 "{";
   tok 3 "description"; tok 3 "first";
   tok 4 "}";
   tok 5 "histogram"; tok 5 "a"; tok 5 "{";
   tok 6 "description"; tok 6 "second";
   tok 7 "}";
   tok 8 "}"].

(** A module with a counter and a histogram, as parsed. *)
Definition twoKindsModule : MeterModule :=
  mkMeterModule
    (<["a" := mkMetric MetricTypeCounter "a" "x" "" [] [] false "" None None]>
       (<["b" := mkMetric MetricTypeHistogram "b" "y" "" [] [] true ""
                   None None]> ∅)).

(** A counter with two labels, one of them fed by the response status. *)
Definition labelledCounter : Metric :=
  mkMetric MetricTypeCounter "hits" "hits" ""
    [mkLabel "method" "" "{http.request.method}";
     mkLabel "code" "" "{meter.response.status}"]
    [] true "" None None.

(** A request state whose replacer knows the response status only. *)
Definition statusKnownRequest : ReqState :=
  mkReqState (mkReplacer (<["meter.response.status" := "404"]> ∅)) 0%Z [].

(** The README's example: parsed, provisioned against an empty registry,
    and the directive [meter response_time] bound to it. *)
Definition readmeModule : MeterModule :=
  fst (@UnmarshalCaddyfile decimalStrconv _ _ 40 (mkMeterModule ∅)
         (NewDispenser readmeTokens)).
Definition readmeProvisioned : MeterModule * gmap string Collector * Flow :=
  Provision ["my_requests"; "response_time"]%string readmeModule
    (∅ : gmap string Collector) 0.
Definition readmeDirective : Directive.t * error :=
  UseMeter_Provision (Directive.mk "" "response_time" None)
    (AppIsMeter (fst (fst readmeProvisioned))).

(** A handler that writes the body [hi] twice. *)
Definition twoWritesHandler : Handler :=
  CallWrite hiBody (fun _ => CallWrite hiBody (fun _ => Return None)).

(** A provisioned deferred histogram with one label, fed by the response
    status, whose value is the response size. *)
Definition statusHistogramVec : HistogramVec :=
  mkHistogramVec 9 "sizes" "" [] ["status"].
Definition statusHistogram : Metric :=
  mkMetric MetricTypeHistogram "sizes" "sizes" ""
    [mkLabel "status" "" "{meter.response.status}"] [] true
    "{meter.response.size}" None (Some statusHistogramVec).

(** A handler that streams: it flushes when the writer can, and refuses to
    go on when it cannot. *)
Definition streamingHandler : Handler :=
  CallOptional Flusher
    (fun ok => if ok then CallWrite hiBody (fun _ => Return None)
               else Return (Some "streaming unsupported")).

(** A handler that sets a variable of its own and one of the three the
    deferred path sets, then writes a body. *)
Definition settingHandler : Handler :=
  CallSet "user" "ada"
    (CallSet "meter.response.status" "teapot"
       (CallWrite hiBody (fun _ => Return None))).

(* ===================================================================== *)
(** ** The response capture sink                                          *)
(* ===================================================================== *)

Lemma int_add_exact (a b : int) :
  fits_int (a + b) -> int_add a b = (a + b)%Z.
Proof.
  unfold fits_int, int_add, wrap64. intros Hfit.
  rewrite Z.mod_small; lia.
Qed.

(** Induction over the steps of a handler. *)
Ltac handler_induction next :=
  induction next as [res | | code k IH | b k IH | i k IH
                     | variable value k IH | variable k IH
                     | variable k IH | d k IH].

Section Sink.
Context {W : Type} `{RW : ResponseWriter W}.

(** C10. A [Write] on the sink calls [Write] once on the wrapped writer
    with the same bytes, returns that call's [(n, err)] unchanged, leaves
    the recorded status alone and adds [n] (Go's [+=] on [int]) to
    [responseLength], whatever [n] and [err] are; the addition is the
    mathematical one as long as the total fits an [int]. *)
Theorem responseWriter_Write_forwards
    (b : list Byte.byte) (w : responseWriter W) :
  let under := Write b (inner w) in
  let sink := responseWriter_Write b w in
  fst sink = fst under
  /\ inner (snd sink) = snd under
  /\ statusCode (snd sink) = statusCode w
  /\ responseLength (snd sink) = int_add (responseLength w) (fst (fst under))
  /\ (fits_int (responseLength w + fst (fst under)) ->
      responseLength (snd sink) = (responseLength w + fst (fst under))%Z).
Proof.
  cbv zeta. unfold responseWriter_Write.
  destruct (Write b (inner w)) as [[n err] inner'] eqn:Hw. cbn.
  repeat split. apply int_add_exact.
Qed.

(** When the handler returns, the clock has advanced by the time it took. *)
Lemma runHandler_clock (next : Handler) :
  forall (w w' : W) (r r' : Replacer) (now now' : Time) (res : error),
    runHandler next w r now = Some (res, w', r', now') ->
    now' = (now + timeTaken next w r)%Z.
Proof.
  handler_induction next; intros w w' r r' now now' res0 Hrun;
    cbn [runHandler timeTaken] in *.
  - inversion Hrun; subst. lia.
  - discriminate.
  - exact (IH _ _ _ _ _ _ _ Hrun).
  - destruct (Write b w) as [res1 w1]. exact (IH _ _ _ _ _ _ _ _ Hrun).
  - destruct (UseOptional i w) as [w1 |]; exact (IH _ _ _ _ _ _ _ _ Hrun).
  - exact (IH _ _ _ _ _ _ _ Hrun).
  - exact (IH _ _ _ _ _ _ _ Hrun).
  - exact (IH _ _ _ _ _ _ _ _ Hrun).
  - rewrite (IH _ _ _ _ _ _ _ Hrun). lia.
Qed.

(** A handler that never asserts the writer to an optional interface cannot
    tell the sink from the writer it wraps: run on the sink, it ends as a
    run on the wrapped writer does, with the same result, replacer and
    clock, and leaves the wrapped writer in the same state. *)
Lemma runHandler_through_sink (next : Handler) :
  neverProbes next ->
  forall (wrap : responseWriter W) (r : Replacer) (now : Time),
    runHandler next (inner wrap) r now
    = match runHandler next wrap r now with
      | Some (res, wrap', r', now') => Some (res, inner wrap', r', now')
      | None => None
      end.
Proof.
  handler_induction next; cbn [neverProbes]; intros Hplain wrap r now;
    cbn [runHandler].
  - reflexivity.
  - reflexivity.
  - exact (IH Hplain (responseWriter_WriteHeader code wrap) r now).
  - cbn [Write responseWriter_is_ResponseWriter].
    unfold responseWriter_Write.
    destruct (Write b (inner wrap)) as [[n err] inner'] eqn:Hw.
    exact (IH (n, err) (Hplain (n, err))
             (mkResponseWriter inner' (statusCode wrap)
                (int_add (responseLength wrap) n)) r now).
  - contradiction.
  - exact (IH Hplain wrap _ now).
  - exact (IH Hplain wrap _ now).
  - exact (IH _ (Hplain _) wrap r now).
  - exact (IH Hplain wrap r _).
Qed.

(** Nor do the status codes such a handler sets depend on the sink. *)
Lemma statusCalls_through_sink (next : Handler) :
  neverProbes next ->
  forall (wrap : responseWriter W) (r : Replacer),
    statusCalls next wrap r = statusCalls next (inner wrap) r.
Proof.
  handler_induction next; cbn [neverProbes]; intros Hplain wrap r;
    cbn [statusCalls].
  - reflexivity.
  - reflexivity.
  - f_equal. exact (IH Hplain (responseWriter_WriteHeader code wrap) r).
  - cbn [Write responseWriter_is_ResponseWriter].
    unfold responseWriter_Write.
    destruct (Write b (inner wrap)) as [[n err] inner'] eqn:Hw.
    exact (IH (n, err) (Hplain (n, err))
             (mkResponseWriter inner' (statusCode wrap)
                (int_add (responseLength wrap) n)) r).
  - contradiction.
  - exact (IH Hplain wrap _).
  - exact (IH Hplain wrap _).
  - exact (IH _ (Hplain _) wrap r).
  - exact (IH Hplain wrap r).
Qed.

(** The same for the byte counts its writes are answered with, and for the
    time it takes. *)
Lemma bytesReported_through_sink (next : Handler) :
  neverProbes next ->
  forall (wrap : responseWriter W) (r : Replacer) (acc : int),
    bytesReported next wrap r acc = bytesReported next (inner wrap) r acc.
Proof.
  handler_induction next; cbn [neverProbes]; intros Hplain wrap r acc;
    cbn [bytesReported].
  - reflexivity.
  - reflexivity.
  - exact (IH Hplain (responseWriter_WriteHeader code wrap) r acc).
  - cbn [Write responseWriter_is_ResponseWriter].
    unfold responseWriter_Write.
    destruct (Write b (inner wrap)) as [[n err] inner'] eqn:Hw.
    exact (IH (n, err) (Hplain (n, err))
             (mkResponseWriter inner' (statusCode wrap)
                (int_add (responseLength wrap) n)) r _).
  - contradiction.
  - exact (IH Hplain wrap _ acc).
  - exact (IH Hplain wrap _ acc).
  - exact (IH _ (Hplain _) wrap r acc).
  - exact (IH Hplain wrap r acc).
Qed.

Lemma timeTaken_through_sink (next : Handler) :
  neverProbes next ->
  forall (wrap : responseWriter W) (r : Replacer),
    timeTaken next wrap r = timeTaken next (inner wrap) r.
Proof.
  handler_induction next; cbn [neverProbes]; intros Hplain wrap r;
    cbn [timeTaken].
  - reflexivity.
  - reflexivity.
  - exact (IH Hplain (responseWriter_WriteHeader code wrap) r).
  - cbn [Write responseWriter_is_ResponseWriter].
    unfold responseWriter_Write.
    destruct (Write b (inner wrap)) as [[n err] inner'] eqn:Hw.
    exact (IH (n, err) (Hplain (n, err))
             (mkResponseWriter inner' (statusCode wrap)
                (int_add (responseLength wrap) n)) r).
  - contradiction.
  - exact (IH Hplain wrap _).
  - exact (IH Hplain wrap _).
  - exact (IH _ (Hplain _) wrap r).
  - f_equal. exact (IH Hplain wrap r).
Qed.

(** The status the sink holds when the handler returns is the argument of
    the handler's last [WriteHeader] call, and the status it held before
    when there was no such call. *)
Lemma sink_status_last (next : Handler) :
  forall (wrap wrap' : responseWriter W) (r r' : Replacer)
         (now now' : Time) (res : error),
    runHandler next wrap r now = Some (res, wrap', r', now') ->
    statusCode wrap'
    = default (statusCode wrap) (last (statusCalls next wrap r)).
Proof.
  handler_induction next; intros wrap wrap' r r' now now' res0 Hrun;
    cbn [runHandler statusCalls] in *.
  - inversion Hrun; subst. reflexivity.
  - discriminate.
  - rewrite (IH _ _ _ _ _ _ _ Hrun). cbn [WriteHeader
      responseWriter_is_ResponseWriter responseWriter_WriteHeader statusCode].
    rewrite last_cons.
    destruct (last (statusCalls k (responseWriter_WriteHeader code wrap) r));
      reflexivity.
  - cbn [Write responseWriter_is_ResponseWriter] in *.
    unfold responseWriter_Write in *.
    destruct (Write b (inner wrap)) as [[n err] inner'] eqn:Hw.
    exact (IH _ _ _ _ _ _ _ _ Hrun).
  - cbn [UseOptional responseWriter_is_ResponseWriter] in *.
    exact (IH _ _ _ _ _ _ _ _ Hrun).
  - exact (IH _ _ _ _ _ _ _ Hrun).
  - exact (IH _ _ _ _ _ _ _ Hrun).
  - exact (IH _ _ _ _ _ _ _ _ Hrun).
  - exact (IH _ _ _ _ _ _ _ Hrun).
Qed.

(** The sink's running total when the handler returns is what it held
    before plus the byte counts the wrapped writer reported. *)
Lemma sink_length_total (next : Handler) :
  forall (wrap wrap' : responseWriter W) (r r' : Replacer)
         (now now' : Time) (res : error),
    runHandler next wrap r now = Some (res, wrap', r', now') ->
    responseLength wrap' = bytesReported next wrap r (responseLength wrap).
Proof.
  handler_induction next; intros wrap wrap' r r' now now' res0 Hrun;
    cbn [runHandler bytesReported] in *.
  - inversion Hrun; subst. reflexivity.
  - discriminate.
  - rewrite (IH _ _ _ _ _ _ _ Hrun). reflexivity.
  - cbn [Write responseWriter_is_ResponseWriter] in *.
    unfold responseWriter_Write in *.
    destruct (Write b (inner wrap)) as [[n err] inner'] eqn:Hw.
    rewrite (IH _ _ _ _ _ _ _ _ Hrun). reflexivity.
  - cbn [UseOptional responseWriter_is_ResponseWriter] in *.
    exact (IH _ _ _ _ _ _ _ _ Hrun).
  - exact (IH _ _ _ _ _ _ _ Hrun).
  - exact (IH _ _ _ _ _ _ _ Hrun).
  - exact (IH _ _ _ _ _ _ _ _ Hrun).
  - exact (IH _ _ _ _ _ _ _ Hrun).
Qed.

(** A handler that never sets or deletes a variable leaves the replacer as
    it was. *)
Lemma runHandler_leavesReplacer (next : Handler) :
  leavesReplacer next ->
  forall (w w' : W) (r r' : Replacer) (now now' : Time) (res : error),
    runHandler next w r now = Some (res, w', r', now') -> r' = r.
Proof.
  handler_induction next; cbn [leavesReplacer]; intros Hleaves
    w w' r r' now now' res0 Hrun; cbn [runHandler] in Hrun.
  - inversion Hrun; subst. reflexivity.
  - discriminate.
  - exact (IH Hleaves _ _ _ _ _ _ _ Hrun).
  - destruct (Write b w) as [res1 w1].
    exact (IH _ (Hleaves _) _ _ _ _ _ _ _ Hrun).
  - destruct (UseOptional i w) as [w1 |];
      exact (IH _ (Hleaves _) _ _ _ _ _ _ _ Hrun).
  - contradiction.
  - contradiction.
  - exact (IH _ (Hleaves _) _ _ _ _ _ _ _ Hrun).
  - exact (IH Hleaves _ _ _ _ _ _ _ Hrun).
Qed.

(** The sink is transparent to a downstream handler that never asserts the
    writer to an optional interface: run against the sink, the handler ends
    as when run against the wrapped writer itself, returning the same
    result with the same replacer at the same clock reading and leaving the
    wrapped writer in the same state, or panicking in both runs.  A handler
    that does assert is answered by the sink that it has no optional
    interface, whatever the wrapped writer has. *)
Theorem sink_is_transparent (next : Handler) (w : W) (r : Replacer)
    (now : Time) :
  neverProbes next ->
  runHandler next w r now
  = match runHandler next (mkResponseWriter w 0%Z 0%Z) r now with
    | Some (res, wrap', r', now') => Some (res, inner wrap', r', now')
    | None => None
    end
  /\ forall (i : Optional) (k : bool -> Handler) (wrap : responseWriter W),
       runHandler (CallOptional i k) wrap r now = runHandler (k false) wrap r now.
Proof.
  intros Hplain. split.
  - exact (runHandler_through_sink next Hplain (mkResponseWriter w 0%Z 0%Z)
             r now).
  - reflexivity.
Qed.

End Sink.

(* ===================================================================== *)
(** ** The recording engine                                               *)
(* ===================================================================== *)

Section Recording.
Context `{SC : Strconv} `{TP : Templates} `{CO : Collectors}
        {W : Type} `{RW : ResponseWriter W}.

Lemma report_counter (h : UseMeter) (value : float64) (st : ReqState)
    (c : CounterVec) :
  Type_ (useMetric h) = MetricTypeCounter ->
  requestCounter (useMetric h) = Some c ->
  report h value st
  = perform (CounterAdd c (labelValues h st)
               (if float_is_zero value then 1%float else value)) st.
Proof.
  intros Hty Hc. unfold report. rewrite Hty, Hc. reflexivity.
Qed.

Lemma report_histogram (h : UseMeter) (value : float64) (st : ReqState)
    (hv : HistogramVec) :
  Type_ (useMetric h) = MetricTypeHistogram ->
  responseTime (useMetric h) = Some hv ->
  report h value st
  = perform (HistogramObserve hv (labelValues h st) value) st.
Proof.
  intros Hty Hc. unfold report. rewrite Hty, Hc. reflexivity.
Qed.

Lemma report_other (h : UseMeter) (value : float64) (st : ReqState) :
  Type_ (useMetric h) <> MetricTypeCounter ->
  Type_ (useMetric h) <> MetricTypeHistogram ->
  report h value st = Some st.
Proof.
  intros Hc Hh. unfold report.
  destruct (String.eqb_spec (Type_ (useMetric h)) MetricTypeCounter);
    [contradiction |].
  destruct (String.eqb_spec (Type_ (useMetric h)) MetricTypeHistogram);
    [contradiction | reflexivity].
Qed.

(** A call that returns is put on record and changes nothing else. *)
Lemma perform_returns (call : BackendCall) (st st' : ReqState) :
  perform call st = Some st' ->
  callReturns call = true /\ st' = record_call call st.
Proof.
  unfold perform. destruct (callReturns call); intros Hp; inversion Hp; auto.
Qed.

Lemma perform_when_returns (call : BackendCall) (st : ReqState) :
  callReturns call = true -> perform call st = Some (record_call call st).
Proof. unfold perform. intros ->. reflexivity. Qed.

(** With the collector of its kind bound, [report] is one call on it, or
    nothing for a definition of neither kind. *)
Lemma report_bound (h : UseMeter) (value : float64) (st : ReqState) :
  collectorBound (useMetric h) ->
  report h value st = Some st
  \/ exists call, report h value st = perform call st.
Proof.
  intros [Hc Hh].
  destruct (String.eqb_spec (Type_ (useMetric h)) MetricTypeCounter) as [Ec | Nc].
  - destruct (Hc Ec) as [c Hbound].
    rewrite (report_counter h value st c Ec Hbound). eauto.
  - destruct (String.eqb_spec (Type_ (useMetric h)) MetricTypeHistogram)
      as [Eh | Nh].
    + destruct (Hh Eh) as [hv Hbound].
      rewrite (report_histogram h value st hv Eh Hbound). eauto.
    + rewrite (report_other h value st Nc Nh). eauto.
Qed.

(** [report] changes nothing but the list of backend calls. *)
Lemma report_keeps_replacer (h : UseMeter) (value : float64)
    (st st' : ReqState) :
  report h value st = Some st' ->
  replacer st' = replacer st /\ clock st' = clock st.
Proof.
  unfold report, perform. intros Hr.
  repeat match type of Hr with
         | context [if ?b then _ else _] => destruct b
         | context [match ?o with Some _ => _ | None => _ end] => destruct o
         end; inversion Hr; subst; auto.
Qed.

(** When [report] returns, it has made one call that returned on the
    collector of a Counter or Histogram definition, and none otherwise. *)
Lemma report_calls (h : UseMeter) (value : float64) (st st' : ReqState) :
  report h value st = Some st' ->
  (Type_ (useMetric h) = MetricTypeCounter
   \/ Type_ (useMetric h) = MetricTypeHistogram ->
   exists call, backend st' = backend st ++ [call] /\ callReturns call = true)
  /\ (Type_ (useMetric h) <> MetricTypeCounter ->
      Type_ (useMetric h) <> MetricTypeHistogram ->
      backend st' = backend st).
Proof.
  unfold report. intros Hr.
  destruct (String.eqb_spec (Type_ (useMetric h)) MetricTypeCounter) as [Ec | Nc].
  - destruct (requestCounter (useMetric h)) as [c |]; [| discriminate].
    destruct (perform_returns _ _ _ Hr) as [Hret ->].
    split; [intros _; eexists; split; [reflexivity | exact Hret] |].
    intros Hn; contradiction.
  - destruct (String.eqb_spec (Type_ (useMetric h)) MetricTypeHistogram)
      as [Eh | Nh].
    + destruct (responseTime (useMetric h)) as [hv |]; [| discriminate].
      destruct (perform_returns _ _ _ Hr) as [Hret ->].
      split; [intros _; eexists; split; [reflexivity | exact Hret] |].
      intros _ Hn; contradiction.
    + inversion Hr; subst. split; [intros [E | E]; contradiction | auto].
Qed.

Lemma publish_status (wrap : responseWriter W) (d : Duration) (st : ReqState) :
  Replacer_Get (replacer (publish wrap d st)) "meter.response.status"
  = Some (Itoa (responseWriter_Status wrap)).
Proof.
  unfold publish, Replacer_Get, Replacer_Set. cbn [replacer static].
  rewrite lookup_insert_ne by discriminate.
  rewrite lookup_insert_ne by discriminate.
  apply lookup_insert_eq.
Qed.

Lemma publish_size (wrap : responseWriter W) (d : Duration) (st : ReqState) :
  Replacer_Get (replacer (publish wrap d st)) "meter.response.size"
  = Some (Itoa (responseLength wrap)).
Proof.
  unfold publish, Replacer_Get, Replacer_Set. cbn [replacer static].
  rewrite lookup_insert_ne by discriminate.
  apply lookup_insert_eq.
Qed.

Lemma publish_duration (wrap : responseWriter W) (d : Duration)
    (st : ReqState) :
  Replacer_Get (replacer (publish wrap d st)) "meter.response.duration"
  = Some (FormatFloat (Seconds d)).
Proof.
  unfold publish, Replacer_Get, Replacer_Set. cbn [replacer static].
  apply lookup_insert_eq.
Qed.

Lemma publish_other (wrap : responseWriter W) (d : Duration) (st : ReqState)
    (variable : string) :
  variable ∉ responseVariables ->
  Replacer_Get (replacer (publish wrap d st)) variable
  = Replacer_Get (replacer st) variable.
Proof.
  intros Hnot. unfold publish, Replacer_Get, Replacer_Set.
  cbn [replacer static]. unfold responseVariables in Hnot.
  rewrite !lookup_insert_ne; [reflexivity | | |];
    intros <-; apply Hnot; set_solver.
Qed.

Lemma publish_keeps (wrap : responseWriter W) (d : Duration) (st : ReqState) :
  clock (publish wrap d st) = clock st
  /\ backend (publish wrap d st) = backend st.
Proof. split; reflexivity. Qed.

(** The state the templates are expanded against, the value handed to
    [report] and the downstream call on the deferred path, once the handler
    has returned. *)
Lemma deferred_run (h : UseMeter) (w : W) (st : ReqState) (next : Handler)
    (res : error) (wrap : responseWriter W) (r' : Replacer) (now' : Time) :
  AfterResponse (useMetric h) = true ->
  runHandler next (mkResponseWriter w 0%Z 0%Z) (replacer st) (clock st)
  = Some (res, wrap, r', now') ->
  let rs := publish wrap (Since now' (clock st))
              (mkReqState r' now' (backend st)) in
  resolveState h w st next = Some rs
  /\ resolvedValue h w st next
     = Some (deferredValue h (Since now' (clock st)) rs)
  /\ callNext h w st next = Some (res, inner wrap, r', now').
Proof.
  intros Hd Hrun. cbv zeta.
  unfold resolveState, resolvedValue, callNext, capture.
  rewrite Hd, Hrun. cbn [negb]. auto.
Qed.

Lemma deferred_panic (h : UseMeter) (w : W) (st : ReqState) (next : Handler) :
  AfterResponse (useMetric h) = true ->
  runHandler next (mkResponseWriter w 0%Z 0%Z) (replacer st) (clock st)
  = None ->
  resolveState h w st next = None
  /\ resolvedValue h w st next = None
  /\ callNext h w st next = None
  /\ ServeHTTP h w st next = None.
Proof.
  intros Hd Hrun.
  unfold resolveState, resolvedValue, callNext, ServeHTTP, capture.
  rewrite Hd, Hrun. cbn [negb]. auto.
Qed.

(** [ServeHTTP] in three steps, the same on both paths: settle the state
    and the value, [report], and hand back what the downstream call
    returned.  It panics where one of them does. *)
Lemma ServeHTTP_steps (h : UseMeter) (w : W) (st : ReqState)
    (next : Handler) :
  ServeHTTP h w st next
  = match resolveState h w st next, resolvedValue h w st next with
    | Some rs, Some v =>
        match report h v rs with
        | None => None
        | Some st1 =>
            match callNext h w st next with
            | None => None
            | Some (res, w', r', now') =>
                Some (res, w',
                      mkReqState
                        (if AfterResponse (useMetric h)
                         then replacer st1 else r')
                        now' (backend st1))
            end
        end
    | _, _ => None
    end.
Proof.
  destruct (AfterResponse (useMetric h)) eqn:Hd.
  - destruct (runHandler next (mkResponseWriter w 0%Z 0%Z) (replacer st)
                (clock st)) as [[[[res wrap] r'] now'] |] eqn:Hrun.
    + destruct (deferred_run h w st next res wrap r' now' Hd Hrun)
        as (Hrs & Hv & Hnext).
      rewrite Hrs, Hv, Hnext.
      unfold ServeHTTP, capture. rewrite Hd, Hrun. cbn [negb].
      match goal with
      | |- context [report h ?v ?rs] =>
          destruct (report h v rs) as [st1 |] eqn:Hrep
      end; [| reflexivity].
      destruct (report_keeps_replacer _ _ _ _ Hrep) as [_ Hclock].
      cbn [publish clock] in Hclock.
      destruct st1 as [r1 c1 b1]. cbn in Hclock |- *. subst c1. reflexivity.
    + destruct (deferred_panic h w st next Hd Hrun) as (Hrs & _ & _ & Hs).
      rewrite Hrs, Hs. reflexivity.
  - unfold ServeHTTP, resolveState, resolvedValue, callNext. rewrite Hd.
    cbn [negb].
    destruct (report h (immediateValue h st) st) as [st1 |] eqn:Hrep;
      [| reflexivity].
    destruct (report_keeps_replacer _ _ _ _ Hrep) as [Hr Hclock].
    rewrite Hr, Hclock.
    destruct (runHandler next w (replacer st) (clock st))
      as [[[[res w'] r'] now'] |]; reflexivity.
Qed.

(** The state the templates are expanded against has the calls on record
    that the incoming state has. *)
Lemma resolveState_backend (h : UseMeter) (w : W) (st rs : ReqState)
    (next : Handler) :
  resolveState h w st next = Some rs -> backend rs = backend st.
Proof.
  unfold resolveState, capture.
  destruct (negb (AfterResponse (useMetric h)));
    [intros Hrs; inversion Hrs; reflexivity |].
  destruct (runHandler next (mkResponseWriter w 0%Z 0%Z) (replacer st)
              (clock st)) as [[[[res wrap] r'] now'] |];
    intros Hrs; inversion Hrs; reflexivity.
Qed.

(** The state and the value are settled together. *)
Lemma resolvedValue_settled (h : UseMeter) (w : W) (st rs : ReqState)
    (next : Handler) :
  resolveState h w st next = Some rs ->
  exists v, resolvedValue h w st next = Some v.
Proof.
  unfold resolveState, resolvedValue.
  destruct (negb (AfterResponse (useMetric h))); [eauto |].
  destruct (capture w st next) as [[[[res wrap] duration] st1] |];
    [eauto | discriminate].
Qed.

(** When [ServeHTTP] returns, every step has: the state and value were
    settled, [report] returned, and the result and writer are those of the
    downstream call. *)
Lemma ServeHTTP_returned (h : UseMeter) (w : W) (st : ReqState)
    (next : Handler) (res : error) (w' : W) (st' : ReqState) :
  ServeHTTP h w st next = Some (res, w', st') ->
  exists rs v st1 r',
    resolveState h w st next = Some rs
    /\ resolvedValue h w st next = Some v
    /\ report h v rs = Some st1
    /\ callNext h w st next = Some (res, w', r', clock st')
    /\ backend st' = backend st1
    /\ replacer st'
       = (if AfterResponse (useMetric h) then replacer rs else r').
Proof.
  rewrite ServeHTTP_steps. intros Hs.
  destruct (resolveState h w st next) as [rs |]; [| discriminate].
  destruct (resolvedValue h w st next) as [v |]; [| discriminate].
  destruct (report h v rs) as [st1 |] eqn:Hrep; [| discriminate].
  destruct (callNext h w st next) as [[[[res0 w0] r'] now'] |];
    [| discriminate].
  inversion Hs; subst. exists rs, v, st1, r'. cbn [clock backend replacer].
  destruct (report_keeps_replacer _ _ _ _ Hrep) as [Hr _]. rewrite Hr.
  repeat split; try reflexivity. exact Hrep.
Qed.

(** Once the state and value are settled and [report] and the downstream
    call have returned, [ServeHTTP] returns what the downstream call
    returned and leaves the calls on record as [report] left them. *)
Lemma ServeHTTP_reported (h : UseMeter) (w : W) (st rs st1 : ReqState)
    (next : Handler) (v : float64) (res : error) (w' : W) (r' : Replacer)
    (now' : Time) :
  resolveState h w st next = Some rs ->
  resolvedValue h w st next = Some v ->
  report h v rs = Some st1 ->
  callNext h w st next = Some (res, w', r', now') ->
  exists st',
    ServeHTTP h w st next = Some (res, w', st')
    /\ backend st' = backend st1 /\ clock st' = now'.
Proof.
  intros Hrs Hv Hrep Hnext. rewrite ServeHTTP_steps, Hrs, Hv, Hrep, Hnext.
  eexists. split; [reflexivity |]. split; reflexivity.
Qed.

(** With a value template, the value handed to [report] is the parsed
    expansion of the template, and [0.0] when the expansion does not
    parse. *)
Lemma resolvedValue_template (h : UseMeter) (w : W) (st rs : ReqState)
    (next : Handler) :
  Value (useMetric h) <> "" ->
  resolveState h w st next = Some rs ->
  resolvedValue h w st next
  = Some match ParseFloat (ReplaceAll (replacer rs)
                              (Value (useMetric h)) "1") with
         | Some f => f
         | None => 0%float
         end.
Proof.
  intros Hv. unfold resolvedValue, resolveState, immediateValue, deferredValue.
  destruct (String.eqb_spec (Value (useMetric h)) "") as [E | _];
    [contradiction |].
  cbn [negb]. destruct (negb (AfterResponse (useMetric h))).
  - intros Hrs; inversion Hrs; subst. reflexivity.
  - destruct (capture w st next) as [[[[res wrap] duration] st1] |];
      intros Hrs; inversion Hrs; subst. reflexivity.
Qed.

(** C1 (as the code has it). On a Counter directive whose value template
    expands and parses to a zero, on either path, the value passed to the
    collector's [Add] is [1.0]: [report] replaces a zero by one whether or
    not a template produced it.  The call is [Add(1.0)] whether it returns
    or panics; whenever [ServeHTTP] returns, that call is the one on
    record; and [ServeHTTP] does return, with the downstream handler's
    result, once that call and the handler return. *)
Theorem counter_zero_template_adds_one
    (h : UseMeter) (w : W) (st rs : ReqState) (next : Handler)
    (c : CounterVec) (f : float64) :
  Type_ (useMetric h) = MetricTypeCounter ->
  requestCounter (useMetric h) = Some c ->
  Value (useMetric h) <> "" ->
  resolveState h w st next = Some rs ->
  ParseFloat (ReplaceAll (replacer rs) (Value (useMetric h)) "1") = Some f ->
  float_is_zero f = true ->
  resolvedValue h w st next = Some f
  /\ report h f rs = perform (CounterAdd c (labelValues h rs) 1%float) rs
  /\ (forall res w' st',
        ServeHTTP h w st next = Some (res, w', st') ->
        backend st' = backend st ++ [CounterAdd c (labelValues h rs) 1%float])
  /\ (forall res w' r' now',
        callReturns (CounterAdd c (labelValues h rs) 1%float) = true ->
        callNext h w st next = Some (res, w', r', now') ->
        exists st',
          ServeHTTP h w st next = Some (res, w', st')
          /\ backend st'
             = backend st ++ [CounterAdd c (labelValues h rs) 1%float]).
Proof.
  intros Hty Hc Hv Hrs Hparse Hzero.
  assert (Hval : resolvedValue h w st next = Some f)
    by (rewrite (resolvedValue_template h w st rs next Hv Hrs), Hparse;
        reflexivity).
  assert (Hrep : report h f rs
                 = perform (CounterAdd c (labelValues h rs) 1%float) rs)
    by (rewrite (report_counter h f rs c Hty Hc), Hzero; reflexivity).
  pose proof (resolveState_backend h w st rs next Hrs) as Hb.
  split; [exact Hval |]. split; [exact Hrep |]. split.
  - intros res w' st' Hs.
    destruct (ServeHTTP_returned h w st next res w' st' Hs)
      as (rs0 & v0 & st1 & r' & Hrs0 & Hv0 & Hrep0 & _ & Hb0 & _).
    rewrite Hrs in Hrs0. inversion Hrs0; subst rs0.
    rewrite Hval in Hv0. inversion Hv0; subst v0.
    rewrite Hrep in Hrep0. destruct (perform_returns _ _ _ Hrep0) as [_ ->].
    rewrite Hb0. cbn [record_call backend]. rewrite Hb. reflexivity.
  - intros res w' r' now' Hret Hnext.
    rewrite (perform_when_returns _ rs Hret) in Hrep.
    destruct (ServeHTTP_reported h w st rs _ next f res w' r' now'
                Hrs Hval Hrep Hnext) as (st' & Hs & Hb' & _).
    exists st'. split; [exact Hs |].
    rewrite Hb'. cbn [record_call backend]. rewrite Hb. reflexivity.
Qed.

(** C6 (as the code has it). When the expansion of the value template does
    not parse as a float, the value handed to [report] is [0.0], and what
    [report] passes to the collector is [0.0] for a Histogram and [1.0] for
    a Counter.  The request goes on as with any other value, so no error
    and no panic comes from the parse failure: whenever the call on the
    collector and the downstream handler return, [ServeHTTP] returns the
    handler's result with the writer as the handler left it; and whenever
    [ServeHTTP] returns, what it returns is the handler's result. *)
Theorem unparsable_value_handled
    (h : UseMeter) (w : W) (st rs : ReqState) (next : Handler) :
  Value (useMetric h) <> "" ->
  resolveState h w st next = Some rs ->
  ParseFloat (ReplaceAll (replacer rs) (Value (useMetric h)) "1") = None ->
  resolvedValue h w st next = Some 0%float
  /\ (forall hv,
        Type_ (useMetric h) = MetricTypeHistogram ->
        responseTime (useMetric h) = Some hv ->
        report h 0%float rs
        = perform (HistogramObserve hv (labelValues h rs) 0%float) rs)
  /\ (forall c,
        Type_ (useMetric h) = MetricTypeCounter ->
        requestCounter (useMetric h) = Some c ->
        report h 0%float rs
        = perform (CounterAdd c (labelValues h rs) 1%float) rs)
  /\ (forall st1 res w' r' now',
        report h 0%float rs = Some st1 ->
        callNext h w st next = Some (res, w', r', now') ->
        exists st',
          ServeHTTP h w st next = Some (res, w', st')
          /\ backend st' = backend st1)
  /\ (forall res w' st',
        ServeHTTP h w st next = Some (res, w', st') ->
        exists r' now', callNext h w st next = Some (res, w', r', now')).
Proof.
  intros Hv Hrs Hparse.
  assert (Hval : resolvedValue h w st next = Some 0%float)
    by (rewrite (resolvedValue_template h w st rs next Hv Hrs), Hparse;
        reflexivity).
  split; [exact Hval |]. split; [| split; [| split]].
  - intros hv Hty Hh. exact (report_histogram h _ rs hv Hty Hh).
  - intros c Hty Hc. rewrite (report_counter h _ rs c Hty Hc).
    reflexivity.
  - intros st1 res w' r' now' Hrep Hnext.
    destruct (ServeHTTP_reported h w st rs st1 next _ res w' r' now'
                Hrs Hval Hrep Hnext) as (st' & Hs & Hb & _).
    exists st'. split; [exact Hs | exact Hb].
  - intros res w' st' Hs.
    destruct (ServeHTTP_returned h w st next res w' st' Hs)
      as (_ & _ & _ & r' & _ & _ & _ & Hnext & _).
    eauto.
Qed.

(** On the deferred path, when the handler sets a status code once or more
    on the sink, the status the sink holds when the handler returns, and
    the text published as [meter.response.status], is that of the handler's
    last [WriteHeader] call. *)
Lemma deferred_status_is_last_call
    (h : UseMeter) (w : W) (st : ReqState) (next : Handler)
    (res : error) (w' : W) (st' : ReqState) (codes : list int) (code : int) :
  AfterResponse (useMetric h) = true ->
  statusCalls next (mkResponseWriter w 0%Z 0%Z) (replacer st)
  = codes ++ [code] ->
  ServeHTTP h w st next = Some (res, w', st') ->
  Replacer_Get (replacer st') "meter.response.status" = Some (Itoa code).
Proof.
  intros Hd Hcalls Hs.
  destruct (ServeHTTP_returned h w st next res w' st' Hs)
    as (rs & v & st1 & r' & Hrs & _ & _ & _ & _ & Hr).
  rewrite Hd in Hr. rewrite Hr.
  destruct (runHandler next (mkResponseWriter w 0%Z 0%Z) (replacer st)
              (clock st)) as [[[[res0 wrap] r0] now0] |] eqn:Hrun.
  - destruct (deferred_run h w st next res0 wrap r0 now0 Hd Hrun)
      as (Hrs' & _ & _).
    rewrite Hrs in Hrs'. inversion Hrs'; subst rs.
    rewrite publish_status. unfold responseWriter_Status.
    rewrite (sink_status_last next _ _ _ _ _ _ _ Hrun), Hcalls, last_snoc.
    reflexivity.
  - destruct (deferred_panic h w st next Hd Hrun) as (Hrs' & _).
    rewrite Hrs in Hrs'. discriminate.
Qed.

(** On the deferred path, when the handler never sets a status code, the
    sink still holds the zero value its [statusCode] field was created
    with, and that is what gets published. *)
Lemma deferred_status_without_call
    (h : UseMeter) (w : W) (st : ReqState) (next : Handler)
    (res : error) (w' : W) (st' : ReqState) :
  AfterResponse (useMetric h) = true ->
  statusCalls next (mkResponseWriter w 0%Z 0%Z) (replacer st) = [] ->
  ServeHTTP h w st next = Some (res, w', st') ->
  Replacer_Get (replacer st') "meter.response.status" = Some "0".
Proof.
  intros Hd Hcalls Hs.
  destruct (ServeHTTP_returned h w st next res w' st' Hs)
    as (rs & v & st1 & r' & Hrs & _ & _ & _ & _ & Hr).
  rewrite Hd in Hr. rewrite Hr.
  destruct (runHandler next (mkResponseWriter w 0%Z 0%Z) (replacer st)
              (clock st)) as [[[[res0 wrap] r0] now0] |] eqn:Hrun.
  - destruct (deferred_run h w st next res0 wrap r0 now0 Hd Hrun)
      as (Hrs' & _ & _).
    rewrite Hrs in Hrs'. inversion Hrs'; subst rs.
    rewrite publish_status. unfold responseWriter_Status.
    rewrite (sink_status_last next _ _ _ _ _ _ _ Hrun), Hcalls.
    reflexivity.
  - destruct (deferred_panic h w st next Hd Hrun) as (Hrs' & _).
    rewrite Hrs in Hrs'. discriminate.
Qed.

(** C7. On the deferred path with no value template, once the downstream
    handler has returned: for a Histogram the value handed to [report], and
    passed on to [Observe], is [Seconds] of the elapsed time of the
    downstream call, which is the clock reading taken when the handler
    returned minus the reading taken just before it was called, and is the
    time the handler took; [ServeHTTP] is that one [Observe] call, with the
    handler's result returned when the call returns.  For a Counter the
    value handed to [report] is [0.0]. *)
Theorem deferred_default_value
    (h : UseMeter) (w : W) (st : ReqState) (next : Handler)
    (res : error) (wrap : responseWriter W) (r' : Replacer) (now' : Time) :
  AfterResponse (useMetric h) = true ->
  Value (useMetric h) = "" ->
  runHandler next (mkResponseWriter w 0%Z 0%Z) (replacer st) (clock st)
  = Some (res, wrap, r', now') ->
  let elapsed := Since now' (clock st) in
  let rs := publish wrap elapsed (mkReqState r' now' (backend st)) in
  elapsed = timeTaken next (mkResponseWriter w 0%Z 0%Z) (replacer st)
  /\ (forall hv,
        Type_ (useMetric h) = MetricTypeHistogram ->
        responseTime (useMetric h) = Some hv ->
        let observe :=
          HistogramObserve hv (labelValues h rs) (Seconds elapsed) in
        resolvedValue h w st next = Some (Seconds elapsed)
        /\ ServeHTTP h w st next
           = match perform observe rs with
             | Some st' => Some (res, inner wrap, st')
             | None => None
             end
        /\ (callReturns observe = true ->
            exists st',
              ServeHTTP h w st next = Some (res, inner wrap, st')
              /\ backend st' = backend st ++ [observe]))
  /\ (Type_ (useMetric h) = MetricTypeCounter ->
      resolvedValue h w st next = Some 0%float).
Proof.
  intros Hd Hv Hrun. cbv zeta.
  destruct (deferred_run h w st next res wrap r' now' Hd Hrun)
    as (Hrs & Hval & Hnext). cbv zeta in Hrs, Hval.
  assert (Hdef : deferredValue h (Since now' (clock st))
                   (publish wrap (Since now' (clock st))
                      (mkReqState r' now' (backend st)))
                 = if String.eqb (Type_ (useMetric h)) MetricTypeHistogram
                   then Seconds (Since now' (clock st)) else 0%float).
  { unfold deferredValue. rewrite Hv. reflexivity. }
  rewrite Hdef in Hval.
  split; [unfold Since; rewrite (runHandler_clock _ _ _ _ _ _ _ _ Hrun); lia |].
  split.
  - intros hv Hty Hh. rewrite Hty in Hval.
    cbn [String.eqb Ascii.eqb Bool.eqb MetricTypeHistogram] in Hval.
    split; [exact Hval |].
    assert (Hserve :
      ServeHTTP h w st next
      = match perform (HistogramObserve hv
                         (labelValues h
                            (publish wrap (Since now' (clock st))
                               (mkReqState r' now' (backend st))))
                         (Seconds (Since now' (clock st))))
                (publish wrap (Since now' (clock st))
                   (mkReqState r' now' (backend st))) with
        | Some st' => Some (res, inner wrap, st')
        | None => None
        end).
    { rewrite ServeHTTP_steps, Hrs, Hval, Hnext, Hd.
      rewrite (report_histogram h _ _ hv Hty Hh).
      match goal with
      | |- context [perform ?c ?s] => destruct (perform c s) as [st1 |] eqn:Hp
      end; [| reflexivity].
      destruct (perform_returns _ _ _ Hp) as [_ ->]. reflexivity. }
    split; [exact Hserve |].
    intros Hret. rewrite Hserve, (perform_when_returns _ _ Hret).
    eexists. split; reflexivity.
  - intros Hty. rewrite Hty in Hval. exact Hval.
Qed.

End Recording.

(* ===================================================================== *)
(** ** The recording engine on concrete requests                          *)
(* ===================================================================== *)

Section RecordingRuns.
#[local] Existing Instance decimalStrconv.
#[local] Existing Instance scanTemplates.
#[local] Existing Instance clientGolang.

Lemma one_is_not_zero : 1%float <> 0%float.
Proof.
  intros H. apply (f_equal float_is_zero) in H. vm_compute in H. discriminate.
Qed.

(** C1, the claim as stated fails: an immediate Counter whose value
    template is the literal [0] parses it to [0.0], yet the one call made on
    the collector is [Add(1.0)]. *)
Lemma explicit_zero_counter_adds_one :
  ParseFloat (ReplaceAll (replacer freshRequest) "0" "1") = Some 0%float
  /\ ServeHTTP (directive (counterMetric false "0")) (newResponse 100)
       freshRequest bodyOnlyHandler
     = Some (None, mkHttpResponse true 200%Z hiBody 98%Z,
             mkReqState (mkReplacer ∅) 1000%Z
               [CounterAdd exampleCounterVec [] 1%float])
  /\ 1%float <> 0%float.
Proof.
  split; [vm_compute; reflexivity |].
  split; [vm_compute; reflexivity | exact one_is_not_zero].
Qed.

(** C1 on a deferred counter whose value template is the response size of
    an empty response: the size is 0 and the collector is added 1. *)
Lemma counter_zero_template_adds_one_witness :
  resolvedValue (directive (counterMetric true "{meter.response.size}"))
    (newResponse 100) freshRequest (Return None) = Some 0%float
  /\ exists st',
       ServeHTTP (directive (counterMetric true "{meter.response.size}"))
         (newResponse 100) freshRequest (Return None)
       = Some (None, newResponse 100, st')
       /\ backend st' = [CounterAdd exampleCounterVec [] 1%float].
Proof.
  destruct (counter_zero_template_adds_one
              (directive (counterMetric true "{meter.response.size}"))
              (newResponse 100) freshRequest
              (publish (mkResponseWriter (newResponse 100) 0%Z 0%Z) 0%Z
                 freshRequest)
              (Return None) exampleCounterVec 0%float)
    as (Hval & _ & _ & Hret).
  - reflexivity.
  - reflexivity.
  - discriminate.
  - vm_compute. reflexivity.
  - vm_compute. reflexivity.
  - vm_compute. reflexivity.
  - split; [exact Hval |].
    destruct (Hret None (newResponse 100) (mkReplacer ∅) 1000%Z)
      as (st' & Hs & Hb).
    + vm_compute. reflexivity.
    + vm_compute. reflexivity.
    + exists st'. split; [exact Hs | exact Hb].
Defined.

(** C6, the claim as stated fails for a Counter: the template [abc] does
    not parse, the request completes with the handler's result, and the
    value recorded on the collector is [1.0], not [0.0]. *)
Lemma unparsable_counter_value_adds_one :
  ParseFloat (ReplaceAll (replacer freshRequest) "abc" "1") = None
  /\ ServeHTTP (directive (counterMetric false "abc")) (newResponse 100)
       freshRequest bodyOnlyHandler
     = Some (None, mkHttpResponse true 200%Z hiBody 98%Z,
             mkReqState (mkReplacer ∅) 1000%Z
               [CounterAdd exampleCounterVec [] 1%float])
  /\ 1%float <> 0%float.
Proof.
  split; [vm_compute; reflexivity |].
  split; [vm_compute; reflexivity | exact one_is_not_zero].
Qed.

(** C6 on a deferred histogram with the template [abc]: the handler's
    response goes out and the observation is [0.0]. *)
Lemma unparsable_value_handled_witness :
  resolvedValue (directive (histogramMetric true "abc")) (newResponse 100)
    freshRequest slowHandler = Some 0%float
  /\ exists st',
       ServeHTTP (directive (histogramMetric true "abc")) (newResponse 100)
         freshRequest slowHandler
       = Some (None, mkHttpResponse true 404%Z hiBody 98%Z, st')
       /\ backend st' = [HistogramObserve exampleHistogramVec [] 0%float].
Proof.
  destruct (unparsable_value_handled
              (directive (histogramMetric true "abc")) (newResponse 100)
              freshRequest
              (publish
                 (mkResponseWriter (mkHttpResponse true 404%Z hiBody 98%Z)
                    404%Z 2%Z)
                 2000000000%Z
                 (mkReqState (mkReplacer ∅) 2000001000%Z []))
              slowHandler)
    as (Hval & Hhist & _ & Hret & _).
  - discriminate.
  - vm_compute. reflexivity.
  - vm_compute. reflexivity.
  - split; [exact Hval |].
    destruct (Hret
                (record_call
                   (HistogramObserve exampleHistogramVec [] 0%float)
                   (publish
                      (mkResponseWriter
                         (mkHttpResponse true 404%Z hiBody 98%Z) 404%Z 2%Z)
                      2000000000%Z
                      (mkReqState (mkReplacer ∅) 2000001000%Z [])))
                None (mkHttpResponse true 404%Z hiBody 98%Z)
                (mkReplacer ∅) 2000001000%Z)
      as (st' & Hs & Hb).
    + rewrite (Hhist exampleHistogramVec eq_refl eq_refl). reflexivity.
    + vm_compute. reflexivity.
    + exists st'. split; [exact Hs | exact Hb].
Defined.

(** C2, the code at the failing input.  The handler sets 404 and then 500
    on the sink.  The response goes out with the first, 404, as net/http
    has it; the sink keeps the last, and [meter.response.status] is
    published as [500], which is not the status code of the response. *)
Lemma first_status_is_not_recorded :
  statusCalls twoStatusHandler
    (mkResponseWriter (newResponse 100) 0%Z 0%Z) (replacer freshRequest)
  = [404%Z; 500%Z]
  /\ (exists st',
        ServeHTTP (directive (counterMetric true "")) (newResponse 100)
          freshRequest twoStatusHandler
        = Some (None, mkHttpResponse true 404%Z [] 100%Z, st')
        /\ Replacer_Get (replacer st') "meter.response.status" = Some "500")
  /\ Itoa (status (mkHttpResponse true 404%Z [] 100%Z)) = "404"
  /\ Itoa 404%Z <> "500".
Proof.
  split; [reflexivity |]. split; [| split].
  - eexists. split; vm_compute; reflexivity.
  - vm_compute. reflexivity.
  - vm_compute. discriminate.
Qed.

(** The same run, by the general rule: the last status set is the one
    published. *)
Lemma last_status_is_published :
  forall res w' st',
    ServeHTTP (directive (counterMetric true "")) (newResponse 100)
      freshRequest twoStatusHandler = Some (res, w', st') ->
    Replacer_Get (replacer st') "meter.response.status" = Some (Itoa 500%Z).
Proof.
  intros res w' st'.
  apply (deferred_status_is_last_call
           (directive (counterMetric true "")) (newResponse 100) freshRequest
           twoStatusHandler res w' st' [404%Z] 500%Z); reflexivity.
Qed.

(** C3, the code at the failing input. The handler writes a two-byte body
    and never calls [WriteHeader]: the response goes out with status 200
    (net/http's implicit header), the sink's status is still the zero value
    of its [int] field, and the text published as [meter.response.status],
    also used as the label value of the observation, is [0]. *)
Lemma implicit_status_published_as_zero :
  statusCalls bodyOnlyHandler
    (mkResponseWriter (newResponse 100) 0%Z 0%Z) (replacer freshRequest) = []
  /\ exists st',
       ServeHTTP (directive statusHistogram)
         (newResponse 100) freshRequest bodyOnlyHandler
       = Some (None, mkHttpResponse true 200%Z hiBody 98%Z, st')
       /\ Replacer_Get (replacer st') "meter.response.status" = Some "0"
       /\ Replacer_Get (replacer st') "meter.response.size" = Some "2"
       /\ backend st' = [HistogramObserve statusHistogramVec ["0"] 2%float].
Proof.
  split; [reflexivity |].
  eexists. split; [vm_compute; reflexivity |].
  repeat split; vm_compute; reflexivity.
Qed.

(** C7 on a histogram and a handler that takes two seconds: the
    observation is [2.0]. *)
Lemma deferred_default_value_witness :
  timeTaken slowHandler (mkResponseWriter (newResponse 100) 0%Z 0%Z)
    (replacer freshRequest) = 2000000000%Z
  /\ resolvedValue (directive (histogramMetric true "")) (newResponse 100)
       freshRequest slowHandler = Some 2%float
  /\ exists st',
       ServeHTTP (directive (histogramMetric true "")) (newResponse 100)
         freshRequest slowHandler
       = Some (None, mkHttpResponse true 404%Z hiBody 98%Z, st')
       /\ backend st' = [HistogramObserve exampleHistogramVec [] 2%float].
Proof.
  destruct (deferred_default_value
              (directive (histogramMetric true "")) (newResponse 100)
              freshRequest slowHandler None
              (mkResponseWriter (mkHttpResponse true 404%Z hiBody 98%Z)
                 404%Z 2%Z)
              (mkReplacer ∅) 2000001000%Z eq_refl eq_refl)
    as (_ & Hhist & _).
  - vm_compute. reflexivity.
  - destruct (Hhist exampleHistogramVec eq_refl eq_refl)
      as (Hval & _ & Hret).
    split; [reflexivity |].
    split; [exact Hval |].
    destruct Hret as (st' & Hs & Hb); [vm_compute; reflexivity |].
    exists st'. split; [exact Hs | exact Hb].
Defined.

(** A short write through the sink: the wrapped writer has room for three
    of five bytes; the sink returns its [(3, short write)] and counts 3. *)
Lemma responseWriter_Write_forwards_witness :
  fst (responseWriter_Write (hiBody ++ hiBody ++ [Byte.x21])
         (mkResponseWriter (newResponse 3) 0%Z 10%Z))
  = (3%Z, Some "short write")
  /\ responseLength
       (snd (responseWriter_Write (hiBody ++ hiBody ++ [Byte.x21])
               (mkResponseWriter (newResponse 3) 0%Z 10%Z)))
     = 13%Z.
Proof.
  destruct (responseWriter_Write_forwards (hiBody ++ hiBody ++ [Byte.x21])
              (mkResponseWriter (newResponse 3) 0%Z 10%Z))
    as (Hret & _ & _ & _ & Hlen).
  split; [rewrite Hret; reflexivity |].
  rewrite Hlen; [reflexivity |]. vm_compute. split; [discriminate | reflexivity].
Defined.

End RecordingRuns.

(* ===================================================================== *)
(** ** The parser                                                         *)
(* ===================================================================== *)

Section Parser.
Context `{SC : Strconv} {D : Type} `{DI : Dispenser D}.

(** An option changes neither kind nor name nor collectors, and never
    clears [AfterResponse]. *)
Lemma parseOption_keeps (fuel : nat) (metricType : MetricType) (d d' : D)
    (m m' : Metric) :
  parseOption fuel metricType d m = Ok (m', d') ->
  Type_ m' = Type_ m /\ Name m' = Name m
  /\ requestCounter m' = requestCounter m /\ responseTime m' = responseTime m
  /\ (AfterResponse m = true -> AfterResponse m' = true).
Proof.
  unfold parseOption. intros Hp.
  break_parse Hp; inversion Hp; subst; cbn; auto.
Qed.

Lemma optionsLoop_keeps (fuel : nat) (metricType : MetricType) :
  forall (d d' : D) (m m' : Metric),
    optionsLoop fuel metricType d m = Ok (m', d') ->
    Type_ m' = Type_ m /\ Name m' = Name m
    /\ requestCounter m' = requestCounter m /\ responseTime m' = responseTime m
    /\ (AfterResponse m = true -> AfterResponse m' = true).
Proof.
  induction fuel as [| fuel IH]; intros d d' m m' Hl; [discriminate |].
  cbn [optionsLoop] in Hl.
  destruct (String.eqb (Val d) "").
  - inversion Hl; subst. auto.
  - destruct (parseOption (S fuel) metricType d m) as [[m1 d1] | |] eqn:Hopt;
      cbn [Res_bind] in Hl; try discriminate.
    destruct (parseOption_keeps _ _ _ _ _ _ Hopt) as (T1 & N1 & C1 & R1 & A1).
    destruct (NextBlock 1 d1) as [more d2].
    destruct more.
    + destruct (IH _ _ _ _ Hl) as (T2 & N2 & C2 & R2 & A2).
      repeat split; try congruence. auto.
    + inversion Hl; subst. auto.
Qed.

(** A successful [parseMetric] adds one definition, under a name that was
    free; the definition has the kind it was declared with, is deferred
    when that kind is histogram, has an export name and no collector. *)
Lemma parseMetric_adds (fuel : nat) (metricType : MetricType) (d d' : D)
    (metrics metrics' : gmap string Metric) :
  parseMetric fuel metricType d metrics = Ok (metrics', d') ->
  exists m,
    metrics' = <[Name m := m]> metrics
    /\ metrics !! Name m = None
    /\ Type_ m = metricType
    /\ (metricType = MetricTypeHistogram -> AfterResponse m = true)
    /\ ExportName m <> ""
    /\ requestCounter m = None /\ responseTime m = None.
Proof.
  unfold parseMetric. intros Hp.
  destruct (NextArg d) as [ok d1]. destruct ok; [| discriminate].
  cbn [negb] in Hp.
  destruct (String.eqb_spec
              (Name (set_Name (Val d1)
                       (if String.eqb metricType MetricTypeHistogram
                        then set_AfterResponse true (newMetric metricType)
                        else newMetric metricType))) "") as [| Hname];
    [discriminate |].
  destruct (NextBlock 1 d1) as [ok d2]. destruct ok; [| discriminate].
  cbn [negb] in Hp.
  match type of Hp with
  | context [optionsLoop ?f ?t ?dd ?mm] =>
      destruct (optionsLoop f t dd mm) as [[m1 d3] | |] eqn:Hopt
  end; cbn [Res_bind] in Hp; try discriminate.
  destruct (optionsLoop_keeps _ _ _ _ _ _ Hopt) as (T & N & C & R & A).
  destruct (metrics !! Name m1) eqn:Hfree; [discriminate |].
  inversion Hp; subst metrics' d'; clear Hp.
  assert (Hhist : metricType = MetricTypeHistogram -> AfterResponse m1 = true).
  { intros ->. apply A. reflexivity. }
  destruct (String.eqb_spec (ExportName m1) "") as [Hexp | Hexp].
  - exists (set_ExportName (Name m1) m1). cbn.
    repeat split; auto.
    + rewrite T. destruct (String.eqb metricType MetricTypeHistogram);
        reflexivity.
    + rewrite N. exact Hname.
    + rewrite C. destruct (String.eqb metricType MetricTypeHistogram);
        reflexivity.
    + rewrite R. destruct (String.eqb metricType MetricTypeHistogram);
        reflexivity.
  - exists m1. repeat split; auto.
    + rewrite T. destruct (String.eqb metricType MetricTypeHistogram);
        reflexivity.
    + rewrite C. destruct (String.eqb metricType MetricTypeHistogram);
        reflexivity.
    + rewrite R. destruct (String.eqb metricType MetricTypeHistogram);
        reflexivity.
Qed.

(** A property of the map that every successful [parseMetric] keeps is
    kept by the outer loop, whatever its outcome. *)
Lemma metricsLoop_preserves (P : gmap string Metric -> Prop) :
  (forall fuel metricType (d d' : D) metrics metrics',
     metricType = MetricTypeCounter \/ metricType = MetricTypeHistogram ->
     P metrics ->
     parseMetric fuel metricType d metrics = Ok (metrics', d') ->
     P metrics') ->
  forall fuel (d : D) metrics metrics' r,
    P metrics ->
    metricsLoop fuel d metrics = (metrics', r) ->
    P metrics'.
Proof.
  intros Hstep. induction fuel as [| fuel IH]; intros d metrics metrics' r HP Hl.
  - inversion Hl; subst. exact HP.
  - cbn [metricsLoop] in Hl.
    destruct (String.eqb (Val d) ""); [inversion Hl; subst; exact HP |].
    destruct (String.eqb (Val d) "}"); [inversion Hl; subst; exact HP |].
    destruct (String.eqb (Val d) MetricTypeCounter
              || String.eqb (Val d) MetricTypeHistogram) eqn:Hkind;
      [| inversion Hl; subst; exact HP].
    destruct (parseMetric (S fuel) (Val d) d metrics) as [[m1 d1] | |] eqn:Hpm;
      try (inversion Hl; subst; exact HP).
    assert (HP1 : P m1).
    { apply (Hstep (S fuel) (Val d) d d1 metrics m1); auto.
      apply orb_true_iff in Hkind.
      destruct Hkind as [E | E]; apply String.eqb_eq in E; auto. }
    destruct (Next d1) as [more d2]. destruct more.
    + exact (IH _ _ _ _ HP1 Hl).
    + inversion Hl; subst. exact HP1.
Qed.

Lemma metricsLoop_histogramsDeferred (fuel : nat) (d : D)
    (metrics metrics' : gmap string Metric) (r : Res D) :
  histogramsDeferred metrics ->
  metricsLoop fuel d metrics = (metrics', r) ->
  histogramsDeferred metrics'.
Proof.
  apply metricsLoop_preserves.
  clear. intros fuel metricType d d' metrics metrics' _ HP Hpm.
  destruct (parseMetric_adds _ _ _ _ _ _ Hpm)
    as (m & -> & _ & Hty & Hdef & _).
  intros name m0 Hlook Hhist.
  destruct (decide (Name m = name)) as [<- | Hne].
  - rewrite lookup_insert_eq in Hlook. inversion Hlook; subst m0.
    apply Hdef. congruence.
  - rewrite lookup_insert_ne in Hlook by exact Hne. eauto.
Qed.

Lemma metricsLoop_freshlyParsed (fuel : nat) (d : D)
    (metrics metrics' : gmap string Metric) (r : Res D) :
  freshlyParsed metrics ->
  metricsLoop fuel d metrics = (metrics', r) ->
  freshlyParsed metrics'.
Proof.
  apply metricsLoop_preserves.
  clear. intros fuel metricType d d' metrics metrics' Hkind HP Hpm.
  destruct (parseMetric_adds _ _ _ _ _ _ Hpm)
    as (m & -> & _ & Hty & _ & _ & Hc & Hr).
  intros name m0 Hlook.
  destruct (decide (Name m = name)) as [<- | Hne].
  - rewrite lookup_insert_eq in Hlook. inversion Hlook; subst m0.
    rewrite Hty. auto.
  - rewrite lookup_insert_ne in Hlook by exact Hne. eauto.
Qed.

(** The map [UnmarshalCaddyfile] leaves in the module is the one the outer
    loop built from the empty map, or the empty map itself. *)
Lemma UnmarshalCaddyfile_from_empty (fuel : nat) (mm mm' : MeterModule)
    (d : D) (r : Res D) :
  UnmarshalCaddyfile fuel mm d = (mm', r) ->
  Metrics mm' = ∅
  \/ exists d0 r0, metricsLoop fuel d0 ∅ = (Metrics mm', r0).
Proof.
  unfold UnmarshalCaddyfile. intros Hu.
  destruct (Next d) as [ok d1].
  destruct ok; [| inversion Hu; subst; left; reflexivity].
  destruct (NextBlock 0 d1) as [ok d2].
  destruct ok; [| inversion Hu; subst; left; reflexivity].
  cbn [negb Metrics] in Hu.
  destruct (metricsLoop fuel d2 ∅) as [metrics r1] eqn:Hl.
  inversion Hu; subst. right. eauto.
Qed.

(** C5. In the module left by [UnmarshalCaddyfile], and so in particular
    after every successful parse, each definition of kind histogram has
    [AfterResponse = true], whether or not its block held
    [after_response]. *)
Theorem UnmarshalCaddyfile_histograms_deferred
    (fuel : nat) (mm mm' : MeterModule) (d : D) (r : Res D)
    (name : string) (m : Metric) :
  UnmarshalCaddyfile fuel mm d = (mm', r) ->
  Metrics mm' !! name = Some m ->
  Type_ m = MetricTypeHistogram ->
  AfterResponse m = true.
Proof.
  intros Hu Hlook Hhist.
  destruct (UnmarshalCaddyfile_from_empty _ _ _ _ _ Hu)
    as [Hempty | (d0 & r0 & Hl)].
  - rewrite Hempty, lookup_empty in Hlook. discriminate.
  - assert (H0 : histogramsDeferred ∅)
      by (intros n x Hx; rewrite lookup_empty in Hx; discriminate).
    exact (metricsLoop_histogramsDeferred _ _ _ _ _ H0 Hl name m Hlook Hhist).
Qed.

(** C9. [UnmarshalCaddyfile] starts by replacing the module's map with an
    empty one: run on the same dispenser from any two module states it
    leaves the same module and returns the same outcome, [parseMeter] on an
    existing module gives what it gives on a new one, and every definition
    left in the module is one built by this parse, with no collector bound,
    so none is carried over from the state before. *)
Theorem UnmarshalCaddyfile_discards_prior_state
    (fuel : nat) (mm1 mm2 : MeterModule) (d : D) :
  UnmarshalCaddyfile fuel mm1 d = UnmarshalCaddyfile fuel mm2 d
  /\ parseMeter fuel d (Some mm1) = parseMeter fuel d None
  /\ freshlyParsed (Metrics (fst (UnmarshalCaddyfile fuel mm1 d))).
Proof.
  split; [reflexivity |]. split; [reflexivity |].
  destruct (UnmarshalCaddyfile fuel mm1 d) as [mm' r] eqn:Hu. cbn [fst].
  assert (H0 : freshlyParsed ∅)
    by (intros n x Hx; rewrite lookup_empty in Hx; discriminate).
  destruct (UnmarshalCaddyfile_from_empty _ _ _ _ _ Hu)
    as [Hempty | (d0 & r0 & Hl)].
  - rewrite Hempty. exact H0.
  - exact (metricsLoop_freshlyParsed _ _ _ _ _ H0 Hl).
Qed.









End Parser.

(* ===================================================================== *)
(** ** Provisioning                                                       *)
(* ===================================================================== *)

Section Provisioning.
Context {R : Type} `{RG : Registerer R}.

(** A counter definition whose export name the registry already holds: the
    existing collector is adopted when it is a [*CounterVec]; with any other
    existing collector the type assertion panics, and the definition keeps
    the collector that was just built and refused. *)
Lemma provisionMetric_counter_already_registered
    (m : Metric) (registry registry' : R) (addr : nat)
    (existing new : Collector) :
  Type_ m = MetricTypeCounter ->
  Register
    (IsCounterVec (mkCounterVec addr (ExportName m) (Description m)
                     (map Label_Name (Labels m)))) registry
  = (Some (AlreadyRegisteredError existing new), registry') ->
  provisionMetric m registry addr
  = match existing with
    | IsCounterVec e => (set_requestCounter (Some e) m, registry', Continue)
    | _ =>
        (set_requestCounter
           (Some (mkCounterVec addr (ExportName m) (Description m)
                    (map Label_Name (Labels m)))) m,
         registry', Panicked)
    end.
Proof.
  intros Hty Hreg. unfold provisionMetric. rewrite Hty.
  cbn [String.eqb Ascii.eqb Bool.eqb MetricTypeCounter].
  rewrite Hreg. destruct existing; reflexivity.
Qed.

(** The same for a histogram definition. *)
Lemma provisionMetric_histogram_already_registered
    (m : Metric) (registry registry' : R) (addr : nat)
    (existing new : Collector) :
  Type_ m = MetricTypeHistogram ->
  Register
    (IsHistogramVec (mkHistogramVec addr (ExportName m) (Description m)
                       (Buckets m) (map Label_Name (Labels m)))) registry
  = (Some (AlreadyRegisteredError existing new), registry') ->
  provisionMetric m registry addr
  = match existing with
    | IsHistogramVec e => (set_responseTime (Some e) m, registry', Continue)
    | _ =>
        (set_responseTime
           (Some (mkHistogramVec addr (ExportName m) (Description m)
                    (Buckets m) (map Label_Name (Labels m)))) m,
         registry', Panicked)
    end.
Proof.
  intros Hty Hreg. unfold provisionMetric. rewrite Hty.
  cbn [String.eqb Ascii.eqb Bool.eqb MetricTypeHistogram MetricTypeCounter].
  rewrite Hreg. destruct existing; reflexivity.
Qed.

(** A counter definition whose export name the registry already holds for
    a [*CounterVec]: provisioning adopts that collector and goes on. *)
Lemma provisionMetric_adopts_existing_counter
    (m : Metric) (registry registry' : R) (addr : nat)
    (e : CounterVec) (new : Collector) :
  Type_ m = MetricTypeCounter ->
  Register
    (IsCounterVec (mkCounterVec addr (ExportName m) (Description m)
                     (map Label_Name (Labels m)))) registry
  = (Some (AlreadyRegisteredError (IsCounterVec e) new), registry') ->
  provisionMetric m registry addr
  = (set_requestCounter (Some e) m, registry', Continue).
Proof.
  intros Hty Hreg.
  exact (provisionMetric_counter_already_registered m registry registry' addr
           (IsCounterVec e) new Hty Hreg).
Qed.

End Provisioning.

(* ===================================================================== *)
(** ** Parser and provisioning on concrete Caddyfiles                     *)
(* ===================================================================== *)

Section ParserRuns.
#[local] Existing Instance decimalStrconv.
#[local] Set Warnings "-inexact-float".

(** The parse of the README's example. *)
Lemma readme_parses :
  exists d,
    UnmarshalCaddyfile 40 (mkMeterModule ∅) (NewDispenser readmeTokens)
    = (mkMeterModule
         (<["my_requests" :=
              mkMetric MetricTypeCounter "my_requests" "my_requests"
                "Number of requests"
                [mkLabel "method" "" "{http.request.method}";
                 mkLabel "path" "" "{http.request.uri}"]
                [] false "" None None]>
            (<["response_time" :=
                 mkMetric MetricTypeHistogram "response_time" "response_time"
                   "Response time in seconds"
                   [mkLabel "method" "" "{http.request.method}"]
                   [0.1%float; 0.3%float; 1.2%float; 5%float]
                   true "" None None]> ∅)),
       Ok d).
Proof. eexists. vm_compute. reflexivity. Qed.

(** C5 on the README's example, whose histogram block has no
    [after_response]. *)
Lemma UnmarshalCaddyfile_histograms_deferred_witness :
  AfterResponse
    (mkMetric MetricTypeHistogram "response_time" "response_time"
       "Response time in seconds"
       [mkLabel "method" "" "{http.request.method}"]
       [0.1%float; 0.3%float; 1.2%float; 5%float] true "" None None)
  = true.
Proof.
  destruct readme_parses as [d Hparse].
  apply (UnmarshalCaddyfile_histograms_deferred 40 (mkMeterModule ∅) _
           (NewDispenser readmeTokens) _ "response_time" _ Hparse).
  - vm_compute. reflexivity.
  - reflexivity.
Defined.


(** The whole parse of [unsortedTokens]: the bucket list of the definition
    is the line as written. *)
Lemma unsorted_buckets_parse :
  exists d,
    UnmarshalCaddyfile 20 (mkMeterModule ∅) (NewDispenser unsortedTokens)
    = (mkMeterModule
         (<["sizes" :=
              mkMetric MetricTypeHistogram "sizes" "sizes" "" []
                [5%float; 1%float; 1%float; 0.5%float] true "" None None]> ∅),
       Ok d).
Proof. eexists. vm_compute. reflexivity. Qed.

(** Without the reset the outcome would depend on the module: the outer
    loop, started on a map that already defines [sizes], refuses the
    definition of [unsortedTokens]. *)
Lemma metricsLoop_sees_prior_map :
  snd (metricsLoop 20 (mkDispenser unsortedTokens 2 1)
         (<["sizes" := newMetric MetricTypeCounter]> ∅))
  = Err "metric sizes already defined".
Proof. vm_compute. reflexivity. Qed.

(** C4, the code at the failing input. The Caddyfile [sharedNameTokens]
    parses; provisioning its two definitions against an empty registry, in
    either order, registers the first and then finds the second's export
    name taken by a collector of the other kind: the type assertion
    panics, where an error return was called for. *)
Lemma Provision_kind_mismatch_panics :
  (exists d,
     snd (UnmarshalCaddyfile 20 (mkMeterModule ∅)
            (NewDispenser sharedNameTokens)) = Ok d)
  /\ snd (Provision ["a"; "b"]%string
            (fst (UnmarshalCaddyfile 20 (mkMeterModule ∅)
                    (NewDispenser sharedNameTokens)))
            (∅ : gmap string Collector) 0) = Panicked
  /\ snd (Provision ["b"; "a"]%string
            (fst (UnmarshalCaddyfile 20 (mkMeterModule ∅)
                    (NewDispenser sharedNameTokens)))
            (∅ : gmap string Collector) 0) = Panicked.
Proof.
  split; [eexists; vm_compute; reflexivity |].
  split; vm_compute; reflexivity.
Qed.

(** A second counter under an export name the registry holds for a
    counter. *)
Lemma provisionMetric_adopts_existing_counter_witness :
  provisionMetric
    (mkMetric MetricTypeCounter "b" "x" "" [] [] false "" None None)
    (<["x" := IsCounterVec (mkCounterVec 0 "x" "" [])]> ∅
       : gmap string Collector) 1
  = (mkMetric MetricTypeCounter "b" "x" "" [] [] false ""
       (Some (mkCounterVec 0 "x" "" [])) None,
     <["x" := IsCounterVec (mkCounterVec 0 "x" "" [])]> ∅,
     Continue).
Proof.
  apply (provisionMetric_adopts_existing_counter
           (mkMetric MetricTypeCounter "b" "x" "" [] [] false "" None None)
           (<["x" := IsCounterVec (mkCounterVec 0 "x" "" [])]> ∅
              : gmap string Collector)
           (<["x" := IsCounterVec (mkCounterVec 0 "x" "" [])]> ∅) 1
           (mkCounterVec 0 "x" "" [])
           (IsCounterVec (mkCounterVec 1 "x" "" []))).
  - reflexivity.
  - vm_compute. reflexivity.
Defined.

(** With two definitions of one kind under one export name, the second
    adopts the collector of the first. *)
Lemma Provision_same_kind_adopts :
  let first := mkMetric MetricTypeCounter "a" "x" "" [] [] false "" None None in
  let second := mkMetric MetricTypeCounter "b" "x" "" [] [] false "" None None in
  Provision ["a"; "b"]%string
    (mkMeterModule (<["a" := first]> (<["b" := second]> ∅)))
    (∅ : gmap string Collector) 0
  = (mkMeterModule
       (<["a" := set_requestCounter (Some (mkCounterVec 0 "x" "" [])) first]>
          (<["b" := set_requestCounter (Some (mkCounterVec 0 "x" "" []))
                      second]> ∅)),
     <["x" := IsCounterVec (mkCounterVec 0 "x" "" [])]> ∅,
     Continue).
Proof. vm_compute. reflexivity. Qed.

End ParserRuns.

(* ===================================================================== *)
(** ** The parser returns                                                 *)
(* ===================================================================== *)

(** The iteration bound of the loops is a device of the embedding.  With a
    dispenser whose successful moves use up a finite supply, measured by
    [left], a bound above the supply is never reached: every parsing
    function returns a value or an error. *)

Section ParserReturns.
Context `{SC : Strconv} {D : Type} `{DI : Dispenser D}.
Variable left : D -> nat.
Hypothesis Next_uses : forall d,
  left (snd (Next d)) <= left d
  /\ (fst (Next d) = true -> left (snd (Next d)) < left d).
Hypothesis NextArg_uses : forall d,
  left (snd (NextArg d)) <= left d
  /\ (fst (NextArg d) = true -> left (snd (NextArg d)) < left d).
Hypothesis NextBlock_uses : forall n d,
  left (snd (NextBlock n d)) <= left d
  /\ (fst (NextBlock n d) = true -> left (snd (NextBlock n d)) < left d).

Lemma bucketsLoop_returns (fuel : nat) :
  forall (d : D) (buckets : list float64),
    left d < fuel -> returnsWithin left (left d) (bucketsLoop fuel d buckets).
Proof.
  induction fuel as [| fuel IH]; intros d buckets Hfuel; [lia |].
  cbn [bucketsLoop].
  destruct (String.eqb (Val d) ""); [cbn; lia |].
  destruct (parseFloat (Val d)); [| exact I].
  destruct (NextArg_uses d) as [Hle Hlt].
  destruct (NextArg d) as [more d1]. cbn [fst snd] in Hle, Hlt.
  destruct more; [| cbn; lia].
  specialize (Hlt eq_refl).
  specialize (IH d1 (buckets ++ [f]) ltac:(lia)).
  destruct (bucketsLoop fuel d1 (buckets ++ [f])) as [[bs d2] | |];
    cbn in *; auto; lia.
Qed.

Lemma labelsLoop_returns (fuel : nat) :
  forall (d : D) (labels : list Label),
    left d < fuel -> returnsWithin left (left d) (labelsLoop fuel d labels).
Proof.
  induction fuel as [| fuel IH]; intros d labels Hfuel; [lia |].
  cbn [labelsLoop].
  destruct (NextBlock_uses 2 d) as [Hle Hlt].
  destruct (NextBlock 2 d) as [more d1]. cbn [fst snd] in Hle, Hlt.
  destruct more; [| cbn; lia]. specialize (Hlt eq_refl). cbn [negb].
  destruct (String.eqb (Val d1) "}"); [cbn; lia |].
  destruct (NextArg_uses d1) as [Hle2 _].
  destruct (NextArg d1) as [ok d2]. cbn [fst snd] in Hle2.
  destruct ok; [| exact I]. cbn [negb].
  specialize (IH d2 (labels ++ [mkLabel (Val d1) "" (Val d2)]) ltac:(lia)).
  destruct (labelsLoop fuel d2 (labels ++ [mkLabel (Val d1) "" (Val d2)]))
    as [[ls d3] | |]; cbn in *; auto; lia.
Qed.

Lemma parseOption_returns (fuel : nat) (metricType : MetricType) (d : D)
    (m : Metric) :
  left d < fuel ->
  returnsWithin left (left d) (parseOption fuel metricType d m).
Proof.
  intros Hfuel. unfold parseOption.
  destruct (NextArg_uses d) as [Hle _].
  destruct (String.eqb (Val d) "description").
  { destruct (NextArg d) as [ok d1]. destruct ok; cbn in *; auto. }
  destruct (String.eqb (Val d) "name").
  { destruct (NextArg d) as [ok d1]. destruct ok; cbn in *; auto. }
  destruct (String.eqb (Val d) "after_response"); [cbn; lia |].
  destruct (String.eqb (Val d) "value").
  { destruct (NextArg d) as [ok d1]. destruct ok; cbn in *; auto. }
  destruct (String.eqb (Val d) "labels").
  { unfold parseLabelsBlock.
    pose proof (labelsLoop_returns fuel d [] Hfuel) as Hl.
    destruct (labelsLoop fuel d []) as [[ls d2] | |]; cbn in *; auto. }
  destruct (String.eqb (Val d) "buckets"); [| exact I].
  destruct (negb (String.eqb metricType "histogram")); [exact I |].
  destruct (NextArg d) as [ok d1]. cbn [fst snd] in Hle.
  destruct ok; [| exact I]. cbn [negb].
  pose proof (bucketsLoop_returns fuel d1 [] ltac:(lia)) as Hl.
  destruct (bucketsLoop fuel d1 []) as [[bs d2] | |]; cbn in *; auto; lia.
Qed.

Lemma optionsLoop_returns (fuel : nat) (metricType : MetricType) :
  forall (d : D) (m : Metric),
    left d < fuel ->
    returnsWithin left (left d) (optionsLoop fuel metricType d m).
Proof.
  induction fuel as [| fuel IH]; intros d m Hfuel; [lia |].
  cbn [optionsLoop].
  destruct (String.eqb (Val d) ""); [cbn; lia |].
  pose proof (parseOption_returns (S fuel) metricType d m Hfuel) as Hopt.
  destruct (parseOption (S fuel) metricType d m) as [[m1 d1] | |];
    cbn [Res_bind returnsWithin] in *; auto.
  destruct (NextBlock_uses 1 d1) as [Hle Hlt].
  destruct (NextBlock 1 d1) as [more d2]. cbn [fst snd] in Hle, Hlt.
  destruct more; [| cbn; lia]. specialize (Hlt eq_refl).
  specialize (IH d2 m1 ltac:(lia)).
  destruct (optionsLoop fuel metricType d2 m1) as [[m2 d3] | |];
    cbn in *; auto; lia.
Qed.

Lemma parseMetric_returns (fuel : nat) (metricType : MetricType) (d : D)
    (metrics : gmap string Metric) :
  left d < fuel ->
  returnsWithin left (left d) (parseMetric fuel metricType d metrics).
Proof.
  intros Hfuel. unfold parseMetric.
  destruct (NextArg_uses d) as [Hle _].
  destruct (NextArg d) as [ok d1]. cbn [fst snd] in Hle.
  destruct ok; [| exact I]. cbn [negb].
  match goal with
  | |- context [if String.eqb ?a "" then _ else _] => destruct (String.eqb a "")
  end; [exact I |].
  destruct (NextBlock_uses 1 d1) as [Hle1 _].
  destruct (NextBlock 1 d1) as [ok d2]. cbn [fst snd] in Hle1.
  destruct ok; [| exact I]. cbn [negb].
  match goal with
  | |- context [optionsLoop ?f ?t ?dd ?mm] =>
      pose proof (optionsLoop_returns f t dd mm ltac:(lia)) as Hopt;
      destruct (optionsLoop f t dd mm) as [[m1 d3] | |]
  end; cbn [Res_bind returnsWithin] in *; auto.
  destruct (metrics !! Name m1); [exact I |]. cbn. lia.
Qed.

Lemma metricsLoop_returns (fuel : nat) :
  forall (d : D) (metrics : gmap string Metric),
    left d < fuel -> snd (metricsLoop fuel d metrics) <> OutOfFuel.
Proof.
  induction fuel as [| fuel IH]; intros d metrics Hfuel; [lia |].
  cbn [metricsLoop].
  destruct (String.eqb (Val d) ""); [discriminate |].
  destruct (String.eqb (Val d) "}"); [discriminate |].
  destruct (String.eqb (Val d) MetricTypeCounter
            || String.eqb (Val d) MetricTypeHistogram); [| discriminate].
  pose proof (parseMetric_returns (S fuel) (Val d) d metrics Hfuel) as Hpm.
  destruct (parseMetric (S fuel) (Val d) d metrics) as [[m1 d1] | |];
    cbn [returnsWithin] in Hpm; [| discriminate | contradiction].
  destruct (Next_uses d1) as [Hle Hlt].
  destruct (Next d1) as [more d2]. cbn [fst snd] in Hle, Hlt.
  destruct more; [| discriminate].
  specialize (Hlt eq_refl). apply IH. lia.
Qed.

Lemma UnmarshalCaddyfile_within (fuel : nat) (mm : MeterModule) (d : D) :
  left d < fuel -> returned (snd (UnmarshalCaddyfile fuel mm d)) = true.
Proof.
  intros Hfuel. unfold UnmarshalCaddyfile.
  destruct (Next_uses d) as [Hle _].
  destruct (Next d) as [ok d1]. cbn [fst snd] in Hle.
  destruct ok; [| reflexivity]. cbn [negb].
  destruct (NextBlock_uses 0 d1) as [Hle1 _].
  destruct (NextBlock 0 d1) as [ok d2]. cbn [fst snd] in Hle1.
  destruct ok; [| reflexivity]. cbn [negb Metrics].
  pose proof (metricsLoop_returns fuel d2 ∅ ltac:(lia)) as Hl.
  destruct (metricsLoop fuel d2 ∅) as [metrics r]. cbn [snd] in *.
  destruct r; [reflexivity | reflexivity | contradiction].
Qed.

(** With a dispenser whose successful moves use up a finite supply, and an
    iteration bound above the supply at the start, [UnmarshalCaddyfile]
    returns, and so does [parseMeter]: the outcome is [nil] or an error,
    never the bound. *)
Theorem UnmarshalCaddyfile_returns (fuel : nat) (mm : MeterModule) (d : D) :
  left d < fuel ->
  returned (snd (UnmarshalCaddyfile fuel mm d)) = true
  /\ returned (snd (parseMeter fuel d (Some mm))) = true
  /\ returned (snd (parseMeter fuel d None)) = true.
Proof.
  intros Hfuel. unfold parseMeter.
  repeat split; apply UnmarshalCaddyfile_within; exact Hfuel.
Qed.

End ParserReturns.

(* ===================================================================== *)
(** ** The token dispenser uses up its tokens                             *)
(* ===================================================================== *)

Lemma moved_weaken (d d' : TokenDispenser) (ok : bool) :
  moved d d' true -> moved d d' ok.
Proof. intros (Ht & Hc & Hs). repeat split; auto; apply Hs; reflexivity. Qed.

Lemma moved_trans (d d1 d2 : TokenDispenser) (ok1 ok2 : bool) :
  moved d d1 ok1 -> moved d1 d2 ok2 -> moved d d2 (ok1 || ok2).
Proof.
  intros (Ht1 & Hc1 & Hs1) (Ht2 & Hc2 & Hs2).
  assert (Hlast : lastIndex d1 = lastIndex d)
    by (unfold lastIndex; rewrite Ht1; reflexivity).
  split; [congruence |]. split; [lia |].
  intros Hok. apply orb_true_iff in Hok. destruct Hok as [-> | ->].
  - specialize (Hs1 eq_refl). lia.
  - specialize (Hs2 eq_refl). lia.
Qed.

Lemma moved_uses (d d' : TokenDispenser) (ok : bool) :
  moved d d' ok ->
  tokensLeft d' <= tokensLeft d /\ (ok = true -> tokensLeft d' < tokensLeft d).
Proof.
  intros (Ht & Hc & Hs). unfold tokensLeft, lastIndex in *. rewrite Ht.
  split; [lia |]. intros Hok. specialize (Hs Hok). lia.
Qed.

Lemma td_Next_moved (d : TokenDispenser) :
  moved d (snd (td_Next d)) (fst (td_Next d)).
Proof.
  unfold td_Next, moved, lastIndex.
  destruct (Z.ltb_spec (cursor d) (Z.of_nat (length (tokens d)) - 1));
    cbn; repeat split; try lia; discriminate.
Qed.

Lemma nextOnSameLine_moved (d : TokenDispenser) :
  moved d (snd (nextOnSameLine d)) (fst (nextOnSameLine d)).
Proof.
  unfold nextOnSameLine, moved, lastIndex.
  destruct (Z.ltb_spec (cursor d) 0);
    [cbn; repeat split; lia |].
  destruct (Z.leb_spec (Z.of_nat (length (tokens d)) - 1) (cursor d));
    [cbn; repeat split; try lia; discriminate |].
  destruct (tokenAt d (cursor d)) as [curr |];
    [| cbn; repeat split; try lia; discriminate].
  destruct (tokenAt d (cursor d + 1)) as [next |];
    [| cbn; repeat split; try lia; discriminate].
  destruct (negb (isNextOnNewLine curr next));
    cbn; repeat split; try lia; discriminate.
Qed.

(** Stepping the cursor back after a successful move leaves it where it
    was or later. *)
Lemma moved_back (d d' : TokenDispenser) (n : nat) :
  moved d d' true ->
  moved d (mkDispenser (tokens d') (cursor d' - 1) n) false.
Proof.
  intros (Ht & Hc & Hs). specialize (Hs eq_refl).
  repeat split; cbn; try lia; try discriminate. exact Ht.
Qed.

Lemma td_NextArg_moved (d : TokenDispenser) :
  moved d (snd (td_NextArg d)) (fst (td_NextArg d)).
Proof.
  unfold td_NextArg.
  pose proof (nextOnSameLine_moved d) as Hm.
  destruct (nextOnSameLine d) as [ok d']. cbn [fst snd] in Hm.
  destruct ok; cbn [negb]; [| exact Hm].
  destruct (String.eqb (td_Val d') "{"); cbn [fst snd];
    [apply moved_back; exact Hm | exact Hm].
Qed.

Lemma td_NextBlock_moved (n : nat) (d : TokenDispenser) :
  moved d (snd (td_NextBlock n d)) (fst (td_NextBlock n d)).
Proof.
  unfold td_NextBlock.
  destruct (n <? nesting d)%nat.
  - pose proof (td_Next_moved d) as Hm.
    destruct (td_Next d) as [ok d1]. cbn [fst snd] in Hm.
    destruct ok; cbn [negb]; [| exact Hm].
    cbn [fst snd]. apply moved_weaken.
    pose proof (nextOnSameLine_moved d1) as Hclose.
    destruct (String.eqb (td_Val d1) "}").
    + destruct (nextOnSameLine d1) as [same d2]. cbn [fst snd] in *.
      destruct same; cbn [negb andb].
      * pose proof (moved_trans _ _ _ _ _ Hm Hclose) as Hm2.
        cbn [orb] in Hm2.
        pose proof (nextOnSameLine_moved d2) as Hopen.
        destruct (String.eqb (td_Val d2) "{"); [| exact Hm2].
        destruct (nextOnSameLine d2) as [same2 d3]. cbn [fst snd] in *.
        destruct same2; cbn [negb andb].
        -- exact (moved_trans _ _ _ _ _ Hm2 Hopen).
        -- exact Hm2.
      * exact Hm.
    + cbn [andb].
      pose proof (nextOnSameLine_moved d1) as Hopen.
      destruct (String.eqb (td_Val d1) "{"); [| exact Hm].
      destruct (nextOnSameLine d1) as [same2 d3]. cbn [fst snd] in *.
      destruct same2; cbn [negb andb].
      * exact (moved_trans _ _ _ _ _ Hm Hopen).
      * exact Hm.
  - pose proof (nextOnSameLine_moved d) as Hm.
    destruct (nextOnSameLine d) as [ok d1]. cbn [fst snd] in Hm.
    destruct ok; cbn [negb]; [| exact Hm].
    destruct (String.eqb (td_Val d1) "{"); cbn [negb fst snd];
      [| apply moved_back; exact Hm].
    pose proof (td_Next_moved d1) as Hn.
    pose proof (moved_trans _ _ _ _ _ Hm Hn) as Hm2. cbn [orb] in Hm2.
    destruct (String.eqb (td_Val (snd (td_Next d1))) "}"); cbn [fst snd].
    + apply moved_weaken. exact Hm2.
    + exact Hm2.
Qed.

Lemma tokensLeft_Next (d : TokenDispenser) :
  tokensLeft (snd (Next d)) <= tokensLeft d
  /\ (fst (Next d) = true -> tokensLeft (snd (Next d)) < tokensLeft d).
Proof. exact (moved_uses _ _ _ (td_Next_moved d)). Qed.

Lemma tokensLeft_NextArg (d : TokenDispenser) :
  tokensLeft (snd (NextArg d)) <= tokensLeft d
  /\ (fst (NextArg d) = true -> tokensLeft (snd (NextArg d)) < tokensLeft d).
Proof. exact (moved_uses _ _ _ (td_NextArg_moved d)). Qed.

Lemma tokensLeft_NextBlock (n : nat) (d : TokenDispenser) :
  tokensLeft (snd (NextBlock n d)) <= tokensLeft d
  /\ (fst (NextBlock n d) = true ->
      tokensLeft (snd (NextBlock n d)) < tokensLeft d).
Proof. exact (moved_uses _ _ _ (td_NextBlock_moved n d)). Qed.

(** On any token list, [UnmarshalCaddyfile] with a bound of two more than
    the number of tokens returns: [nil], or an error. *)
Lemma UnmarshalCaddyfile_on_tokens_returns `{SC : Strconv}
    (toks : list Token) (mm : MeterModule) :
  returned (snd (UnmarshalCaddyfile (length toks + 2) mm (NewDispenser toks)))
  = true.
Proof.
  apply (UnmarshalCaddyfile_within tokensLeft tokensLeft_Next
           tokensLeft_NextArg tokensLeft_NextBlock).
  unfold tokensLeft, lastIndex, NewDispenser. cbn [tokens cursor]. lia.
Qed.

(** The README's example has 32 tokens. *)
Lemma UnmarshalCaddyfile_returns_witness :
  returned
    (snd (@UnmarshalCaddyfile decimalStrconv _ _ 34 (mkMeterModule ∅)
            (NewDispenser readmeTokens)))
  = true.
Proof.
  apply (@UnmarshalCaddyfile_returns decimalStrconv _ _ tokensLeft
           tokensLeft_Next tokensLeft_NextArg tokensLeft_NextBlock 34
           (mkMeterModule ∅) (NewDispenser readmeTokens)).
  vm_compute. lia.
Defined.

(* ===================================================================== *)
(** ** More on the recording engine                                       *)
(* ===================================================================== *)

Section RecordingMore.
Context `{SC : Strconv} `{TP : Templates} `{CO : Collectors}
        {W : Type} `{RW : ResponseWriter W}.

(** On the deferred path, [meter.response.size] is published as the decimal
    text of the byte counts the handler's writes on the sink were answered
    with, which are those the wrapped writer reported, added up, and
    [meter.response.duration] as the formatted seconds the handler took.
    For a handler that never asserts the writer to an optional interface
    these are the byte counts and the time of a run on the wrapped writer
    itself. *)
Theorem deferred_publishes_size_and_duration
    (h : UseMeter) (w : W) (st : ReqState) (next : Handler)
    (res : error) (w' : W) (st' : ReqState) :
  AfterResponse (useMetric h) = true ->
  ServeHTTP h w st next = Some (res, w', st') ->
  let sink := mkResponseWriter w 0%Z 0%Z in
  Replacer_Get (replacer st') "meter.response.size"
  = Some (Itoa (bytesReported next sink (replacer st) 0%Z))
  /\ Replacer_Get (replacer st') "meter.response.duration"
     = Some (FormatFloat (Seconds (timeTaken next sink (replacer st))))
  /\ (neverProbes next ->
      bytesReported next sink (replacer st) 0%Z
      = bytesReported next w (replacer st) 0%Z
      /\ timeTaken next sink (replacer st) = timeTaken next w (replacer st)).
Proof.
  intros Hd Hs. cbv zeta.
  destruct (ServeHTTP_returned h w st next res w' st' Hs)
    as (rs & v & st1 & r' & Hrs & _ & _ & _ & _ & Hr).
  rewrite Hd in Hr. rewrite Hr.
  destruct (runHandler next (mkResponseWriter w 0%Z 0%Z) (replacer st)
              (clock st)) as [[[[res0 wrap] r0] now0] |] eqn:Hrun.
  - destruct (deferred_run h w st next res0 wrap r0 now0 Hd Hrun)
      as (Hrs' & _ & _).
    rewrite Hrs in Hrs'. inversion Hrs'; subst rs.
    split; [| split].
    + rewrite publish_size, (sink_length_total next _ _ _ _ _ _ _ Hrun).
      reflexivity.
    + rewrite publish_duration. unfold Since.
      rewrite (runHandler_clock _ _ _ _ _ _ _ _ Hrun).
      do 3 f_equal. lia.
    + intros Hplain. split.
      * exact (bytesReported_through_sink next Hplain
                 (mkResponseWriter w 0%Z 0%Z) (replacer st) 0%Z).
      * exact (timeTaken_through_sink next Hplain
                 (mkResponseWriter w 0%Z 0%Z) (replacer st)).
  - destruct (deferred_panic h w st next Hd Hrun) as (Hrs' & _).
    rewrite Hrs in Hrs'. discriminate.
Qed.

(** When the state is not settled, the downstream call has panicked. *)
Lemma resolveState_panic (h : UseMeter) (w : W) (st : ReqState)
    (next : Handler) :
  resolveState h w st next = None -> callNext h w st next = None.
Proof.
  unfold resolveState, callNext, capture.
  destruct (negb (AfterResponse (useMetric h))); [discriminate |].
  destruct (runHandler next (mkResponseWriter w 0%Z 0%Z) (replacer st)
              (clock st)) as [[[[res wrap] r'] now'] |];
    [discriminate | reflexivity].
Qed.

(** With the collector bound, a panic of [ServeHTTP] is a panic of the
    downstream handler or of the call on the collector. *)
Lemma ServeHTTP_panic_cause (h : UseMeter) (w : W) (st : ReqState)
    (next : Handler) :
  collectorBound (useMetric h) ->
  ServeHTTP h w st next = None ->
  callNext h w st next = None
  \/ exists rs v call,
       resolveState h w st next = Some rs
       /\ resolvedValue h w st next = Some v
       /\ report h v rs = perform call rs
       /\ callReturns call = false.
Proof.
  intros Hbound. rewrite ServeHTTP_steps.
  destruct (resolveState h w st next) as [rs |] eqn:Hrs;
    [| intros _; left; exact (resolveState_panic h w st next Hrs)].
  destruct (resolvedValue_settled h w st rs next Hrs) as [v Hv]. rewrite Hv.
  destruct (report h v rs) as [st1 |] eqn:Hrep.
  - destruct (callNext h w st next) as [[[[res w'] r'] now'] |];
      [discriminate | intros _; left; reflexivity].
  - intros _. right.
    destruct (report_bound h v rs Hbound) as [Hsame | [call Hcall]];
      [rewrite Hsame in Hrep; discriminate |].
    exists rs, v, call. repeat split; try assumption.
    rewrite Hcall in Hrep. unfold perform in Hrep.
    destruct (callReturns call); [discriminate | reflexivity].
Qed.

(** What [ServeHTTP] returns is what the downstream call returned. *)
Lemma ServeHTTP_result (h : UseMeter) (w : W) (st : ReqState)
    (next : Handler) (res : error) (w' : W) (st' : ReqState) :
  ServeHTTP h w st next = Some (res, w', st') ->
  exists r',
    callNext h w st next = Some (res, w', r', clock st')
    /\ (Type_ (useMetric h) = MetricTypeCounter
        \/ Type_ (useMetric h) = MetricTypeHistogram ->
        exists call,
          backend st' = backend st ++ [call] /\ callReturns call = true)
    /\ (Type_ (useMetric h) <> MetricTypeCounter ->
        Type_ (useMetric h) <> MetricTypeHistogram ->
        backend st' = backend st).
Proof.
  intros Hs.
  destruct (ServeHTTP_returned h w st next res w' st' Hs)
    as (rs & v & st1 & r' & Hrs & _ & Hrep & Hnext & Hb & _).
  exists r'. split; [exact Hnext |].
  rewrite Hb, <- (resolveState_backend h w st rs next Hrs).
  exact (report_calls h v rs st1 Hrep).
Qed.

(** [ServeHTTP] hands back what the downstream call returned: whenever it
    returns, its result and the caller's writer are those the handler
    returned and left, at the clock reading of the handler's return, and
    it has made exactly one call on the collector, which returned (none for
    a definition of neither kind).  With the collector bound, it panics
    only where the downstream handler panics or the call on the collector
    does. *)
Theorem ServeHTTP_returns_downstream
    (h : UseMeter) (w : W) (st : ReqState) (next : Handler) :
  (forall res w' st',
     ServeHTTP h w st next = Some (res, w', st') ->
     exists r',
       callNext h w st next = Some (res, w', r', clock st')
       /\ (Type_ (useMetric h) = MetricTypeCounter
           \/ Type_ (useMetric h) = MetricTypeHistogram ->
           exists call,
             backend st' = backend st ++ [call] /\ callReturns call = true)
       /\ (Type_ (useMetric h) <> MetricTypeCounter ->
           Type_ (useMetric h) <> MetricTypeHistogram ->
           backend st' = backend st))
  /\ (collectorBound (useMetric h) ->
      ServeHTTP h w st next = None ->
      callNext h w st next = None
      \/ exists rs v call,
           resolveState h w st next = Some rs
           /\ resolvedValue h w st next = Some v
           /\ report h v rs = perform call rs
           /\ callReturns call = false).
Proof.
  split.
  - exact (ServeHTTP_result h w st next).
  - exact (ServeHTTP_panic_cause h w st next).
Qed.

Lemma one_is_kept : float_is_zero 1%float = false.
Proof. vm_compute. reflexivity. Qed.

(** On the immediate path with no value template, [ServeHTTP] is one call
    on the collector, [Add(1.0)] for a Counter and [Observe(0.0)] for a
    Histogram, with the label values expanded against the incoming request,
    and then the downstream call on the caller's writer; it panics where
    either does. *)
Theorem immediate_default_value
    (h : UseMeter) (w : W) (st : ReqState) (next : Handler) :
  AfterResponse (useMetric h) = false ->
  Value (useMetric h) = "" ->
  (forall c,
     Type_ (useMetric h) = MetricTypeCounter ->
     requestCounter (useMetric h) = Some c ->
     let add := CounterAdd c (labelValues h st) 1%float in
     ServeHTTP h w st next
     = match perform add st with
       | None => None
       | Some _ =>
           match runHandler next w (replacer st) (clock st) with
           | None => None
           | Some (res, w', r', now') =>
               Some (res, w', mkReqState r' now' (backend st ++ [add]))
           end
       end)
  /\ (forall hv,
        Type_ (useMetric h) = MetricTypeHistogram ->
        responseTime (useMetric h) = Some hv ->
        let observe := HistogramObserve hv (labelValues h st) 0%float in
        ServeHTTP h w st next
        = match perform observe st with
          | None => None
          | Some _ =>
              match runHandler next w (replacer st) (clock st) with
              | None => None
              | Some (res, w', r', now') =>
                  Some (res, w', mkReqState r' now' (backend st ++ [observe]))
              end
          end).
Proof.
  intros Hd Hv.
  assert (Hsteps : forall call value,
    immediateValue h st = value ->
    report h value st = perform call st ->
    ServeHTTP h w st next
    = match perform call st with
      | None => None
      | Some _ =>
          match runHandler next w (replacer st) (clock st) with
          | None => None
          | Some (res, w', r', now') =>
              Some (res, w', mkReqState r' now' (backend st ++ [call]))
          end
      end).
  { intros call value Hval Hrep. rewrite ServeHTTP_steps.
    unfold resolveState, resolvedValue, callNext. rewrite Hd. cbn [negb].
    rewrite Hval, Hrep.
    destruct (perform call st) as [st1 |] eqn:Hp; [| reflexivity].
    destruct (perform_returns _ _ _ Hp) as [_ ->].
    destruct (runHandler next w (replacer st) (clock st))
      as [[[[res w'] r'] now'] |]; reflexivity. }
  split.
  - intros c Hty Hc. cbv zeta. apply (Hsteps _ 1%float).
    + unfold immediateValue. rewrite Hv, Hty. reflexivity.
    + rewrite (report_counter h _ st c Hty Hc), one_is_kept. reflexivity.
  - intros hv Hty Hh. cbv zeta. apply (Hsteps _ 0%float).
    + unfold immediateValue. rewrite Hv, Hty. reflexivity.
    + exact (report_histogram h _ st hv Hty Hh).
Qed.

Lemma substituted_is_not_zero (value : float64) :
  float_is_zero (if float_is_zero value then 1%float else value) = false.
Proof.
  destruct (float_is_zero value) eqn:Hz; [exact one_is_kept | exact Hz].
Qed.

(** A Counter is never added a zero: on either path, with or without a
    value template, the one call a Counter directive has made when
    [ServeHTTP] returns is an [Add] of the value handed to [report] when
    that value is not zero, and of [1.0] when it is. *)
Theorem counter_never_added_zero
    (h : UseMeter) (w : W) (st : ReqState) (next : Handler)
    (res : error) (w' : W) (st' : ReqState) :
  Type_ (useMetric h) = MetricTypeCounter ->
  ServeHTTP h w st next = Some (res, w', st') ->
  exists c rs value v,
    requestCounter (useMetric h) = Some c
    /\ resolveState h w st next = Some rs
    /\ resolvedValue h w st next = Some value
    /\ backend st' = backend st ++ [CounterAdd c (labelValues h rs) v]
    /\ float_is_zero v = false
    /\ (float_is_zero value = false -> v = value)
    /\ (float_is_zero value = true -> v = 1%float).
Proof.
  intros Hty Hs.
  destruct (ServeHTTP_returned h w st next res w' st' Hs)
    as (rs & value & st1 & r' & Hrs & Hv & Hrep & _ & Hb & _).
  unfold report in Hrep. rewrite Hty in Hrep.
  cbn [String.eqb Ascii.eqb Bool.eqb MetricTypeCounter] in Hrep.
  destruct (requestCounter (useMetric h)) as [c |]; [| discriminate].
  destruct (perform_returns _ _ _ Hrep) as [_ ->].
  exists c, rs, value, (if float_is_zero value then 1%float else value).
  split; [reflexivity |]. split; [exact Hrs |]. split; [exact Hv |].
  split; [| split; [| split]].
  - rewrite Hb. cbn [record_call backend].
    rewrite (resolveState_backend h w st rs next Hrs). reflexivity.
  - apply substituted_is_not_zero.
  - intros ->. reflexivity.
  - intros ->. reflexivity.
Qed.

(** The replacer the downstream call leaves is the incoming one when the
    handler never sets or deletes a variable. *)
Lemma callNext_leavesReplacer (h : UseMeter) (w w' : W) (st : ReqState)
    (next : Handler) (res : error) (r' : Replacer) (now' : Time) :
  leavesReplacer next ->
  callNext h w st next = Some (res, w', r', now') ->
  r' = replacer st.
Proof.
  intros Hleaves. unfold callNext.
  destruct (negb (AfterResponse (useMetric h))).
  - intros Hrun. exact (runHandler_leavesReplacer next Hleaves _ _ _ _ _ _ _ Hrun).
  - destruct (runHandler next (mkResponseWriter w 0%Z 0%Z) (replacer st)
                (clock st)) as [[[[res0 wrap] r0] now0] |] eqn:Hrun;
      [| discriminate].
    intros Hn. inversion Hn; subst.
    exact (runHandler_leavesReplacer next Hleaves _ _ _ _ _ _ _ Hrun).
Qed.

(** [ServeHTTP] sets no variable of the replacer but the three
    [meter.response] ones, and on the immediate path it sets none: when it
    returns, the replacer is the one the downstream call left, but for
    these three on the deferred path.  The downstream call leaves the
    replacer of the incoming request when the handler never sets or deletes
    a variable. *)
Theorem ServeHTTP_sets_only_response_variables
    (h : UseMeter) (w : W) (st : ReqState) (next : Handler)
    (res : error) (w' : W) (st' : ReqState) :
  ServeHTTP h w st next = Some (res, w', st') ->
  exists r',
    callNext h w st next = Some (res, w', r', clock st')
    /\ (AfterResponse (useMetric h) = false -> replacer st' = r')
    /\ (forall variable,
          variable ∉ responseVariables ->
          Replacer_Get (replacer st') variable = Replacer_Get r' variable)
    /\ (leavesReplacer next -> r' = replacer st).
Proof.
  intros Hs.
  destruct (ServeHTTP_returned h w st next res w' st' Hs)
    as (rs & v & st1 & r' & Hrs & _ & _ & Hnext & _ & Hr).
  exists r'. split; [exact Hnext |].
  split; [intros Hd; rewrite Hr, Hd; reflexivity |].
  split; [| intros Hleaves;
            exact (callNext_leavesReplacer h w w' st next res r' _
                     Hleaves Hnext)].
  intros variable Hnot. rewrite Hr.
  destruct (AfterResponse (useMetric h)) eqn:Hd; [| reflexivity].
  destruct (runHandler next (mkResponseWriter w 0%Z 0%Z) (replacer st)
              (clock st)) as [[[[res0 wrap] r0] now0] |] eqn:Hrun.
  - destruct (deferred_run h w st next res0 wrap r0 now0 Hd Hrun)
      as (Hrs' & _ & Hnext').
    rewrite Hrs in Hrs'. inversion Hrs'; subst rs.
    rewrite Hnext in Hnext'. inversion Hnext'; subst.
    rewrite (publish_other _ _ _ variable Hnot). reflexivity.
  - destruct (deferred_panic h w st next Hd Hrun) as (Hrs' & _).
    rewrite Hrs in Hrs'. discriminate.
Qed.

End RecordingMore.

(* ===================================================================== *)
(** ** More on the parser                                                 *)
(* ===================================================================== *)

Section ParserMore.
Context `{SC : Strconv} {D : Type} `{DI : Dispenser D}.

Lemma labelsLoop_matchers (fuel : nat) :
  forall (d d' : D) (labels labels' : list Label),
    labelsLoop fuel d labels = Ok (labels', d') ->
    Forall (fun l => Label_Matcher l = "") labels ->
    Forall (fun l => Label_Matcher l = "") labels'.
Proof.
  induction fuel as [| fuel IH]; intros d d' labels labels' Hl Hall;
    [discriminate |].
  cbn [labelsLoop] in Hl.
  destruct (NextBlock 2 d) as [more d1].
  destruct more; cbn [negb] in Hl; [| inversion Hl; subst; exact Hall].
  destruct (String.eqb (Val d1) "}"); [inversion Hl; subst; exact Hall |].
  destruct (NextArg d1) as [ok d2].
  destruct ok; cbn [negb] in Hl; [| discriminate].
  apply (IH _ _ _ _ Hl). apply Forall_app. split; [exact Hall |].
  constructor; [reflexivity | constructor].
Qed.

(** An option gives buckets only to a histogram, and labels only without
    matcher. *)
Lemma parseOption_wellFormed (fuel : nat) (metricType : MetricType)
    (d d' : D) (m m' : Metric) :
  parseOption fuel metricType d m = Ok (m', d') ->
  (metricType <> MetricTypeHistogram -> Buckets m' = Buckets m)
  /\ (Forall (fun l => Label_Matcher l = "") (Labels m) ->
      Forall (fun l => Label_Matcher l = "") (Labels m')).
Proof.
  unfold parseOption, parseLabelsBlock. intros Hp.
  destruct (String.eqb (Val d) "description").
  { break_parse Hp; inversion Hp; subst; auto. }
  destruct (String.eqb (Val d) "name").
  { break_parse Hp; inversion Hp; subst; auto. }
  destruct (String.eqb (Val d) "after_response").
  { inversion Hp; subst; auto. }
  destruct (String.eqb (Val d) "value").
  { break_parse Hp; inversion Hp; subst; auto. }
  destruct (String.eqb (Val d) "labels").
  { destruct (labelsLoop fuel d []) as [[ls d1] | |] eqn:Hl;
      cbn [Res_bind] in Hp; try discriminate.
    inversion Hp; subst. split; [reflexivity |]. intros _. cbn.
    apply (labelsLoop_matchers _ _ _ _ _ Hl). constructor. }
  destruct (String.eqb (Val d) "buckets"); [| discriminate].
  destruct (String.eqb_spec metricType "histogram") as [E | N].
  - cbn [negb] in Hp. break_parse Hp. inversion Hp; subst.
    split; [intros Hn; contradiction | auto].
  - discriminate.
Qed.

Lemma optionsLoop_wellFormed (fuel : nat) (metricType : MetricType) :
  forall (d d' : D) (m m' : Metric),
    optionsLoop fuel metricType d m = Ok (m', d') ->
    (metricType <> MetricTypeHistogram -> Buckets m' = Buckets m)
    /\ (Forall (fun l => Label_Matcher l = "") (Labels m) ->
        Forall (fun l => Label_Matcher l = "") (Labels m')).
Proof.
  induction fuel as [| fuel IH]; intros d d' m m' Hl; [discriminate |].
  cbn [optionsLoop] in Hl.
  destruct (String.eqb (Val d) ""); [inversion Hl; subst; auto |].
  destruct (parseOption (S fuel) metricType d m) as [[m1 d1] | |] eqn:Hopt;
    cbn [Res_bind] in Hl; try discriminate.
  destruct (parseOption_wellFormed _ _ _ _ _ _ Hopt) as [B1 L1].
  destruct (NextBlock 1 d1) as [more d2]. destruct more.
  - destruct (IH _ _ _ _ Hl) as [B2 L2]. split.
    + intros Hn. rewrite (B2 Hn). exact (B1 Hn).
    + auto.
  - inversion Hl; subst. auto.
Qed.

(** What [parseMetric] goes through before its last step: the name is the
    token after the kind, it is not empty, and the options were parsed from
    the new definition of that name. *)
Lemma parseMetric_steps (fuel : nat) (metricType : MetricType) (d : D)
    (metrics : gmap string Metric) :
  isOk (parseMetric fuel metricType d metrics) = true ->
  exists d2 m1 d3,
    Val (snd (NextArg d)) <> ""
    /\ optionsLoop fuel metricType d2
         (set_Name (Val (snd (NextArg d)))
            (if String.eqb metricType MetricTypeHistogram
             then set_AfterResponse true (newMetric metricType)
             else newMetric metricType)) = Ok (m1, d3)
    /\ parseMetric fuel metricType d metrics
       = match metrics !! Name m1 with
         | Some _ => Err ("metric " ++ Name m1 ++ " already defined")
         | None =>
             Ok (<[Name (if String.eqb (ExportName m1) ""
                         then set_ExportName (Name m1) m1 else m1)
                   := if String.eqb (ExportName m1) ""
                      then set_ExportName (Name m1) m1 else m1]> metrics, d3)
         end.
Proof.
  unfold parseMetric. intros Hok.
  destruct (NextArg d) as [ok d1]. cbn [snd].
  destruct ok; cbn [negb] in *; [| discriminate].
  match type of Hok with
  | context [if String.eqb ?a "" then _ else _] =>
      destruct (String.eqb_spec a "") as [| Hname]
  end; [discriminate |].
  destruct (NextBlock 1 d1) as [ok d2].
  destruct ok; cbn [negb] in *; [| discriminate].
  match type of Hok with
  | context [optionsLoop ?f ?t ?dd ?mm] =>
      destruct (optionsLoop f t dd mm) as [[m1 d3] | |] eqn:Hopt
  end; cbn [Res_bind] in *; try discriminate.
  exists d2, m1, d3. split; [| split; [exact Hopt | reflexivity]].
  destruct (String.eqb metricType MetricTypeHistogram); exact Hname.
Qed.

(** A block whose name is already in the map is refused: [parseMetric]
    returns no value, and the map is left to the caller as it was. *)
Theorem parseMetric_never_redefines
    (fuel : nat) (metricType : MetricType) (d : D)
    (metrics : gmap string Metric) :
  is_Some (metrics !! Val (snd (NextArg d))) ->
  isOk (parseMetric fuel metricType d metrics) = false.
Proof.
  intros [m0 Hm0].
  destruct (isOk (parseMetric fuel metricType d metrics)) eqn:Hok;
    [| reflexivity].
  destruct (parseMetric_steps _ _ _ _ Hok) as (d2 & m1 & d3 & _ & Hopt & Heq).
  destruct (optionsLoop_keeps _ _ _ _ _ _ Hopt) as (_ & Hname & _).
  assert (Hn : Name m1 = Val (snd (NextArg d))).
  { rewrite Hname. destruct (String.eqb metricType MetricTypeHistogram);
      reflexivity. }
  rewrite Heq, Hn, Hm0 in Hok. discriminate.
Qed.

Lemma parseMetric_wellFormed (fuel : nat) (metricType : MetricType) (d d' : D)
    (metrics metrics' : gmap string Metric) :
  parseMetric fuel metricType d metrics = Ok (metrics', d') ->
  exists m, metrics' = <[Name m := m]> metrics /\ wellFormed m.
Proof.
  intros Hp.
  assert (Hok : isOk (parseMetric fuel metricType d metrics) = true)
    by (rewrite Hp; reflexivity).
  destruct (parseMetric_steps _ _ _ _ Hok)
    as (d2 & m1 & d3 & Hne & Hopt & Heq).
  rewrite Hp in Heq.
  destruct (optionsLoop_keeps _ _ _ _ _ _ Hopt) as (Hty & Hname & _).
  destruct (optionsLoop_wellFormed _ _ _ _ _ _ Hopt) as [Hb Hl].
  assert (Hn : Name m1 = Val (snd (NextArg d)))
    by (rewrite Hname;
        destruct (String.eqb metricType MetricTypeHistogram); reflexivity).
  assert (Ht : Type_ m1 = metricType)
    by (rewrite Hty;
        destruct (String.eqb metricType MetricTypeHistogram); reflexivity).
  assert (Hbu : metricType <> MetricTypeHistogram -> Buckets m1 = [])
    by (intros Hn'; rewrite (Hb Hn');
        destruct (String.eqb metricType MetricTypeHistogram); reflexivity).
  assert (Hla : Forall (fun l => Label_Matcher l = "") (Labels m1))
    by (apply Hl;
        destruct (String.eqb metricType MetricTypeHistogram); constructor).
  destruct (metrics !! Name m1); [discriminate |].
  inversion Heq; subst metrics' d'.
  destruct (String.eqb_spec (ExportName m1) "") as [He | He].
  - eexists. split; [reflexivity |]. unfold wellFormed. cbn.
    rewrite Hn. repeat split; auto. rewrite Ht. exact Hbu.
  - exists m1. split; [reflexivity |]. unfold wellFormed.
    rewrite Hn. repeat split; auto. rewrite Ht. exact Hbu.
Qed.

(** Every definition [UnmarshalCaddyfile] leaves in the module has a name
    and an export name that are not empty, buckets only if it is a
    histogram, and labels without matcher. *)
Theorem UnmarshalCaddyfile_well_formed
    (fuel : nat) (mm mm' : MeterModule) (d : D) (r : Res D)
    (name : string) (m : Metric) :
  UnmarshalCaddyfile fuel mm d = (mm', r) ->
  Metrics mm' !! name = Some m ->
  wellFormed m.
Proof.
  intros Hu Hlook.
  destruct (UnmarshalCaddyfile_from_empty _ _ _ _ _ Hu)
    as [Hempty | (d0 & r0 & Hl)].
  - rewrite Hempty, lookup_empty in Hlook. discriminate.
  - assert (Hall : forall n x, Metrics mm' !! n = Some x -> wellFormed x).
    { refine (metricsLoop_preserves
                (fun ms => forall n x, ms !! n = Some x -> wellFormed x)
                _ fuel d0 ∅ (Metrics mm') r0 _ Hl).
      - intros fuel' metricType e e' metrics metrics' _ HP Hpm.
        destruct (parseMetric_wellFormed _ _ _ _ _ _ Hpm) as (m1 & -> & Hwf).
        intros n x Hx.
        destruct (decide (Name m1 = n)) as [<- | Hne].
        + rewrite lookup_insert_eq in Hx. inversion Hx; subst. exact Hwf.
        + rewrite lookup_insert_ne in Hx by exact Hne. eauto.
      - intros n x Hx. rewrite lookup_empty in Hx. discriminate. }
    exact (Hall name m Hlook).
Qed.

(** The labels loop reads the lines of the block in order and appends one
    label per line to what it was given. *)
Lemma labelsLoop_labelRun (d d' : D) (lines : list (string * string)) :
  labelRun d lines d' ->
  forall (acc : list Label) (fuel : nat),
    length lines < fuel ->
    labelsLoop fuel d acc = Ok (acc ++ map lineLabel lines, d').
Proof.
  intros Hrun.
  induction Hrun as [d d' Hend | d d1 Hnb Hbrace
                    | d d1 d2 d' lines Hnb Hnot Harg Hrun IH];
    intros acc fuel Hfuel.
  - destruct fuel as [| fuel]; [lia |]. cbn [labelsLoop].
    rewrite Hend. cbn. rewrite app_nil_r. reflexivity.
  - destruct fuel as [| fuel]; [lia |]. cbn [labelsLoop].
    rewrite Hnb, Hbrace. cbn. rewrite app_nil_r. reflexivity.
  - destruct fuel as [| fuel]; [lia |]. cbn [labelsLoop].
    rewrite Hnb. cbn [negb].
    destruct (String.eqb_spec (Val d1) "}") as [E | _]; [contradiction |].
    rewrite Harg. cbn [negb].
    rewrite (IH (acc ++ [mkLabel (Val d1) "" (Val d2)]) fuel)
      by (cbn in Hfuel; lia).
    rewrite <- app_assoc. reflexivity.
Qed.

(** On the option key [labels], [parseOption] returns, and the definition
    it returns has one label per line of the block, in source order, named
    by the first token of the line and with the second as value template;
    the labels the definition had before are replaced, not extended. *)
Theorem labels_option_keeps_order
    (fuel : nat) (metricType : MetricType) (d d' : D) (m : Metric)
    (lines : list (string * string)) :
  Val d = "labels" ->
  labelRun d lines d' ->
  length lines < fuel ->
  parseOption fuel metricType d m = Ok (set_Labels (map lineLabel lines) m, d')
  /\ map Label_Name (Labels (set_Labels (map lineLabel lines) m))
     = map fst lines
  /\ map Label_Value (Labels (set_Labels (map lineLabel lines) m))
     = map snd lines.
Proof.
  intros Hkey Hrun Hfuel. split; [| split].
  - unfold parseOption, parseLabelsBlock. rewrite Hkey.
    cbn [String.eqb Ascii.eqb Bool.eqb].
    rewrite (labelsLoop_labelRun d d' lines Hrun [] fuel Hfuel).
    reflexivity.
  - cbn. rewrite map_map. reflexivity.
  - cbn. rewrite map_map. reflexivity.
Qed.

End ParserMore.

(* ===================================================================== *)
(** ** Deferred only on request                                           *)
(* ===================================================================== *)

(** A property [P] of dispensers that the three moves keep, and under which
    the current token is never [after_response]: the tokens left to read
    hold no [after_response]. *)
Section WithoutAfterResponse.
Context `{SC : Strconv} {D : Type} `{DI : Dispenser D}.
Variable P : D -> Prop.
Hypothesis P_Val : forall d, P d -> Val d <> "after_response".
Hypothesis P_Next : forall d, P d -> P (snd (Next d)).
Hypothesis P_NextArg : forall d, P d -> P (snd (NextArg d)).
Hypothesis P_NextBlock : forall n d, P d -> P (snd (NextBlock n d)).

Lemma bucketsLoop_scope (fuel : nat) :
  forall (d d' : D) (acc bs : list float64),
    P d -> bucketsLoop fuel d acc = Ok (bs, d') -> P d'.
Proof.
  induction fuel as [| fuel IH]; intros d d' acc bs HP Hl; [discriminate |].
  cbn [bucketsLoop] in Hl.
  destruct (String.eqb (Val d) ""); [inversion Hl; subst; exact HP |].
  destruct (parseFloat (Val d)) as [f |]; [| discriminate].
  pose proof (P_NextArg d HP) as HP1.
  destruct (NextArg d) as [more d1]. cbn [snd] in HP1.
  destruct more; [exact (IH _ _ _ _ HP1 Hl) | inversion Hl; subst; exact HP1].
Qed.

Lemma labelsLoop_scope (fuel : nat) :
  forall (d d' : D) (acc ls : list Label),
    P d -> labelsLoop fuel d acc = Ok (ls, d') -> P d'.
Proof.
  induction fuel as [| fuel IH]; intros d d' acc ls HP Hl; [discriminate |].
  cbn [labelsLoop] in Hl.
  pose proof (P_NextBlock 2 d HP) as HP1.
  destruct (NextBlock 2 d) as [more d1]. cbn [snd] in HP1.
  destruct more; cbn [negb] in Hl; [| inversion Hl; subst; exact HP1].
  destruct (String.eqb (Val d1) "}"); [inversion Hl; subst; exact HP1 |].
  pose proof (P_NextArg d1 HP1) as HP2.
  destruct (NextArg d1) as [ok d2]. cbn [snd] in HP2.
  destruct ok; cbn [negb] in Hl; [| discriminate].
  exact (IH _ _ _ _ HP2 Hl).
Qed.

Lemma parseOption_scope (fuel : nat) (metricType : MetricType) (d d' : D)
    (m m' : Metric) :
  P d ->
  parseOption fuel metricType d m = Ok (m', d') ->
  P d' /\ AfterResponse m' = AfterResponse m.
Proof.
  intros HP Hp. unfold parseOption, parseLabelsBlock in Hp.
  pose proof (P_NextArg d HP) as HP1. pose proof (P_Val d HP) as Hkey.
  destruct (String.eqb (Val d) "description").
  { destruct (NextArg d) as [ok d1]. destruct ok; [| discriminate].
    inversion Hp; subst. auto. }
  destruct (String.eqb (Val d) "name").
  { destruct (NextArg d) as [ok d1]. destruct ok; [| discriminate].
    inversion Hp; subst. auto. }
  destruct (String.eqb_spec (Val d) "after_response"); [contradiction |].
  destruct (String.eqb (Val d) "value").
  { destruct (NextArg d) as [ok d1]. destruct ok; [| discriminate].
    inversion Hp; subst. auto. }
  destruct (String.eqb (Val d) "labels").
  { destruct (labelsLoop fuel d []) as [[ls d1] | |] eqn:Hl;
      cbn [Res_bind] in Hp; try discriminate.
    inversion Hp; subst. split; [| reflexivity].
    exact (labelsLoop_scope _ _ _ _ _ HP Hl). }
  destruct (String.eqb (Val d) "buckets"); [| discriminate].
  destruct (negb (String.eqb metricType "histogram")); [discriminate |].
  destruct (NextArg d) as [ok d1]. cbn [snd] in HP1.
  destruct ok; cbn [negb] in Hp; [| discriminate].
  destruct (bucketsLoop fuel d1 []) as [[bs d2] | |] eqn:Hl;
    cbn [Res_bind] in Hp; try discriminate.
  inversion Hp; subst. split; [| reflexivity].
  exact (bucketsLoop_scope _ _ _ _ _ HP1 Hl).
Qed.

Lemma optionsLoop_scope (fuel : nat) (metricType : MetricType) :
  forall (d d' : D) (m m' : Metric),
    P d ->
    optionsLoop fuel metricType d m = Ok (m', d') ->
    P d' /\ AfterResponse m' = AfterResponse m.
Proof.
  induction fuel as [| fuel IH]; intros d d' m m' HP Hl; [discriminate |].
  cbn [optionsLoop] in Hl.
  destruct (String.eqb (Val d) ""); [inversion Hl; subst; auto |].
  destruct (parseOption (S fuel) metricType d m) as [[m1 d1] | |] eqn:Hopt;
    cbn [Res_bind] in Hl; try discriminate.
  destruct (parseOption_scope _ _ _ _ _ _ HP Hopt) as [HP1 HA1].
  pose proof (P_NextBlock 1 d1 HP1) as HP2.
  destruct (NextBlock 1 d1) as [more d2]. cbn [snd] in HP2.
  destruct more.
  - destruct (IH _ _ _ _ HP2 Hl) as [HP3 HA3]. split; [exact HP3 | congruence].
  - inversion Hl; subst. auto.
Qed.

Lemma parseMetric_scope (fuel : nat) (metricType : MetricType) (d d' : D)
    (metrics metrics' : gmap string Metric) :
  P d ->
  parseMetric fuel metricType d metrics = Ok (metrics', d') ->
  P d'
  /\ exists m, metrics' = <[Name m := m]> metrics
               /\ Type_ m = metricType
               /\ (metricType <> MetricTypeHistogram ->
                   AfterResponse m = false).
Proof.
  intros HP Hp. unfold parseMetric in Hp.
  pose proof (P_NextArg d HP) as HP1.
  destruct (NextArg d) as [ok d1]. cbn [snd] in HP1.
  destruct ok; cbn [negb] in Hp; [| discriminate].
  match type of Hp with
  | context [if String.eqb ?a "" then _ else _] => destruct (String.eqb a "")
  end; [discriminate |].
  pose proof (P_NextBlock 1 d1 HP1) as HP2.
  destruct (NextBlock 1 d1) as [ok d2]. cbn [snd] in HP2.
  destruct ok; cbn [negb] in Hp; [| discriminate].
  match type of Hp with
  | context [optionsLoop ?f ?t ?dd ?mm] =>
      destruct (optionsLoop f t dd mm) as [[m1 d3] | |] eqn:Hopt
  end; cbn [Res_bind] in Hp; try discriminate.
  destruct (optionsLoop_scope _ _ _ _ _ _ HP2 Hopt) as [HP3 HA].
  destruct (optionsLoop_keeps _ _ _ _ _ _ Hopt) as (HT & _).
  destruct (metrics !! Name m1); [discriminate |].
  inversion Hp; subst metrics' d'. split; [exact HP3 |].
  assert (Hty : Type_ m1 = metricType)
    by (rewrite HT;
        destruct (String.eqb metricType MetricTypeHistogram); reflexivity).
  assert (Himm : metricType <> MetricTypeHistogram -> AfterResponse m1 = false).
  { intros Hn. rewrite HA.
    destruct (String.eqb_spec metricType MetricTypeHistogram);
      [contradiction | reflexivity]. }
  destruct (String.eqb (ExportName m1) "").
  - eexists. split; [reflexivity |]. split; [exact Hty | exact Himm].
  - exists m1. split; [reflexivity |]. split; [exact Hty | exact Himm].
Qed.

Lemma metricsLoop_scope (fuel : nat) :
  forall (d : D) (metrics metrics' : gmap string Metric) (r : Res D),
    P d ->
    (forall n x, metrics !! n = Some x ->
                 Type_ x = MetricTypeCounter -> AfterResponse x = false) ->
    metricsLoop fuel d metrics = (metrics', r) ->
    forall n x, metrics' !! n = Some x ->
                Type_ x = MetricTypeCounter -> AfterResponse x = false.
Proof.
  induction fuel as [| fuel IH]; intros d metrics metrics' r HP HQ Hl.
  - inversion Hl; subst. exact HQ.
  - cbn [metricsLoop] in Hl.
    destruct (String.eqb (Val d) ""); [inversion Hl; subst; exact HQ |].
    destruct (String.eqb (Val d) "}"); [inversion Hl; subst; exact HQ |].
    destruct (String.eqb (Val d) MetricTypeCounter
              || String.eqb (Val d) MetricTypeHistogram);
      [| inversion Hl; subst; exact HQ].
    destruct (parseMetric (S fuel) (Val d) d metrics) as [[ms1 d1] | |] eqn:Hpm;
      try (inversion Hl; subst; exact HQ).
    destruct (parseMetric_scope _ _ _ _ _ _ HP Hpm)
      as (HP1 & m1 & -> & Hty & Himm).
    assert (HQ1 : forall n x, <[Name m1 := m1]> metrics !! n = Some x ->
                    Type_ x = MetricTypeCounter -> AfterResponse x = false).
    { intros n x Hx Hc.
      destruct (decide (Name m1 = n)) as [<- | Hne].
      - rewrite lookup_insert_eq in Hx. inversion Hx; subst x.
        apply Himm. rewrite <- Hty, Hc. discriminate.
      - rewrite lookup_insert_ne in Hx by exact Hne. eauto. }
    pose proof (P_Next d1 HP1) as HP2.
    destruct (Next d1) as [more d2]. cbn [snd] in HP2. destruct more.
    + exact (IH _ _ _ _ HP2 HQ1 Hl).
    + inversion Hl; subst. exact HQ1.
Qed.

(** When no token left to read is [after_response], every counter
    [UnmarshalCaddyfile] leaves in the module is immediate:
    [AfterResponse] is set for a counter by that option only. *)
Theorem counter_immediate_without_after_response
    (fuel : nat) (mm mm' : MeterModule) (d : D) (r : Res D)
    (name : string) (m : Metric) :
  P d ->
  UnmarshalCaddyfile fuel mm d = (mm', r) ->
  Metrics mm' !! name = Some m ->
  Type_ m = MetricTypeCounter ->
  AfterResponse m = false.
Proof.
  intros HP Hu Hlook Hc. unfold UnmarshalCaddyfile in Hu.
  pose proof (P_Next d HP) as HP1.
  destruct (Next d) as [ok d1]. cbn [snd] in HP1.
  destruct ok; cbn [negb] in Hu;
    [| inversion Hu; subst; cbn in Hlook;
       rewrite lookup_empty in Hlook; discriminate].
  pose proof (P_NextBlock 0 d1 HP1) as HP2.
  destruct (NextBlock 0 d1) as [ok d2]. cbn [snd] in HP2.
  destruct ok; cbn [negb Metrics] in Hu;
    [| inversion Hu; subst; cbn in Hlook;
       rewrite lookup_empty in Hlook; discriminate].
  destruct (metricsLoop fuel d2 ∅) as [metrics r1] eqn:Hl.
  inversion Hu; subst mm' r. cbn [Metrics] in Hlook.
  refine (metricsLoop_scope fuel d2 ∅ metrics r1 HP2 _ Hl name m Hlook Hc).
  intros n x Hx. rewrite lookup_empty in Hx. discriminate.
Qed.

End WithoutAfterResponse.

(* ===================================================================== *)
(** ** More on provisioning                                               *)
(* ===================================================================== *)

Lemma sameDefinition_refl (m : Metric) : sameDefinition m m.
Proof. repeat split. Qed.

Lemma sameDefinition_trans (m1 m2 m3 : Metric) :
  sameDefinition m1 m2 -> sameDefinition m2 m3 -> sameDefinition m1 m3.
Proof.
  unfold sameDefinition. intros H1 H2.
  destruct H1 as (? & ? & ? & ? & ? & ? & ? & ?).
  destruct H2 as (? & ? & ? & ? & ? & ? & ? & ?).
  repeat split; congruence.
Qed.

Lemma zip_of_maps {A B C : Type} (f : A -> B) (g : A -> C) (l : list A) :
  zip (map f l) (map g l) = map (fun x => (f x, g x)) l.
Proof. induction l as [| x l IH]; cbn; [reflexivity | rewrite IH; reflexivity]. Qed.

Section ProvisioningMore.
Context {R : Type} `{RG : Registerer R}.

(** Whatever its outcome, [provisionMetric] changes nothing of the
    definition but its collectors. *)
Lemma provisionMetric_frame (m : Metric) (registry : R) (addr : nat) :
  sameDefinition m (fst (fst (provisionMetric m registry addr))).
Proof.
  unfold provisionMetric.
  destruct (String.eqb (Type_ m) MetricTypeCounter).
  - destruct (Register _ registry) as [[[[] | ] | ] registry'];
      cbn; repeat split.
  - destruct (String.eqb (Type_ m) "histogram"); [| cbn; repeat split].
    destruct (Register _ registry) as [[[[] | ] | ] registry'];
      cbn; repeat split.
Qed.

(** When the loop goes on after a definition, the collector of its kind is
    bound. *)
Lemma provisionMetric_continue (m m' : Metric) (registry registry' : R)
    (addr : nat) :
  provisionMetric m registry addr = (m', registry', Continue) ->
  collectorBound m'
  /\ (Type_ m = MetricTypeCounter \/ Type_ m = MetricTypeHistogram).
Proof.
  unfold provisionMetric, collectorBound. intros Hp.
  destruct (String.eqb_spec (Type_ m) MetricTypeCounter) as [Ec | Nc].
  - destruct (Register _ registry) as [[[[] | ] | ] registry1];
      inversion Hp; subst; cbn; (split; [| left; exact Ec]);
      (split; [intros _; eexists; reflexivity
              | intros Hh; rewrite Ec in Hh; discriminate]).
  - destruct (String.eqb_spec (Type_ m) "histogram") as [Eh | Nh];
      [| discriminate].
    destruct (Register _ registry) as [[[[] | ] | ] registry1];
      inversion Hp; subst; cbn; (split; [| right; exact Eh]);
      (split; [intros Hc; contradiction | intros _; eexists; reflexivity]).
Qed.

Lemma provisionLoop_frame (order : list string) :
  forall (metrics metrics' : gmap string Metric) (registry registry' : R)
         (addr : nat) (flow : Flow),
    provisionLoop order metrics registry addr = (metrics', registry', flow) ->
    sameDefinitions metrics metrics'.
Proof.
  induction order as [| name0 rest IH];
    intros metrics metrics' registry registry' addr flow Hl.
  - inversion Hl; subst. intros name.
    destruct (metrics' !! name); [apply sameDefinition_refl | exact I].
  - cbn [provisionLoop] in Hl.
    destruct (metrics !! name0) as [m0 |] eqn:Hm0; [| exact (IH _ _ _ _ _ _ Hl)].
    pose proof (provisionMetric_frame m0 registry addr) as Hframe.
    destruct (provisionMetric m0 registry addr) as [[m1 registry1] flow1].
    cbn [fst] in Hframe.
    assert (Hstep : sameDefinitions metrics (<[name0 := m1]> metrics)).
    { intros name. destruct (decide (name0 = name)) as [<- | Hne].
      - rewrite lookup_insert_eq, Hm0. exact Hframe.
      - rewrite lookup_insert_ne by exact Hne.
        destruct (metrics !! name); [apply sameDefinition_refl | exact I]. }
    assert (Hrest : sameDefinitions (<[name0 := m1]> metrics) metrics').
    { destruct flow1; [exact (IH _ _ _ _ _ _ Hl) | |];
        inversion Hl; subst; intros name;
        (destruct (<[name0 := m1]> metrics !! name);
         [apply sameDefinition_refl | exact I]). }
    intros name. specialize (Hstep name). specialize (Hrest name).
    destruct (metrics !! name), (<[name0 := m1]> metrics !! name),
      (metrics' !! name); try contradiction; auto.
    eapply sameDefinition_trans; eassumption.
Qed.

Lemma provisionLoop_binds (order : list string) :
  forall (metrics metrics' : gmap string Metric) (registry registry' : R)
         (addr : nat),
    provisionLoop order metrics registry addr
    = (metrics', registry', Continue) ->
    forall name m',
      metrics' !! name = Some m' ->
      name ∈ order
      \/ (exists m, metrics !! name = Some m /\ collectorBound m) ->
      collectorBound m'.
Proof.
  induction order as [| name0 rest IH];
    intros metrics metrics' registry registry' addr Hl name m' Hlook Hwhy.
  - inversion Hl; subst. destruct Hwhy as [Hin | (m & Hm & Hb)].
    + inversion Hin.
    + rewrite Hlook in Hm. inversion Hm; subst. exact Hb.
  - cbn [provisionLoop] in Hl.
    destruct (metrics !! name0) as [m0 |] eqn:Hm0.
    + destruct (provisionMetric m0 registry addr) as [[m1 registry1] flow1]
        eqn:Hpm.
      destruct flow1; try discriminate.
      destruct (provisionMetric_continue _ _ _ _ _ Hpm) as [Hb1 _].
      apply (IH _ _ _ _ _ Hl name m' Hlook).
      destruct (decide (name0 = name)) as [<- | Hne].
      * right. exists m1. rewrite lookup_insert_eq. auto.
      * destruct Hwhy as [Hin | (m & Hm & Hb)].
        -- left. apply elem_of_cons in Hin. destruct Hin; congruence.
        -- right. exists m. rewrite lookup_insert_ne by exact Hne. auto.
    + pose proof (provisionLoop_frame _ _ _ _ _ _ _ Hl name0) as Hkeys.
      rewrite Hm0 in Hkeys.
      apply (IH _ _ _ _ _ Hl name m' Hlook).
      destruct Hwhy as [Hin | Hb]; [| right; exact Hb].
      apply elem_of_cons in Hin. destruct Hin as [-> | Hin]; [| left; exact Hin].
      rewrite Hlook in Hkeys. contradiction.
Qed.

Lemma Provision_outcome
    (order : list string) (mm mm' : MeterModule) (registry registry' : R)
    (addr : nat) (flow : Flow) :
  Provision order mm registry addr = (mm', registry', flow) ->
  sameDefinitions (Metrics mm) (Metrics mm')
  /\ (flow = Continue ->
      (forall name, is_Some (Metrics mm !! name) -> name ∈ order) ->
      forall name m',
        Metrics mm' !! name = Some m' -> collectorBound m').
Proof.
  unfold Provision. intros Hp.
  destruct (size (Metrics mm) =? 0)%nat eqn:Hsize.
  - inversion Hp; subst. split.
    + intros name.
      destruct (Metrics mm' !! name); [apply sameDefinition_refl | exact I].
    + intros _ _ name m' Hlook.
      apply Nat.eqb_eq in Hsize. apply map_size_empty_iff in Hsize.
      rewrite Hsize, lookup_empty in Hlook. discriminate.
  - destruct (provisionLoop order (Metrics mm) registry addr)
      as [[metrics1 registry1] flow1] eqn:Hl.
    inversion Hp; subst. cbn [Metrics].
    pose proof (provisionLoop_frame _ _ _ _ _ _ _ Hl) as Hframe.
    split; [exact Hframe |].
    intros -> Hall name m' Hlook.
    apply (provisionLoop_binds _ _ _ _ _ _ Hl name m' Hlook).
    left. apply Hall. specialize (Hframe name). rewrite Hlook in Hframe.
    destruct (Metrics mm !! name); [eauto | contradiction].
Qed.

(** Whatever its outcome, [Provision] adds and removes no definition and
    changes nothing of a definition but its collectors.  When it returns
    [nil], having ranged over every key of the map, every definition has
    the collector of its kind bound. *)
Theorem Provision_binds_every_definition
    (order : list string) (mm mm' : MeterModule) (registry registry' : R)
    (addr : nat) (flow : Flow) :
  Provision order mm registry addr = (mm', registry', flow) ->
  sameDefinitions (Metrics mm) (Metrics mm')
  /\ (flow = Continue ->
      (forall name, is_Some (Metrics mm !! name) -> name ∈ order) ->
      forall name m',
        Metrics mm' !! name = Some m' -> collectorBound m').
Proof. exact (Provision_outcome order mm mm' registry registry' addr flow). Qed.

(** A definition provisioned against a registry that refuses no collector
    holds a collector created with its export name and the names of its
    labels; what [report] then does is one call on it that passes one label
    value per label name of the collector and, position by position, the
    expansion of each label's value template under that label's name. *)
Theorem label_values_follow_label_names `{TP : Templates} `{CO : Collectors}
    (m : Metric) (registry : R) (addr : nat)
    (value : float64) (st : ReqState) :
  (forall c, fst (Register c registry) = None) ->
  Type_ m = MetricTypeCounter \/ Type_ m = MetricTypeHistogram ->
  let m' := fst (fst (provisionMetric m registry addr)) in
  exists call,
    report (directive m') value st = perform call st
    /\ callArityOk call
    /\ callBinding call
       = map (fun l => (Label_Name l,
                        ReplaceKnown (replacer st) (Label_Value l) "<empty>"))
             (Labels m).
Proof.
  intros Hfresh Hkind. cbv zeta. unfold provisionMetric.
  destruct Hkind as [Hty | Hty]; rewrite Hty.
  - cbn [String.eqb Ascii.eqb Bool.eqb MetricTypeCounter].
    pose proof (Hfresh (IsCounterVec
                          (mkCounterVec addr (ExportName m) (Description m)
                             (map Label_Name (Labels m))))) as Hreg.
    destruct (Register _ registry) as [err registry1]. cbn [fst] in Hreg.
    subst err. cbn [fst].
    eexists. split; [| split].
    + apply report_counter; [exact Hty | reflexivity].
    + cbn. unfold labelValues. cbn. rewrite !length_map. reflexivity.
    + cbn. unfold labelValues. cbn. apply zip_of_maps.
  - cbn [String.eqb Ascii.eqb Bool.eqb MetricTypeHistogram MetricTypeCounter].
    pose proof (Hfresh (IsHistogramVec
                          (mkHistogramVec addr (ExportName m) (Description m)
                             (Buckets m) (map Label_Name (Labels m))))) as Hreg.
    destruct (Register _ registry) as [err registry1]. cbn [fst] in Hreg.
    subst err. cbn [fst].
    eexists. split; [| split].
    + apply report_histogram; [exact Hty | reflexivity].
    + cbn. unfold labelValues. cbn. rewrite !length_map. reflexivity.
    + cbn. unfold labelValues. cbn. apply zip_of_maps.
Qed.

End ProvisioningMore.

(* ===================================================================== *)
(** ** The directive                                                      *)
(* ===================================================================== *)

Section DirectiveParsing.
Context {D : Type} `{DI : Dispenser D}.

Lemma takeMetricName_ok (h h' : Directive.t) (d d' : D) :
  takeMetricName h d = (h', d', None) ->
  d' = d
  /\ Directive.MetricName h' = Val d
  /\ Directive.MetricName h' <> ""
  /\ Directive.Matcher h' = Directive.Matcher h
  /\ Directive.useMetric h' = Directive.useMetric h.
Proof.
  unfold takeMetricName. cbn [Directive.MetricName].
  destruct (String.eqb_spec (Val d) "") as [E | N]; intros Ht;
    inversion Ht; subst. cbn. auto.
Qed.

Lemma UseMeter_UnmarshalCaddyfile_nil
    (h h' : Directive.t) (d d' : D) :
  UseMeter_UnmarshalCaddyfile h d = (h', d', None) ->
  Directive.MetricName h' = Val d'
  /\ Directive.MetricName h' <> ""
  /\ (Directive.Matcher h' = Directive.Matcher h
      \/ startsWithAt (Directive.Matcher h') = true)
  /\ Directive.useMetric h' = Directive.useMetric h.
Proof.
  unfold UseMeter_UnmarshalCaddyfile. intros Hu.
  destruct (Next d) as [ok d1]. destruct ok; cbn [negb] in Hu;
    [| discriminate].
  destruct (NextArg d1) as [isArg d2].
  destruct (isArg && startsWithAt (Val d2)) eqn:Hat.
  - apply andb_true_iff in Hat. destruct Hat as [_ Hat].
    destruct (NextArg d2) as [ok d3]. destruct ok; cbn [negb] in Hu;
      [| discriminate].
    destruct (takeMetricName_ok _ _ _ _ Hu) as (-> & Hn & Hne & Hm & Hu').
    cbn in Hm, Hu'. repeat split; auto. right. rewrite Hm. exact Hat.
  - destruct (takeMetricName_ok _ _ _ _ Hu) as (-> & Hn & Hne & Hm & Hu').
    repeat split; auto.
Qed.

(** When [UseMeter.UnmarshalCaddyfile] returns [nil], the metric name is
    the dispenser's current token and is not empty, the matcher is the one
    the directive had or a token that starts with [@], and [useMetric] is
    untouched. *)
Theorem UseMeter_UnmarshalCaddyfile_ok
    (h h' : Directive.t) (d d' : D) :
  UseMeter_UnmarshalCaddyfile h d = (h', d', None) ->
  Directive.MetricName h' = Val d'
  /\ Directive.MetricName h' <> ""
  /\ (Directive.Matcher h' = Directive.Matcher h
      \/ startsWithAt (Directive.Matcher h') = true)
  /\ Directive.useMetric h' = Directive.useMetric h.
Proof. exact (UseMeter_UnmarshalCaddyfile_nil h h' d d'). Qed.

(** [parseUseMeter] returns either a handler and no error, or no handler
    and an error.  A returned handler has a metric name that is not empty,
    a matcher that is empty or starts with [@], and no definition bound
    yet. *)
Theorem parseUseMeter_result (d : D) :
  match parseUseMeter d with
  | (Some h, err) =>
      err = None
      /\ Directive.MetricName h <> ""
      /\ (Directive.Matcher h = "" \/ startsWithAt (Directive.Matcher h) = true)
      /\ Directive.useMetric h = None
  | (None, err) => is_Some err
  end.
Proof.
  unfold parseUseMeter.
  destruct (UseMeter_UnmarshalCaddyfile zeroDirective d) as [[h d'] err] eqn:Hu.
  destruct err as [e |]; [eexists; reflexivity |].
  destruct (UseMeter_UnmarshalCaddyfile_nil _ _ _ _ Hu) as (_ & Hne & Hm & Hb).
  repeat split; auto.
Qed.

(** A directive with no argument is not refused: when [NextArg] fails
    after the directive's own token, the metric name is set to whatever
    token the dispenser is then on, and [nil] is returned as long as that
    token is not empty. *)
Theorem directive_without_argument (d d1 d2 : D) :
  Next d = (true, d1) ->
  NextArg d1 = (false, d2) ->
  Val d2 <> "" ->
  parseUseMeter d = (Some (Directive.mk "" (Val d2) None), None).
Proof.
  intros Hn Ha Hv. unfold parseUseMeter, UseMeter_UnmarshalCaddyfile.
  rewrite Hn. cbn [negb]. rewrite Ha. cbn [andb].
  unfold takeMetricName. cbn [Directive.MetricName].
  destruct (String.eqb_spec (Val d2) "") as [E | _]; [contradiction |].
  reflexivity.
Qed.

(** With a matcher and a name, both are taken, in this order. *)
Theorem directive_with_matcher (d d1 d2 d3 : D) :
  Next d = (true, d1) ->
  NextArg d1 = (true, d2) ->
  startsWithAt (Val d2) = true ->
  NextArg d2 = (true, d3) ->
  Val d3 <> "" ->
  parseUseMeter d = (Some (Directive.mk (Val d2) (Val d3) None), None).
Proof.
  intros Hn Ha Hat Hb Hv. unfold parseUseMeter, UseMeter_UnmarshalCaddyfile.
  rewrite Hn. cbn [negb]. rewrite Ha, Hat. cbn [andb]. rewrite Hb.
  cbn [negb]. unfold takeMetricName. cbn [Directive.MetricName].
  destruct (String.eqb_spec (Val d3) "") as [E | _]; [contradiction |].
  reflexivity.
Qed.

End DirectiveParsing.

(** [UseMeter.Provision] against the meter app: the error is [nil] exactly
    when the module defines the directive's metric name; the directive then
    holds that definition, and is otherwise left as it was with an error
    that names the metric.  Matcher and metric name are never changed. *)
Theorem UseMeter_Provision_binds_defined_name
    (h : Directive.t) (metricsList : MeterModule) :
  let result := UseMeter_Provision h (AppIsMeter metricsList) in
  (snd result = None
   <-> is_Some (Metrics metricsList !! Directive.MetricName h))
  /\ (snd result = None ->
      Directive.useMetric (fst result)
      = Metrics metricsList !! Directive.MetricName h)
  /\ (Metrics metricsList !! Directive.MetricName h = None ->
      result
      = (h, Some ("metric " ++ Directive.MetricName h ++ " not found")%string))
  /\ Directive.Matcher (fst result) = Directive.Matcher h
  /\ Directive.MetricName (fst result) = Directive.MetricName h.
Proof.
  cbv zeta. unfold UseMeter_Provision.
  destruct (Metrics metricsList !! Directive.MetricName h) as [m |] eqn:Hm;
    cbn.
  - split; [split; [eauto | reflexivity] |].
    split; [reflexivity |]. split; [discriminate |]. split; reflexivity.
  - split; [split; [discriminate | intros [x Hx]; discriminate] |].
    split; [discriminate |]. split; [reflexivity |]. split; reflexivity.
Qed.

(** When the configured app is not a [*MeterModule], [UseMeter.Provision]
    returns the [err] of the earlier call, which is [nil], and leaves the
    directive as it was; [ServeHTTP] on a directive that was never bound
    panics. *)
Theorem UseMeter_Provision_other_app
    `{SC : Strconv} `{TP : Templates} `{CO : Collectors}
    {W : Type} `{RW : ResponseWriter W}
    (h : Directive.t) (w : W) (st : ReqState) (next : Handler) :
  UseMeter_Provision h AppIsOther = (h, None)
  /\ (Directive.useMetric h = None ->
      Directive_ServeHTTP (fst (UseMeter_Provision h AppIsOther)) w st next
      = None).
Proof.
  split; [reflexivity |]. intros Hu. cbn.
  unfold Directive_ServeHTTP, boundDirective. rewrite Hu. reflexivity.
Qed.

(** Every definition [UnmarshalCaddyfile] leaves in the module is filed
    under its own name. *)
Lemma UnmarshalCaddyfile_keys_are_names
    `{SC : Strconv} {D : Type} `{DI : Dispenser D}
    (fuel : nat) (mm mm' : MeterModule) (d : D) (r : Res D)
    (name : string) (m : Metric) :
  UnmarshalCaddyfile fuel mm d = (mm', r) ->
  Metrics mm' !! name = Some m ->
  Name m = name.
Proof.
  intros Hu Hlook.
  destruct (UnmarshalCaddyfile_from_empty _ _ _ _ _ Hu)
    as [Hempty | (d0 & r0 & Hl)].
  - rewrite Hempty, lookup_empty in Hlook. discriminate.
  - assert (H0 : freshlyParsed ∅)
      by (intros n x Hx; rewrite lookup_empty in Hx; discriminate).
    exact (proj1 (metricsLoop_freshlyParsed _ _ _ _ _ H0 Hl name m Hlook)).
Qed.

(** From the Caddyfile to the request: after [UnmarshalCaddyfile] has
    built the module, [Provision] has returned [nil] on it having ranged
    over every key, and [UseMeter.Provision] has returned [nil] on a
    directive, the directive holds the definition parsed under its metric
    name, with the collector of its kind bound.  [ServeHTTP] on it then
    never panics for want of a definition or of a collector: it panics
    only where the downstream handler panics or the call on the collector
    does, and whenever it returns it returns the downstream handler's result
    and writer. *)
Theorem provisioned_directive_serves
    `{SC : Strconv} `{TP : Templates} `{CO : Collectors}
    {W : Type} `{RW : ResponseWriter W}
    {D : Type} `{DI : Dispenser D} {R : Type} `{RG : Registerer R}
    (fuel : nat) (mm0 mm mm' : MeterModule) (d : D) (r : Res D)
    (order : list string) (registry registry' : R) (addr : nat)
    (h h' : Directive.t) :
  UnmarshalCaddyfile fuel mm0 d = (mm, r) ->
  Provision order mm registry addr = (mm', registry', Continue) ->
  (forall name, is_Some (Metrics mm !! name) -> name ∈ order) ->
  UseMeter_Provision h (AppIsMeter mm') = (h', None) ->
  exists m m',
    Metrics mm !! Directive.MetricName h = Some m
    /\ Directive.useMetric h' = Some m'
    /\ sameDefinition m m'
    /\ Name m' = Directive.MetricName h
    /\ collectorBound m'
    /\ forall (w : W) (st : ReqState) (next : Handler),
         let u :=
           mkUseMeter (Directive.Matcher h') (Directive.MetricName h') m' in
         (Directive_ServeHTTP h' w st next = None ->
          callNext u w st next = None
          \/ exists rs v call,
               resolveState u w st next = Some rs
               /\ resolvedValue u w st next = Some v
               /\ report u v rs = perform call rs
               /\ callReturns call = false)
         /\ (forall res w' st',
               Directive_ServeHTTP h' w st next = Some (res, w', st') ->
               exists r', callNext u w st next = Some (res, w', r', clock st')).
Proof.
  intros Hu Hp Hall Hb.
  destruct (Provision_outcome _ _ _ _ _ _ _ Hp) as [Hframe Hbound].
  specialize (Hbound eq_refl Hall).
  unfold UseMeter_Provision in Hb.
  destruct (Metrics mm' !! Directive.MetricName h) as [m' |] eqn:Hm';
    [| discriminate].
  inversion Hb; subst h'. clear Hb.
  pose proof (Hframe (Directive.MetricName h)) as Hsame. rewrite Hm' in Hsame.
  destruct (Metrics mm !! Directive.MetricName h) as [m |] eqn:Hm;
    [| contradiction].
  pose proof (UnmarshalCaddyfile_keys_are_names fuel mm0 mm d r
                (Directive.MetricName h) m Hu Hm) as Hname.
  exists m, m'. cbn [Directive.useMetric].
  split; [reflexivity |]. split; [reflexivity |]. split; [exact Hsame |].
  split; [destruct Hsame as (_ & Hn & _); congruence |].
  split; [exact (Hbound _ _ Hm') |].
  intros w st next. cbv zeta.
  unfold Directive_ServeHTTP, boundDirective.
  cbn [Directive.useMetric Directive.Matcher Directive.MetricName].
  split.
  - apply ServeHTTP_panic_cause. exact (Hbound _ _ Hm').
  - intros res w' st' Hs.
    destruct (ServeHTTP_result _ w st next res w' st' Hs) as (r' & Hn & _).
    eauto.
Qed.

(* ===================================================================== *)
(** ** The further properties on concrete inputs                          *)
(* ===================================================================== *)

Section MoreRecordingRuns.
#[local] Existing Instance decimalStrconv.
#[local] Existing Instance scanTemplates.
#[local] Existing Instance clientGolang.

(** The handler that takes two seconds, sets status 404 and writes a body
    asserts nothing of the writer. *)
Lemma sink_is_transparent_witness :
  runHandler slowHandler (newResponse 100) (mkReplacer ∅) 1000%Z
  = match runHandler slowHandler
            (mkResponseWriter (newResponse 100) 0%Z 0%Z) (mkReplacer ∅)
            1000%Z with
    | Some (res, wrap', r', now') => Some (res, inner wrap', r', now')
    | None => None
    end.
Proof.
  refine (proj1 (sink_is_transparent slowHandler (newResponse 100)
                   (mkReplacer ∅) 1000%Z _)).
  cbn. intros _. exact I.
Defined.

(** A handler that asserts the writer to [http.Flusher] does tell the sink
    from the writer it wraps: on a writer that can flush it streams the
    body, on the sink around that writer it gives up. *)
Lemma streaming_handler_tells_the_sink :
  runHandler streamingHandler (newResponse 100) (mkReplacer ∅) 0%Z
  = Some (None, mkHttpResponse true 200%Z hiBody 98%Z, mkReplacer ∅, 0%Z)
  /\ runHandler streamingHandler
       (mkResponseWriter (newResponse 100) 0%Z 0%Z) (mkReplacer ∅) 0%Z
     = Some (Some "streaming unsupported",
             mkResponseWriter (newResponse 100) 0%Z 0%Z, mkReplacer ∅, 0%Z).
Proof. split; vm_compute; reflexivity. Qed.

(** Two writes of two bytes each, no time passing: size 4, duration 0. *)
Lemma deferred_publishes_size_and_duration_witness :
  exists res w' st',
    ServeHTTP (directive (counterMetric true "")) (newResponse 100)
      freshRequest twoWritesHandler = Some (res, w', st')
    /\ Replacer_Get (replacer st') "meter.response.size" = Some "4"
    /\ Replacer_Get (replacer st') "meter.response.duration" = Some "0".
Proof.
  destruct (ServeHTTP (directive (counterMetric true "")) (newResponse 100)
              freshRequest twoWritesHandler) as [[[res w'] st'] |] eqn:Hs.
  - destruct (deferred_publishes_size_and_duration
                (directive (counterMetric true "")) (newResponse 100)
                freshRequest twoWritesHandler res w' st' eq_refl Hs)
      as (Hsize & Hdur & _).
    exists res, w', st'. split; [reflexivity |].
    rewrite Hsize, Hdur. split; vm_compute; reflexivity.
  - vm_compute in Hs. discriminate.
Defined.

(** A deferred histogram and the handler that takes two seconds. *)
Lemma ServeHTTP_returns_downstream_witness :
  exists st',
    ServeHTTP (directive (histogramMetric true "")) (newResponse 100)
      freshRequest slowHandler
    = Some (None, mkHttpResponse true 404%Z hiBody 98%Z, st')
    /\ clock st' = 2000001000%Z.
Proof.
  destruct (ServeHTTP (directive (histogramMetric true "")) (newResponse 100)
              freshRequest slowHandler) as [[[res w'] st'] |] eqn:Hs.
  - destruct (proj1 (ServeHTTP_returns_downstream
                       (directive (histogramMetric true ""))
                       (newResponse 100) freshRequest slowHandler)
                res w' st' Hs) as (r' & Hnext & _).
    assert (Hrun : callNext (directive (histogramMetric true ""))
                     (newResponse 100) freshRequest slowHandler
                   = Some (None, mkHttpResponse true 404%Z hiBody 98%Z,
                           mkReplacer ∅, 2000001000%Z))
      by (vm_compute; reflexivity).
    rewrite Hrun in Hnext. inversion Hnext; subst.
    exists st'. split; [reflexivity | symmetry; assumption].
  - vm_compute in Hs. discriminate.
Defined.

(** The same handler on a histogram whose buckets are those of the line
    [buckets 5 1 1 0.5]: the collector is bound and the handler returns,
    and the request panics in the call on the collector. *)
Lemma unsorted_buckets_call_panics :
  let m :=
    mkMetric MetricTypeHistogram "sizes" "sizes" "" []
      [5%float; 1%float; 1%float; 0.5%float] true "" None
      (Some (mkHistogramVec 0 "sizes" ""
               [5%float; 1%float; 1%float; 0.5%float] [])) in
  ServeHTTP (directive m) (newResponse 100) freshRequest slowHandler = None
  /\ callNext (directive m) (newResponse 100) freshRequest slowHandler
     = Some (None, mkHttpResponse true 404%Z hiBody 98%Z, mkReplacer ∅,
             2000001000%Z).
Proof. split; vm_compute; reflexivity. Qed.

(** A Counter whose value template gives a negative number: the call on
    the collector panics, and the downstream handler is never called. *)
Lemma negative_counter_value_panics :
  ParseFloat (ReplaceAll (replacer freshRequest) "-1" "1")
  = Some (PrimFloat.opp 1%float)
  /\ ServeHTTP (directive (counterMetric false "-1")) (newResponse 100)
       freshRequest bodyOnlyHandler = None.
Proof. split; vm_compute; reflexivity. Qed.

(** An immediate counter with no template. *)
Lemma immediate_default_value_witness :
  ServeHTTP (directive (counterMetric false "")) (newResponse 100)
    freshRequest bodyOnlyHandler
  = Some (None, mkHttpResponse true 200%Z hiBody 98%Z,
          mkReqState (mkReplacer ∅) 1000%Z
            [CounterAdd exampleCounterVec [] 1%float]).
Proof.
  rewrite (proj1 (immediate_default_value
                    (directive (counterMetric false "")) (newResponse 100)
                    freshRequest bodyOnlyHandler eq_refl eq_refl)
             exampleCounterVec eq_refl eq_refl).
  vm_compute. reflexivity.
Defined.

(** A deferred counter whose value is the size of a two-byte response. *)
Lemma counter_never_added_zero_witness :
  exists res w' st' c v,
    ServeHTTP (directive (counterMetric true "{meter.response.size}"))
      (newResponse 100) freshRequest bodyOnlyHandler = Some (res, w', st')
    /\ backend st' = [CounterAdd c [] v]
    /\ float_is_zero v = false.
Proof.
  destruct (ServeHTTP (directive (counterMetric true "{meter.response.size}"))
              (newResponse 100) freshRequest bodyOnlyHandler)
    as [[[res w'] st'] |] eqn:Hs.
  - destruct (counter_never_added_zero
                (directive (counterMetric true "{meter.response.size}"))
                (newResponse 100) freshRequest bodyOnlyHandler res w' st'
                eq_refl Hs) as (c & rs & value & v & _ & _ & _ & Hb & Hz & _).
    exists res, w', st', c, v. split; [reflexivity |].
    split; [exact Hb | exact Hz].
  - vm_compute in Hs. discriminate.
Defined.

(** A handler that sets a variable of its own and, before the deferred path
    does, [meter.response.status]: the first is left as the handler set it,
    the second is set again. *)
Lemma ServeHTTP_sets_only_response_variables_witness :
  exists res w' st',
    ServeHTTP (directive (counterMetric true "")) (newResponse 100)
      freshRequest settingHandler = Some (res, w', st')
    /\ Replacer_Get (replacer st') "user" = Some "ada".
Proof.
  destruct (ServeHTTP (directive (counterMetric true "")) (newResponse 100)
              freshRequest settingHandler) as [[[res w'] st'] |] eqn:Hs.
  - destruct (ServeHTTP_sets_only_response_variables
                (directive (counterMetric true "")) (newResponse 100)
                freshRequest settingHandler res w' st' Hs)
      as (r' & Hnext & _ & Hframe & _).
    exists res, w', st'. split; [reflexivity |].
    rewrite (Hframe "user").
    + assert (Hrun : callNext (directive (counterMetric true ""))
                       (newResponse 100) freshRequest settingHandler
                     = Some (None, mkHttpResponse true 200%Z hiBody 98%Z,
                             Replacer_Set "meter.response.status" "teapot"
                               (Replacer_Set "user" "ada" (mkReplacer ∅)),
                             1000%Z))
        by (vm_compute; reflexivity).
      rewrite Hrun in Hnext. inversion Hnext; subst.
      vm_compute. reflexivity.
    + unfold responseVariables. intros Hin.
      repeat (apply elem_of_cons in Hin; destruct Hin as [Hin | Hin];
              [discriminate |]).
      inversion Hin.
  - vm_compute in Hs. discriminate.
Defined.

(** In that run the status the handler set is overwritten by the sink's. *)
Lemma handler_set_status_is_overwritten :
  exists st',
    ServeHTTP (directive (counterMetric true "")) (newResponse 100)
      freshRequest settingHandler
    = Some (None, mkHttpResponse true 200%Z hiBody 98%Z, st')
    /\ Replacer_Get (replacer st') "meter.response.status" = Some "0".
Proof. eexists. split; vm_compute; reflexivity. Qed.

End MoreRecordingRuns.

(** The moves of the token dispenser leave its tokens alone, and its
    current token is one of them or the empty string. *)
Lemma td_Val_in_tokens (d : TokenDispenser) :
  td_Val d = "" \/ td_Val d ∈ map Text (tokens d).
Proof.
  unfold td_Val, tokenAt. destruct (cursor d <? 0)%Z; [left; reflexivity |].
  destruct (tokens d !! Z.to_nat (cursor d)) as [t |] eqn:Ht;
    [| left; reflexivity].
  right. apply list_elem_of_fmap. exists t. split; [reflexivity |].
  apply list_elem_of_lookup. eauto.
Qed.

Lemma noAfterResponse_Val (d : TokenDispenser) :
  noAfterResponse d -> Val d <> "after_response".
Proof.
  unfold noAfterResponse. intros Hno Hv. cbn in Hv.
  destruct (td_Val_in_tokens d) as [E | Hin].
  - rewrite E in Hv. discriminate.
  - rewrite Hv in Hin. contradiction.
Qed.

Lemma noAfterResponse_Next (d : TokenDispenser) :
  noAfterResponse d -> noAfterResponse (snd (Next d)).
Proof.
  unfold noAfterResponse. intros Hno.
  destruct (td_Next_moved d) as (Ht & _). cbn. rewrite Ht. exact Hno.
Qed.

Lemma noAfterResponse_NextArg (d : TokenDispenser) :
  noAfterResponse d -> noAfterResponse (snd (NextArg d)).
Proof.
  unfold noAfterResponse. intros Hno.
  destruct (td_NextArg_moved d) as (Ht & _). cbn. rewrite Ht. exact Hno.
Qed.

Lemma noAfterResponse_NextBlock (n : nat) (d : TokenDispenser) :
  noAfterResponse d -> noAfterResponse (snd (NextBlock n d)).
Proof.
  unfold noAfterResponse. intros Hno.
  destruct (td_NextBlock_moved n d) as (Ht & _). cbn. rewrite Ht. exact Hno.
Qed.

Lemma map_Register_empty (c : Collector) :
  fst (Register c (∅ : gmap string Collector)) = None.
Proof.
  cbn. unfold map_Register.
  destruct (collectorDims c) as [[name dims] |]; [| reflexivity].
  rewrite lookup_empty. reflexivity.
Qed.

Section MoreParserRuns.
#[local] Existing Instance decimalStrconv.
#[local] Existing Instance scanTemplates.
#[local] Set Warnings "-inexact-float".

(** The histogram of the README's example. *)
Lemma UnmarshalCaddyfile_well_formed_witness :
  wellFormed
    (mkMetric MetricTypeHistogram "response_time" "response_time"
       "Response time in seconds"
       [mkLabel "method" "" "{http.request.method}"]
       [0.1%float; 0.3%float; 1.2%float; 5%float] true "" None None).
Proof.
  destruct readme_parses as [d Hparse].
  apply (UnmarshalCaddyfile_well_formed 40 (mkMeterModule ∅) _
           (NewDispenser readmeTokens) _ "response_time" _ Hparse).
  vm_compute. reflexivity.
Defined.

(** The second block of [duplicateTokens], with the first in the map. *)
Lemma parseMetric_never_redefines_witness :
  isOk (parseMetric 20 MetricTypeHistogram (mkDispenser duplicateTokens 8 1)
          (<["a" := newMetric MetricTypeCounter]> ∅))
  = false.
Proof.
  apply (parseMetric_never_redefines 20 MetricTypeHistogram
           (mkDispenser duplicateTokens 8 1)
           (<["a" := newMetric MetricTypeCounter]> ∅)).
  eexists. vm_compute. reflexivity.
Defined.

(** The whole parse of [duplicateTokens]: the second block is refused, the
    first definition stays. *)
Lemma duplicate_blocks_parse :
  UnmarshalCaddyfile 20 (mkMeterModule ∅) (NewDispenser duplicateTokens)
  = (mkMeterModule
       (<["a" := mkMetric MetricTypeCounter "a" "a" "first" [] [] false ""
                   None None]> ∅),
     Err "metric a already defined").
Proof. vm_compute. reflexivity. Qed.

(** The labels block of the README's counter. *)
Lemma labels_option_keeps_order_witness :
  parseOption 3 MetricTypeCounter (mkDispenser readmeTokens 7 2)
    (newMetric MetricTypeCounter)
  = Ok (set_Labels
          [mkLabel "method" "" "{http.request.method}";
           mkLabel "path" "" "{http.request.uri}"]
          (newMetric MetricTypeCounter),
        mkDispenser readmeTokens 13 2).
Proof.
  destruct (labels_option_keeps_order 3 MetricTypeCounter
              (mkDispenser readmeTokens 7 2) (mkDispenser readmeTokens 13 2)
              (newMetric MetricTypeCounter)
              [("method", "{http.request.method}");
               ("path", "{http.request.uri}")]%string)
    as (Hopt & _ & _).
  - reflexivity.
  - refine (labelRun_line (mkDispenser readmeTokens 7 2)
              (mkDispenser readmeTokens 9 3) (mkDispenser readmeTokens 10 3)
              _ [("path", "{http.request.uri}")]%string eq_refl _ eq_refl _).
    + discriminate.
    + refine (labelRun_line (mkDispenser readmeTokens 10 3)
                (mkDispenser readmeTokens 11 3) (mkDispenser readmeTokens 12 3)
                _ [] eq_refl _ eq_refl _).
      * discriminate.
      * exact (labelRun_end (mkDispenser readmeTokens 12 3)
                 (mkDispenser readmeTokens 13 2) eq_refl).
  - cbn. lia.
  - exact Hopt.
Defined.

Lemma readmeTokens_noAfterResponse :
  noAfterResponse (NewDispenser readmeTokens).
Proof.
  unfold noAfterResponse. cbn. intros Hin.
  repeat (apply elem_of_cons in Hin; destruct Hin as [Hin | Hin];
          [discriminate |]).
  inversion Hin.
Qed.

(** The counter of the README's example, whose tokens hold no
    [after_response]. *)
Lemma counter_immediate_without_after_response_witness :
  AfterResponse
    (mkMetric MetricTypeCounter "my_requests" "my_requests"
       "Number of requests"
       [mkLabel "method" "" "{http.request.method}";
        mkLabel "path" "" "{http.request.uri}"]
       [] false "" None None)
  = false.
Proof.
  destruct readme_parses as [d Hparse].
  apply (counter_immediate_without_after_response noAfterResponse
           noAfterResponse_Val noAfterResponse_Next noAfterResponse_NextArg
           noAfterResponse_NextBlock 40 (mkMeterModule ∅) _
           (NewDispenser readmeTokens) _ "my_requests" _
           readmeTokens_noAfterResponse Hparse).
  - vm_compute. reflexivity.
  - reflexivity.
Defined.

End MoreParserRuns.

Section MoreProvisioningRuns.
#[local] Existing Instance decimalStrconv.
#[local] Existing Instance scanTemplates.
#[local] Existing Instance clientGolang.
#[local] Set Warnings "-inexact-float".

(** A counter and a histogram against an empty registry. *)
Lemma Provision_binds_every_definition_witness :
  sameDefinitions (Metrics twoKindsModule)
    (Metrics (fst (fst (Provision ["a"; "b"]%string twoKindsModule
                          (∅ : gmap string Collector) 0))))
  /\ collectorBound
       (mkMetric MetricTypeHistogram "b" "y" "" [] [] true "" None
          (Some (mkHistogramVec 1 "y" "" [] []))).
Proof.
  destruct (Provision_binds_every_definition ["a"; "b"]%string twoKindsModule
              (fst (fst (Provision ["a"; "b"]%string twoKindsModule
                           (∅ : gmap string Collector) 0)))
              (∅ : gmap string Collector)
              (snd (fst (Provision ["a"; "b"]%string twoKindsModule
                           (∅ : gmap string Collector) 0)))
              0 Continue) as [Hframe Hbound].
  - vm_compute. reflexivity.
  - split; [exact Hframe |].
    apply (Hbound eq_refl) with (name := "b"%string).
    + intros name [m Hm]. unfold twoKindsModule in Hm. cbn [Metrics] in Hm.
      destruct (decide (name = "a"%string)) as [-> | Na]; [set_solver |].
      destruct (decide (name = "b"%string)) as [-> | Nb]; [set_solver |].
      rewrite !lookup_insert_ne, lookup_empty in Hm by congruence.
      discriminate.
    + vm_compute. reflexivity.
Defined.

(** The labelled counter against an empty registry, then a request that
    knows the response status. *)
Lemma label_values_follow_label_names_witness :
  exists call,
    report (directive (fst (fst (provisionMetric labelledCounter
                                   (∅ : gmap string Collector) 0))))
      1%float statusKnownRequest
    = perform call statusKnownRequest
    /\ callBinding call
       = [("method", "{http.request.method}"); ("code", "404")]%string.
Proof.
  destruct (label_values_follow_label_names labelledCounter
              (∅ : gmap string Collector) 0 1%float statusKnownRequest
              map_Register_empty (or_introl eq_refl))
    as (call & Hrep & _ & Hbind).
  exists call. split; [exact Hrep |]. rewrite Hbind. vm_compute. reflexivity.
Defined.

(** The directive [meter @api hits]. *)
Lemma UseMeter_UnmarshalCaddyfile_ok_witness :
  Directive.MetricName (Directive.mk "@api" "hits" None)
  = Val (mkDispenser matcherDirectiveTokens 2 0)
  /\ Directive.MetricName (Directive.mk "@api" "hits" None) <> ""
  /\ (Directive.Matcher (Directive.mk "@api" "hits" None)
      = Directive.Matcher zeroDirective
      \/ startsWithAt (Directive.Matcher (Directive.mk "@api" "hits" None))
         = true)
  /\ Directive.useMetric (Directive.mk "@api" "hits" None)
     = Directive.useMetric zeroDirective.
Proof.
  apply (UseMeter_UnmarshalCaddyfile_ok zeroDirective
           (Directive.mk "@api" "hits" None)
           (NewDispenser matcherDirectiveTokens)
           (mkDispenser matcherDirectiveTokens 2 0)).
  reflexivity.
Defined.

(** The directive [meter] alone on its line, with Caddy's dispenser: the
    metric name is the directive's own name. *)
Lemma directive_without_argument_witness :
  parseUseMeter (NewDispenser bareDirectiveTokens)
  = (Some (Directive.mk "" "meter" None), None).
Proof.
  refine (directive_without_argument (NewDispenser bareDirectiveTokens)
            (mkDispenser bareDirectiveTokens 0 0)
            (mkDispenser bareDirectiveTokens 0 0) eq_refl eq_refl _).
  discriminate.
Defined.

(** The README's example, from its tokens to a request on the directive
    [meter response_time]. *)
Lemma provisioned_directive_serves_witness :
  snd readmeDirective = None
  /\ (exists m',
        Directive.useMetric (fst readmeDirective) = Some m'
        /\ Name m' = "response_time" /\ collectorBound m')
  /\ exists st',
       Directive_ServeHTTP (fst readmeDirective) (newResponse 100)
         freshRequest slowHandler
       = Some (None, mkHttpResponse true 404%Z hiBody 98%Z, st').
Proof.
  destruct readme_parses as [d Hparse].
  assert (H1 : UnmarshalCaddyfile 40 (mkMeterModule ∅)
                 (NewDispenser readmeTokens) = (readmeModule, Ok d)).
  { unfold readmeModule. rewrite Hparse. reflexivity. }
  assert (H2 : Provision ["my_requests"; "response_time"]%string readmeModule
                 (∅ : gmap string Collector) 0
               = (fst (fst readmeProvisioned), snd (fst readmeProvisioned),
                  Continue)).
  { vm_compute. reflexivity. }
  assert (H3 : forall name,
             is_Some (Metrics readmeModule !! name) ->
             name ∈ ["my_requests"; "response_time"]%string).
  { intros name [x Hx]. unfold readmeModule in Hx. rewrite Hparse in Hx.
    cbn [fst Metrics] in Hx. clear Hparse H1 H2.
    destruct (decide (name = "my_requests"%string)) as [-> | Na];
      [set_solver |].
    destruct (decide (name = "response_time"%string)) as [-> | Nb];
      [set_solver |].
    rewrite !lookup_insert_ne, lookup_empty in Hx by congruence.
    discriminate. }
  assert (H4 : UseMeter_Provision (Directive.mk "" "response_time" None)
                 (AppIsMeter (fst (fst readmeProvisioned)))
               = (fst readmeDirective, None)).
  { vm_compute. reflexivity. }
  destruct (@provisioned_directive_serves _ _ _ httpResponse _ _ _ _ _
              40 (mkMeterModule ∅) readmeModule
              (fst (fst readmeProvisioned)) (NewDispenser readmeTokens) (Ok d)
              ["my_requests"; "response_time"]%string
              (∅ : gmap string Collector) (snd (fst readmeProvisioned))
              0 (Directive.mk "" "response_time" None) (fst readmeDirective)
              H1 H2 H3 H4)
    as (m & m' & _ & Hbound & _ & Hname & Hcollector & _).
  split; [vm_compute; reflexivity |].
  split; [exists m'; auto |].
  clear. eexists. vm_compute. reflexivity.
Defined.

(** The Caddyfile [unsortedTokens] gets as far: it parses, [Provision] and
    [UseMeter.Provision] return [nil], and the collector is bound with the
    buckets of the line [buckets 5 1 1 0.5].  A request then panics in the
    call on the collector, though the downstream handler returns. *)
Lemma unsorted_buckets_directive_panics :
  let mm := fst (UnmarshalCaddyfile 20 (mkMeterModule ∅)
                   (NewDispenser unsortedTokens)) in
  let provisioned :=
    Provision ["sizes"]%string mm (∅ : gmap string Collector) 0 in
  let bound :=
    UseMeter_Provision (Directive.mk "" "sizes" None)
      (AppIsMeter (fst (fst provisioned))) in
  snd provisioned = Continue
  /\ snd bound = None
  /\ Directive_ServeHTTP (fst bound) (newResponse 100) freshRequest
       bodyOnlyHandler = None
  /\ runHandler bodyOnlyHandler (mkResponseWriter (newResponse 100) 0%Z 0%Z)
       (replacer freshRequest) (clock freshRequest)
     = Some (None,
             mkResponseWriter (mkHttpResponse true 200%Z hiBody 98%Z) 0%Z 2%Z,
             mkReplacer ∅, 1000%Z).
Proof. cbv zeta. repeat split; vm_compute; reflexivity. Qed.

End MoreProvisioningRuns.
